(** * Lab-access compliance engine: a shallow embedding and its properties

    The development follows [compliance/models.py],
    [compliance/routes/manager.py], [compliance/routes/engineer.py],
    [compliance/routes/admin.py], [compliance/routes/views.py],
    [compliance/auth_utils.py] and [compliance/utils_audit.py].

    - Python integers are [Z]; [//] and [%] with a positive divisor are
      [Z.div] and [Z.modulo] (both floor).
    - [datetime.date] is a record of year, month and day; its constructor
      raises [ValueError] outside the proleptic Gregorian calendar of the
      years 1..9999, and [OverflowError] on a year that is no C [int],
      which is kept here as a [result].
    - The relational store is a record of tables, each a list of rows in
      table order.  A query without ORDER BY is answered in table order
      here, where SQLite may answer it from an index: the properties below
      hold for every order of the rows, or name the condition under which
      the order does not matter.  UNIQUE and CHECK constraints of
      [models.py] are checked
      by the statements that insert or update; FOREIGN KEY clauses are not
      enforced, as with the default SQLite backend of [config.py] (the code
      itself tests for dangling course references).
    - A request handler maps the committed store to the committed store
      after the request, together with its response: a flashed message
      followed by a redirect, or an exception that escaped the handler, in
      which case the open transaction is rolled back.  Handlers are taken
      after [require_roles] has let the request through, and form fields
      after their conversion to integers.
    - An integer bound to a statement must be an SQLite [INTEGER], of 64
      bits, or the binding raises [OverflowError].  [_ensure_access_state]
      and [metrics_save] carry the check for the ids that [approve],
      [revoke] and [metrics_save] take from the form; the other queries
      are modelled on ids in that range.
    - The routes of [Route] are the same views behind [require_roles].  The
      forms of [routes/admin.py] take their fields as the strings of the
      request are read: text fields after [strip()], numeric fields by
      what [int(..)] makes of them, an attached file by the outcome of its
      upload. *)

From Stdlib Require Import ZArith List Bool String Lia.
Import ListNotations.
Local Open Scope string_scope.
Local Open Scope list_scope.
Local Open Scope Z_scope.

(* ------------------------------------------------------------------ *)
(** ** Exceptions *)

Inductive exn : Type :=
| ValueError
| IntegrityError
| OverflowError.

Inductive result (A : Type) : Type :=
| Ok (a : A)
| Raise (e : exn).

Arguments Ok {A} a.
Arguments Raise {A} e.

Definition bind {A B : Type} (c : result A) (k : A -> result B) : result B :=
  match c with
  | Ok a => k a
  | Raise e => Raise e
  end.

Notation "x <- c ;; k" := (bind c (fun x => k))
  (at level 61, c at next level, right associativity).

(* ------------------------------------------------------------------ *)
(** ** [datetime.date] *)

Module Date.

Record t : Type := mk { year : Z; month : Z; day : Z }.

Definition MINYEAR : Z := 1.
Definition MAXYEAR : Z := 9999.

(** Gregorian rule: divisible by 4, and not by 100 unless by 400. *)
Definition is_leap (y : Z) : bool :=
  (y mod 4 =? 0) && (negb (y mod 100 =? 0) || (y mod 400 =? 0)).

Definition days_in_month (y m : Z) : Z :=
  if m =? 2 then (if is_leap y then 29 else 28)
  else if (m =? 4) || (m =? 6) || (m =? 9) || (m =? 11) then 30
  else 31.

(** The fields a [date] object can hold. *)
Definition valid (d : t) : bool :=
  (MINYEAR <=? year d) && (year d <=? MAXYEAR)
  && (1 <=? month d) && (month d <=? 12)
  && (1 <=? day d) && (day d <=? days_in_month (year d) (month d)).

(** The constructor reads its arguments as C [int]s, of 32 bits. *)
Definition fits_c_int (n : Z) : bool := (- 2 ^ 31 <=? n) && (n <? 2 ^ 31).

(** [date(y, m, d)]: raises [OverflowError] on an argument that is no C
    [int], and [ValueError] on fields out of range. *)
Definition date (y m d : Z) : result t :=
  if negb (fits_c_int y && fits_c_int m && fits_c_int d)
  then Raise OverflowError
  else if valid (mk y m d) then Ok (mk y m d) else Raise ValueError.

Definition eqb (a b : t) : bool :=
  (year a =? year b) && (month a =? month b) && (day a =? day b).

(** Chronological order, as [date.__le__] and SQL [ORDER BY] on a date. *)
Definition leb (a b : t) : bool :=
  (year a <? year b)
  || ((year a =? year b)
      && ((month a <? month b)
          || ((month a =? month b) && (day a <=? day b)))).

Definition days_before_year (y : Z) : Z :=
  (y - 1) * 365 + (y - 1) / 4 - (y - 1) / 100 + (y - 1) / 400.

Definition days_before_month (y m : Z) : Z :=
  nth (Z.to_nat (m - 1))
      [0; 31; 59; 90; 120; 151; 181; 212; 243; 273; 304; 334] 0
  + (if (2 <? m) && is_leap y then 1 else 0).

(** [d.toordinal()]: the day number, 0001-01-01 being day 1. *)
Definition toordinal (d : t) : Z :=
  days_before_year (year d) + days_before_month (year d) (month d) + day d.

End Date.

(* ------------------------------------------------------------------ *)
(** ** Calendar arithmetic ([routes/manager.py]) *)

(** [_add_months(d, months)] *)
Definition _add_months (d : Date.t) (months : Z) : result Date.t :=
  let y := Date.year d + (Date.month d - 1 + months) / 12 in
  let m := (Date.month d - 1 + months) mod 12 + 1 in
  let day :=
    Z.min (Date.day d)
          (nth (Z.to_nat (m - 1))
               [31;
                if (y mod 4 =? 0) && (negb (y mod 100 =? 0) || (y mod 400 =? 0))
                then 29 else 28;
                31; 30; 31; 30; 31; 31; 30; 31; 30; 31] 0) in
  Date.date y m day.

(* ------------------------------------------------------------------ *)
(** ** Entities ([models.py]) *)

Module Engineer.
Record t : Type := mk
  { id : Z; employee_no : string; name : string; email : string }.
End Engineer.

Module Lab.
Record t : Type := mk
  { id : Z; code : string; name : string; grace_days : Z }.
End Lab.

Module Course.
Record t : Type := mk
  { id : Z; code : string; name : string; valid_months : option Z }.
End Course.

Module LabRequirement.
Record t : Type := mk
  { id : Z; lab_id : Z; course_id : Z; valid_months : option Z }.
End LabRequirement.

Module Completion.
Record t : Type := mk
  { id : Z; engineer_id : Z; course_id : Z; date_taken : Date.t;
    certificate_url : option string; s3_key : option string }.
End Completion.

Module Document.
Record t : Type := mk
  { id : Z; lab_id : Z; title : string; version : Z; mandatory : bool;
    s3_key : option string; uploaded_at : Z }.
End Document.

Module DocumentAck.
Record t : Type := mk
  { id : Z; engineer_id : Z; document_id : Z; version : Z; acked_at : Z }.
End DocumentAck.

(** [LabAccess.status]: the three strings admitted by [ck_access_status]. *)
Inductive Status : Type :=
| pending
| active
| revoked.

Definition status_eqb (a b : Status) : bool :=
  match a, b with
  | pending, pending | active, active | revoked, revoked => true
  | _, _ => false
  end.

Module LabAccess.
Record t : Type := mk
  { id : Z; engineer_id : Z; lab_id : Z; status : Status;
    reason_code : option string; effective_at : Z }.
End LabAccess.

Module LabMetrics.
Record t : Type := mk
  { id : Z; lab_id : Z; asof : Date.t;
    utilization : Z; condition : Z; activity : Z }.
End LabMetrics.

(** [entity_id] of an audit row: [f"{engineer_id}:{lab_id}"],
    [f"{lab_id}:{asof.isoformat()}"] or
    [f"{engineer_id}:{document_id}:{version}"], kept structured. *)
Inductive EntityId : Type :=
| PairId (engineer_id lab_id : Z)
| MetricsId (lab_id : Z) (asof : Date.t)
| AckId (engineer_id document_id version : Z).

(** A value of the [**meta] keywords of [audit]. *)
Inductive MetaValue : Type :=
| MStr (s : string)
| MInt (n : Z).

Module AuditLog.
Record t : Type := mk
  { at_ : Z; actor_user_id : option Z; action : string; entity : string;
    entity_id : EntityId; meta : list (string * MetaValue) }.
End AuditLog.

(** The committed database. *)
Record Store : Type := mkStore
  { engineers : list Engineer.t;
    labs : list Lab.t;
    courses : list Course.t;
    lab_requirements : list LabRequirement.t;
    completions : list Completion.t;
    documents : list Document.t;
    document_acks : list DocumentAck.t;
    lab_access : list LabAccess.t;
    lab_metrics : list LabMetrics.t;
    audit_log : list AuditLog.t }.

Definition set_lab_access (s : Store) (tbl : list LabAccess.t) : Store :=
  mkStore (engineers s) (labs s) (courses s) (lab_requirements s)
          (completions s) (documents s) (document_acks s) tbl
          (lab_metrics s) (audit_log s).

Definition set_lab_metrics (s : Store) (tbl : list LabMetrics.t) : Store :=
  mkStore (engineers s) (labs s) (courses s) (lab_requirements s)
          (completions s) (documents s) (document_acks s) (lab_access s)
          tbl (audit_log s).

Definition set_audit_log (s : Store) (tbl : list AuditLog.t) : Store :=
  mkStore (engineers s) (labs s) (courses s) (lab_requirements s)
          (completions s) (documents s) (document_acks s) (lab_access s)
          (lab_metrics s) tbl.

(** What a handler reads from its surroundings: [g.user_id],
    [date.today()] and [datetime.utcnow()]. *)
Record Request : Type := mkRequest
  { g_user_id : option Z; today : Date.t; utcnow : Z }.

(* ------------------------------------------------------------------ *)
(** ** Queries *)

(** [.first()] *)
Definition first {A : Type} (rows : list A) : option A :=
  match rows with
  | [] => None
  | r :: _ => Some r
  end.

(** [.order_by(key.desc()).first()]: a row of greatest key; among rows of
    equal key the one met first in table order. *)
Fixpoint first_desc {A : Type} (leb : A -> A -> bool) (rows : list A)
  : option A :=
  match rows with
  | [] => None
  | r :: rest =>
      match first_desc leb rest with
      | None => Some r
      | Some r' => if leb r' r then Some r else Some r'
      end
  end.

(** [Lab.query.get(lab_id)] and the like: lookup by primary key. *)
Definition Engineer_get (s : Store) (pk : Z) : option Engineer.t :=
  find (fun e => Engineer.id e =? pk) (engineers s).

Definition Lab_get (s : Store) (pk : Z) : option Lab.t :=
  find (fun l => Lab.id l =? pk) (labs s).

Definition Course_get (s : Store) (pk : Z) : option Course.t :=
  find (fun c => Course.id c =? pk) (courses s).

(** The next value of an autoincrement primary key. *)
Definition next_id (ids : list Z) : Z := 1 + fold_right Z.max 0 ids.

(** An integer that can be bound to a statement as an SQLite [INTEGER], of
    64 bits; binding any other raises [OverflowError]. *)
Definition fits_integer (n : Z) : bool := (- 2 ^ 63 <=? n) && (n <? 2 ^ 63).

(* ------------------------------------------------------------------ *)
(** ** Compliance evaluators ([routes/manager.py]) *)

(** [_latest_completion(engineer_id, course_id)] *)
Definition _latest_completion (s : Store) (engineer_id course_id : Z)
  : option Completion.t :=
  first_desc
    (fun a b => Date.leb (Completion.date_taken a) (Completion.date_taken b))
    (filter (fun c => (Completion.engineer_id c =? engineer_id)
                      && (Completion.course_id c =? course_id))
            (completions s)).

(** [_is_training_current(engineer_id, course, override_months, grace_days,
    asof)] *)
Definition _is_training_current (s : Store) (engineer_id : Z)
    (course : Course.t) (override_months : option Z) (grace_days : Z)
    (asof : Date.t) : result bool :=
  let months :=
    match override_months with
    | Some m => Some m
    | None => Course.valid_months course
    end in
  match months with
  | None => Ok false
  | Some months =>
      if (months =? 0) || (months <=? 0) then Ok false
      else
        match _latest_completion s engineer_id (Course.id course) with
        | None => Ok false
        | Some comp =>
            due <- _add_months (Completion.date_taken comp) months ;;
            let due_grace := Date.toordinal due + grace_days in
            Ok (Date.toordinal asof <=? due_grace)
        end
  end.

(** The [for d in docs] loop of [_has_required_acks]. *)
Fixpoint acks_loop (s : Store) (engineer_id : Z) (docs : list Document.t)
  : bool :=
  match docs with
  | [] => true
  | d :: rest =>
      match first (filter
                     (fun a => (DocumentAck.engineer_id a =? engineer_id)
                               && (DocumentAck.document_id a =? Document.id d)
                               && (DocumentAck.version a =? Document.version d))
                     (document_acks s)) with
      | None => false
      | Some _ => acks_loop s engineer_id rest
      end
  end.

(** [_has_required_acks(engineer_id, lab_id)] *)
Definition _has_required_acks (s : Store) (engineer_id lab_id : Z) : bool :=
  let docs :=
    filter (fun d => (Document.lab_id d =? lab_id) && Document.mandatory d)
           (documents s) in
  match docs with
  | [] => true
  | _ => acks_loop s engineer_id docs
  end.

(** The [for r in reqs] loop of [is_compliant_for_lab]; [Ok true] when the
    loop falls through. *)
Fixpoint reqs_loop (s : Store) (engineer_id : Z) (lab : Lab.t)
    (asof : Date.t) (reqs : list LabRequirement.t) : result bool :=
  match reqs with
  | [] => Ok true
  | r :: rest =>
      match Course_get s (LabRequirement.course_id r) with
      | None => Ok false
      | Some course =>
          cur <- _is_training_current s engineer_id course
                   (LabRequirement.valid_months r) (Lab.grace_days lab) asof ;;
          if negb cur then Ok false
          else reqs_loop s engineer_id lab asof rest
      end
  end.

(** [is_compliant_for_lab(engineer_id, lab_id, asof=None)] *)
Definition is_compliant_for_lab (rq : Request) (s : Store)
    (engineer_id lab_id : Z) (asof : option Date.t) : result bool :=
  let asof := match asof with Some d => d | None => today rq end in
  match Lab_get s lab_id with
  | None => Ok false
  | Some lab =>
      let reqs :=
        filter (fun r => LabRequirement.lab_id r =? lab_id)
               (lab_requirements s) in
      trained <- reqs_loop s engineer_id lab asof reqs ;;
      if negb trained then Ok false
      else if negb (_has_required_acks s engineer_id lab_id) then Ok false
      else Ok true
  end.

(* ------------------------------------------------------------------ *)
(** ** Statements on [lab_access] and [lab_metrics] *)

Definition same_pair (engineer_id lab_id : Z) (r : LabAccess.t) : bool :=
  (LabAccess.engineer_id r =? engineer_id) && (LabAccess.lab_id r =? lab_id).

Definition same_state (engineer_id lab_id : Z) (st : Status)
    (r : LabAccess.t) : bool :=
  same_pair engineer_id lab_id r && status_eqb (LabAccess.status r) st.

(** The key of [uq_access_unique_state] is taken by a row of [tbl]. *)
Definition state_taken (row : LabAccess.t) (tbl : list LabAccess.t) : bool :=
  existsb (same_state (LabAccess.engineer_id row) (LabAccess.lab_id row)
                      (LabAccess.status row)) tbl.

(** [INSERT INTO lab_access] *)
Definition insert_lab_access (row : LabAccess.t) (tbl : list LabAccess.t)
  : result (list LabAccess.t) :=
  if state_taken row tbl then Raise IntegrityError else Ok (tbl ++ [row]).

(** [UPDATE lab_access SET ... WHERE id = pk] *)
Definition update_lab_access (pk : Z) (new : LabAccess.t)
    (tbl : list LabAccess.t) : result (list LabAccess.t) :=
  if state_taken new (filter (fun r => negb (LabAccess.id r =? pk)) tbl)
  then Raise IntegrityError
  else Ok (map (fun r => if LabAccess.id r =? pk then new else r) tbl).

Definition same_day (lab_id : Z) (asof : Date.t) (r : LabMetrics.t) : bool :=
  (LabMetrics.lab_id r =? lab_id) && Date.eqb (LabMetrics.asof r) asof.

Definition pct (n : Z) : bool := (0 <=? n) && (n <=? 100).

(** [ck_util_pct], [ck_cond_pct] and [ck_act_pct]. *)
Definition metrics_checks (r : LabMetrics.t) : bool :=
  pct (LabMetrics.utilization r) && pct (LabMetrics.condition r)
  && pct (LabMetrics.activity r).

(** [INSERT INTO lab_metrics], under [uq_lab_metrics_daily] and the checks. *)
Definition insert_lab_metrics (row : LabMetrics.t) (tbl : list LabMetrics.t)
  : result (list LabMetrics.t) :=
  if existsb (same_day (LabMetrics.lab_id row) (LabMetrics.asof row)) tbl
     || negb (metrics_checks row)
  then Raise IntegrityError
  else Ok (tbl ++ [row]).

(** [UPDATE lab_metrics SET ... WHERE id = pk] *)
Definition update_lab_metrics (pk : Z) (new : LabMetrics.t)
    (tbl : list LabMetrics.t) : result (list LabMetrics.t) :=
  if existsb (same_day (LabMetrics.lab_id new) (LabMetrics.asof new))
             (filter (fun r => negb (LabMetrics.id r =? pk)) tbl)
     || negb (metrics_checks new)
  then Raise IntegrityError
  else Ok (map (fun r => if LabMetrics.id r =? pk then new else r) tbl).

(** [audit(action, entity, entity_id, **meta)] of [utils_audit.py]: appends
    a row and commits. *)
Definition audit (rq : Request) (s : Store) (action entity : string)
    (entity_id : EntityId) (meta : list (string * MetaValue)) : Store :=
  set_audit_log s
    (audit_log s
     ++ [AuditLog.mk (utcnow rq) (g_user_id rq) action entity entity_id meta]).

(* ------------------------------------------------------------------ *)
(** ** Responses *)

Inductive Category : Type := success | info | warning | danger.

(** The flashed messages of the handlers below. *)
Inductive Message : Type :=
| InvalidParameters            (* "Invalid parameters." *)
| AccessApproved               (* "Access approved (active)." *)
| KeptPending                  (* "Engineer not compliant yet; kept as pending." *)
| AccessRevoked                (* "Access revoked." *)
| AutocheckDone (changed_active changed_revoked : Z)
                               (* "Autocheck done. Activated: .., Revoked: ..." *)
| InvalidMetrics               (* "Invalid metrics parameters." *)
| MetricsSaved                 (* "Metrics saved." *)
| IdsRequired                  (* "Engineer ID and Lab ID are required ..." *)
| EngineerNotFound (engineer_id : Z)   (* "Engineer .. not found." *)
| LabNotFound (lab_id : Z)             (* "Lab .. not found." *)
| RequestSubmitted (engineer lab : string)
                               (* "Access request submitted for .. -> ..." *)
| NoPendingRequest             (* "No pending request found to cancel." *)
| RequestCancelled.            (* "Pending request cancelled." *)

Inductive Response : Type :=
| Flashed (m : Message) (c : Category)
| ServerError (e : exn).

(* ------------------------------------------------------------------ *)
(** ** Access state reconciler ([routes/manager.py]) *)

(** [_ensure_access_state(engineer_id, lab_id, desired_status)], on the
    session's view of the store.  Its first query binds the two ids, which
    [approve] and [revoke] pass on as the form gave them. *)
Definition _ensure_access_state (rq : Request) (s : Store)
    (engineer_id lab_id : Z) (desired_status : Status)
  : result (LabAccess.t * Store) :=
  if negb (fits_integer engineer_id && fits_integer lab_id)
  then Raise OverflowError
  else
    match first (filter (same_state engineer_id lab_id desired_status)
                        (lab_access s)) with
    | Some existing => Ok (existing, s)
    | None =>
        let kept :=
          filter (fun r => negb (same_pair engineer_id lab_id r))
                 (lab_access s) in
        let row :=
          LabAccess.mk (next_id (map LabAccess.id kept)) engineer_id lab_id
                       desired_status None (utcnow rq) in
        tbl <- insert_lab_access row kept ;;
        Ok (row, set_lab_access s tbl)
    end.

(** [approve()]; the two form fields are given as parsed by [int(...)],
    [None] when the parse raises. *)
Definition approve (rq : Request) (form_engineer_id form_lab_id : option Z)
    (s : Store) : Store * Response :=
  match form_engineer_id, form_lab_id with
  | Some engineer_id, Some lab_id =>
      match is_compliant_for_lab rq s engineer_id lab_id None with
      | Raise e => (s, ServerError e)
      | Ok true =>
          match _ensure_access_state rq s engineer_id lab_id active with
          | Raise e => (s, ServerError e)
          | Ok (_, s1) =>
              (audit rq s1 "approve_access" "lab_access"
                     (PairId engineer_id lab_id)
                     [("status", MStr "active"); ("mode", MStr "manual")],
               Flashed AccessApproved success)
          end
      | Ok false =>
          match _ensure_access_state rq s engineer_id lab_id pending with
          | Raise e => (s, ServerError e)
          | Ok (_, s1) =>
              (audit rq s1 "approve_access" "lab_access"
                     (PairId engineer_id lab_id)
                     [("status", MStr "pending");
                      ("reason", MStr "not_compliant")],
               Flashed KeptPending warning)
          end
      end
  | _, _ => (s, Flashed InvalidParameters danger)
  end.

(** [revoke()] *)
Definition revoke (rq : Request) (form_engineer_id form_lab_id : option Z)
    (s : Store) : Store * Response :=
  match form_engineer_id, form_lab_id with
  | Some engineer_id, Some lab_id =>
      match _ensure_access_state rq s engineer_id lab_id revoked with
      | Raise e => (s, ServerError e)
      | Ok (_, s1) =>
          (audit rq s1 "revoke_access" "lab_access"
                 (PairId engineer_id lab_id)
                 [("status", MStr "revoked"); ("mode", MStr "manual")],
           Flashed AccessRevoked info)
      end
  | _, _ => (s, Flashed InvalidParameters danger)
  end.

(** The [for eng_id, lab_id, status in pairs] loop of [autocheck]; each
    [audit] call commits, so [s] is the committed store at every turn. *)
Fixpoint autocheck_loop (rq : Request) (pairs : list (Z * Z * Status))
    (s : Store) (changed_active changed_revoked : Z)
  : Store * result (Z * Z) :=
  match pairs with
  | [] => (s, Ok (changed_active, changed_revoked))
  | (eng_id, lab_id, status) :: rest =>
      match is_compliant_for_lab rq s eng_id lab_id (Some (today rq)) with
      | Raise e => (s, Raise e)
      | Ok compliant =>
          if status_eqb status pending && compliant then
            match _ensure_access_state rq s eng_id lab_id active with
            | Raise e => (s, Raise e)
            | Ok (_, s1) =>
                autocheck_loop rq rest
                  (audit rq s1 "auto_activate" "lab_access"
                         (PairId eng_id lab_id) [])
                  (changed_active + 1) changed_revoked
            end
          else if status_eqb status active && negb compliant then
            match _ensure_access_state rq s eng_id lab_id revoked with
            | Raise e => (s, Raise e)
            | Ok (_, s1) =>
                autocheck_loop rq rest
                  (audit rq s1 "auto_revoke" "lab_access"
                         (PairId eng_id lab_id)
                         [("reason", MStr "out_of_compliance")])
                  changed_active (changed_revoked + 1)
            end
          else autocheck_loop rq rest s changed_active changed_revoked
      end
  end.

(** [autocheck()] *)
Definition autocheck (rq : Request) (s : Store) : Store * Response :=
  let pairs :=
    map (fun r => (LabAccess.engineer_id r, LabAccess.lab_id r,
                   LabAccess.status r))
        (filter (fun r => status_eqb (LabAccess.status r) pending
                          || status_eqb (LabAccess.status r) active)
                (lab_access s)) in
  match autocheck_loop rq pairs s 0 0 with
  | (s', Ok (changed_active, changed_revoked)) =>
      (s', Flashed (AutocheckDone changed_active changed_revoked) success)
  | (s', Raise e) => (s', ServerError e)
  end.

(* ------------------------------------------------------------------ *)
(** ** Metrics snapshots ([routes/manager.py]) *)

(** The [asof] form field: empty, not an ISO date, or a date. *)
Inductive AsofField : Type :=
| AsofEmpty
| AsofMalformed
| AsofDate (d : Date.t).

(** [metrics_save()]; numeric fields as parsed by [int(...)].  The lookup of
    the day's row binds [lab_id] as the form gave it. *)
Definition metrics_save (rq : Request)
    (form_lab_id form_utilization form_condition form_activity : option Z)
    (form_asof : AsofField) (s : Store) : Store * Response :=
  let parsed_asof :=
    match form_asof with
    | AsofEmpty => Some (today rq)
    | AsofMalformed => None
    | AsofDate d => Some d
    end in
  match form_lab_id, form_utilization, form_condition, form_activity,
        parsed_asof with
  | Some lab_id, Some util, Some cond, Some act, Some asof =>
      let util := Z.max 0 (Z.min util 100) in
      let cond := Z.max 0 (Z.min cond 100) in
      let act := Z.max 0 (Z.min act 100) in
      if negb (fits_integer lab_id) then (s, ServerError OverflowError)
      else
        let written :=
          match first (filter (same_day lab_id asof) (lab_metrics s)) with
          | None =>
              insert_lab_metrics
                (LabMetrics.mk (next_id (map LabMetrics.id (lab_metrics s)))
                               lab_id asof util cond act)
                (lab_metrics s)
          | Some row =>
              update_lab_metrics (LabMetrics.id row)
                (LabMetrics.mk (LabMetrics.id row) (LabMetrics.lab_id row)
                               (LabMetrics.asof row) util cond act)
                (lab_metrics s)
          end in
        match written with
        | Raise e => (s, ServerError e)
        | Ok tbl =>
            (audit rq (set_lab_metrics s tbl) "save_metrics" "lab_metrics"
                   (MetricsId lab_id asof)
                   [("utilization", MInt util); ("condition", MInt cond);
                    ("activity", MInt act)],
             Flashed MetricsSaved success)
        end
  | _, _, _, _, _ => (s, Flashed InvalidMetrics danger)
  end.

(* ------------------------------------------------------------------ *)
(** ** Engineer requests ([routes/engineer.py]) *)

(** [not v] for a form field after [_to_int]: [None] and [0] are falsy. *)
Definition falsy (v : option Z) : bool :=
  match v with
  | None => true
  | Some n => n =? 0
  end.

(** [request_access()] *)
Definition request_access (rq : Request)
    (form_engineer_id form_lab_id : option Z) (s : Store)
  : Store * Response :=
  match form_engineer_id, form_lab_id with
  | Some engineer_id, Some lab_id =>
      if falsy form_engineer_id || falsy form_lab_id
      then (s, Flashed IdsRequired warning)
      else
        match Engineer_get s engineer_id, Lab_get s lab_id with
        | None, _ => (s, Flashed (EngineerNotFound engineer_id) warning)
        | Some _, None => (s, Flashed (LabNotFound lab_id) warning)
        | Some eng, Some lab =>
            let la :=
              LabAccess.mk (next_id (map LabAccess.id (lab_access s)))
                           engineer_id lab_id pending (Some "requested")
                           (utcnow rq) in
            match insert_lab_access la (lab_access s) with
            | Raise e => (s, ServerError e)
            | Ok tbl =>
                (audit rq (set_lab_access s tbl) "request_access"
                       "lab_access" (PairId engineer_id lab_id)
                       [("status", MStr "pending")],
                 Flashed (RequestSubmitted (Engineer.name eng) (Lab.name lab))
                         success)
            end
        end
  | _, _ => (s, Flashed IdsRequired warning)
  end.

(** [cancel_request()] *)
Definition cancel_request (rq : Request)
    (form_engineer_id form_lab_id : option Z) (s : Store)
  : Store * Response :=
  match form_engineer_id, form_lab_id with
  | Some engineer_id, Some lab_id =>
      if falsy form_engineer_id || falsy form_lab_id
      then (s, Flashed IdsRequired warning)
      else
        match first_desc
                (fun a b => LabAccess.effective_at a <=? LabAccess.effective_at b)
                (filter (same_state engineer_id lab_id pending)
                        (lab_access s)) with
        | None => (s, Flashed NoPendingRequest warning)
        | Some row =>
            match update_lab_access (LabAccess.id row)
                    (LabAccess.mk (LabAccess.id row)
                                  (LabAccess.engineer_id row)
                                  (LabAccess.lab_id row) revoked
                                  (Some "user_cancelled") (utcnow rq))
                    (lab_access s) with
            | Raise e => (s, ServerError e)
            | Ok tbl =>
                (audit rq (set_lab_access s tbl) "cancel_request"
                       "lab_access" (PairId engineer_id lab_id)
                       [("status", MStr "revoked")],
                 Flashed RequestCancelled success)
            end
        end
  | _, _ => (s, Flashed IdsRequired warning)
  end.

(* ------------------------------------------------------------------ *)
(** ** Vocabulary of the statements *)


(** [comp] is a completion of the course by the engineer, and none of
    theirs is dated later. *)
Definition latest_completion (s : Store) (engineer_id course_id : Z)
    (comp : Completion.t) : Prop :=
  In comp (completions s)
  /\ Completion.engineer_id comp = engineer_id
  /\ Completion.course_id comp = course_id
  /\ forall c, In c (completions s) ->
               Completion.engineer_id c = engineer_id ->
               Completion.course_id c = course_id ->
               Date.leb (Completion.date_taken c)
                        (Completion.date_taken comp) = true.

(** [d] is a mandatory document of the lab. *)
Definition mandatory_document (s : Store) (lab_id : Z) (d : Document.t)
  : Prop :=
  In d (documents s) /\ Document.lab_id d = lab_id
  /\ Document.mandatory d = true.

(** The engineer has acknowledged [d] at the version [d] now has. *)
Definition acked_current (s : Store) (engineer_id : Z) (d : Document.t)
  : Prop :=
  exists a, In a (document_acks s)
            /\ DocumentAck.engineer_id a = engineer_id
            /\ DocumentAck.document_id a = Document.id d
            /\ DocumentAck.version a = Document.version d.

(** The requirements of a lab, in table order. *)
Definition requirements_of (s : Store) (lab_id : Z) : list LabRequirement.t :=
  filter (fun r => LabRequirement.lab_id r =? lab_id) (lab_requirements s).

(** The course reference of [r] is dangling. *)
Definition dangling (s : Store) (r : LabRequirement.t) : Prop :=
  Course_get s (LabRequirement.course_id r) = None.

(** The course of [r] resolves and the engineer's training for it is
    current, under the override of [r] and the grace days of [lab]. *)
Definition requirement_current (s : Store) (engineer_id : Z) (lab : Lab.t)
    (asof : Date.t) (r : LabRequirement.t) : Prop :=
  exists course,
    Course_get s (LabRequirement.course_id r) = Some course
    /\ _is_training_current s engineer_id course
         (LabRequirement.valid_months r) (Lab.grace_days lab) asof = Ok true.

(** The same as a boolean: false also when the reference is dangling. *)
Definition requirement_current_b (s : Store) (engineer_id : Z) (lab : Lab.t)
    (asof : Date.t) (r : LabRequirement.t) : bool :=
  match Course_get s (LabRequirement.course_id r) with
  | None => false
  | Some course =>
      match _is_training_current s engineer_id course
              (LabRequirement.valid_months r) (Lab.grace_days lab) asof with
      | Ok b => b
      | Raise _ => false
      end
  end.

(** The training check of [r], if its course resolves, returns a verdict:
    the due date it computes is a date. *)
Definition training_defined (s : Store) (engineer_id : Z) (lab : Lab.t)
    (asof : Date.t) (r : LabRequirement.t) : Prop :=
  forall course,
    Course_get s (LabRequirement.course_id r) = Some course ->
    exists b, _is_training_current s engineer_id course
                (LabRequirement.valid_months r) (Lab.grace_days lab) asof
              = Ok b.

(** At most one row per (engineer, lab, status): [uq_access_unique_state]. *)
Definition unique_state (tbl : list LabAccess.t) : Prop :=
  forall engineer_id lab_id st,
    (List.length (filter (same_state engineer_id lab_id st) tbl) <= 1)%nat.

(** At most one row per (lab, day): [uq_lab_metrics_daily]. *)
Definition unique_day (tbl : list LabMetrics.t) : Prop :=
  forall lab_id asof,
    (List.length (filter (same_day lab_id asof) tbl) <= 1)%nat.

(** [max(0, min(n, 100))] *)
Definition clamp_pct (n : Z) : Z := Z.max 0 (Z.min n 100).

(** The date a well-formed [asof] field stands for. *)
Definition asof_of (rq : Request) (f : AsofField) : Date.t :=
  match f with
  | AsofDate d => d
  | _ => today rq
  end.

(** At most one row per (engineer, lab), whatever its status. *)
Definition one_row_per_pair (tbl : list LabAccess.t) : Prop :=
  forall engineer_id lab_id,
    (List.length (filter (same_pair engineer_id lab_id) tbl) <= 1)%nat.

(** Two stores hold the same data for the compliance evaluators. *)
Definition same_reference (s s' : Store) : Prop :=
  labs s = labs s' /\ courses s = courses s'
  /\ lab_requirements s = lab_requirements s'
  /\ completions s = completions s' /\ documents s = documents s'
  /\ document_acks s = document_acks s'.

(** [autocheck] has nothing to do for a row of this pair and status. *)
Definition settled_at (rq : Request) (s : Store) (engineer_id lab_id : Z)
    (st : Status) : Prop :=
  match st with
  | pending =>
      is_compliant_for_lab rq s engineer_id lab_id (Some (today rq)) = Ok false
  | active =>
      is_compliant_for_lab rq s engineer_id lab_id (Some (today rq)) = Ok true
  | revoked => True
  end.

(** A pending row of a non-compliant pair, an active row of a compliant
    pair, or a revoked row. *)
Definition settled (rq : Request) (s : Store) (r : LabAccess.t) : Prop :=
  settled_at rq s (LabAccess.engineer_id r) (LabAccess.lab_id r)
             (LabAccess.status r).

(** The pair of an entry of [autocheck]'s list, and of a row. *)
Definition pair_of (p : Z * Z * Status) : Z * Z := (fst (fst p), snd (fst p)).

Definition row_pair (r : LabAccess.t) : Z * Z :=
  (LabAccess.engineer_id r, LabAccess.lab_id r).

(** The list [autocheck] loads: the rows that are pending or active. *)
Definition open_pairs (tbl : list LabAccess.t) : list (Z * Z * Status) :=
  map (fun r => (LabAccess.engineer_id r, LabAccess.lab_id r,
                 LabAccess.status r))
      (filter (fun r => status_eqb (LabAccess.status r) pending
                        || status_eqb (LabAccess.status r) active)
              tbl).

(* ------------------------------------------------------------------ *)
(** ** Sample data *)

Definition sample_request : Request :=
  mkRequest (Some 7) (Date.mk 2024 6 1) 1717200000.

Definition sample_course : Course.t :=
  Course.mk 1 "SAFE-101" "General Safety" (Some 12).

Definition sample_completion : Completion.t :=
  Completion.mk 1 1 1 (Date.mk 2023 6 1) None None.

(** One engineer, one lab with seven grace days, one required course valid
    for twelve months and completed on 2023-06-01, one mandatory document at
    version 2 acknowledged at versions 1 and 2. *)
Definition sample_store : Store :=
  mkStore
    [Engineer.mk 1 "E-001" "Ava" "ava@example.org"]
    [Lab.mk 1 "LAB-EE" "Electrical Engineering Lab" 7]
    [sample_course]
    [LabRequirement.mk 1 1 1 None]
    [sample_completion]
    [Document.mk 1 1 "Safety Manual" 2 true None 0]
    [DocumentAck.mk 1 1 1 1 0; DocumentAck.mk 2 1 1 2 0]
    [] [] [].


(** One engineer and one lab without requirements or documents: the
    engineer is compliant for the lab. *)
Definition base_store : Store :=
  mkStore
    [Engineer.mk 1 "E-001" "Ava" "ava@example.org"]
    [Lab.mk 1 "LAB-EE" "Electrical Engineering Lab" 0]
    [] [] [] [] [] [] [] [].

(** The store after engineer 1 requests lab 1, a manager approves, and the
    engineer requests the same lab again. *)
Definition conflict_store : Store :=
  fst (request_access sample_request (Some 1) (Some 1)
         (fst (approve sample_request (Some 1) (Some 1)
                 (fst (request_access sample_request (Some 1) (Some 1)
                         base_store))))).

Definition active_row : LabAccess.t :=
  LabAccess.mk 1 1 1 active None 1717200000.

Definition pending_row : LabAccess.t :=
  LabAccess.mk 2 1 1 pending (Some "requested") 1717200000.

Definition revoked_row : LabAccess.t :=
  LabAccess.mk 2 1 1 revoked (Some "user_cancelled") 1717200000.

(** One engineer and one lab that requires a course valid for twelve
    months, completed on 2023-12-01: current on the day of [sample_request],
    lapsed a year later. *)
Definition trained_store : Store :=
  mkStore
    [Engineer.mk 1 "E-001" "Ava" "ava@example.org"]
    [Lab.mk 1 "LAB-EE" "Electrical Engineering Lab" 0]
    [sample_course]
    [LabRequirement.mk 1 1 1 None]
    [Completion.mk 1 1 1 (Date.mk 2023 12 1) None None]
    [] [] [] [] [].

Definition later_request : Request :=
  mkRequest (Some 7) (Date.mk 2025 6 1) 1748736000.

(** The store after engineer 1 requests lab 1, a manager approves, the
    engineer requests the lab again and cancels that request. *)
Definition stale_store : Store :=
  fst (cancel_request sample_request (Some 1) (Some 1)
         (fst (request_access sample_request (Some 1) (Some 1)
                 (fst (approve sample_request (Some 1) (Some 1)
                         (fst (request_access sample_request (Some 1) (Some 1)
                                 trained_store))))))).

(** Lab 1 has a snapshot for 2024-06-01, the day of [sample_request]. *)
Definition metrics_store : Store :=
  set_lab_metrics base_store [LabMetrics.mk 1 1 (Date.mk 2024 6 1) 10 20 30].

(** Engineer 1 holds a pending request for lab 1 and an older revoked row. *)
Definition cancel_store : Store :=
  set_lab_access base_store
    [LabAccess.mk 1 1 1 revoked (Some "user_cancelled") 1717000000;
     LabAccess.mk 2 1 1 pending (Some "requested") 1717100000].

(* ------------------------------------------------------------------ *)
(** ** Further vocabulary and models *)

(** The constraints of [lab_access]: its primary key and
    [uq_access_unique_state]. *)
Definition access_table_ok (tbl : list LabAccess.t) : Prop :=
  NoDup (map LabAccess.id tbl) /\ unique_state tbl.

(** The rows of an audit log with a given [action]. *)
Definition with_action (action : string) (rows : list AuditLog.t)
  : list AuditLog.t :=
  filter (fun x => String.eqb (AuditLog.action x) action) rows.

(** The tables a handler of [routes/manager.py] or [routes/engineer.py]
    only reads. *)
Definition same_catalogue (s s' : Store) : Prop :=
  engineers s = engineers s' /\ labs s = labs s' /\ courses s = courses s'
  /\ lab_requirements s = lab_requirements s'
  /\ completions s = completions s' /\ documents s = documents s'
  /\ document_acks s = document_acks s'.

(** [s'] is [s] with at most [n] audit rows appended, each stamped with the
    time and the user of the request. *)
Definition appends_audit (rq : Request) (s : Store) (n : nat) (s' : Store)
  : Prop :=
  exists rows,
    audit_log s' = audit_log s ++ rows
    /\ (List.length rows <= n)%nat
    /\ forall x, In x rows ->
                 AuditLog.at_ x = utcnow rq
                 /\ AuditLog.actor_user_id x = g_user_id rq.

(** Engineer 1 holds a pending request for lab 1, which has no requirements
    and no documents. *)
Definition pending_store : Store :=
  set_lab_access base_store
    [LabAccess.mk 1 1 1 pending (Some "requested") 1717100000].

(* ------------------------------------------------------------------ *)
(** ** Roles ([auth_utils.py]) *)

(** The payload of a token that [parse_jwt] accepted. *)
Module Payload.
Record t : Type := mk
  { uid : option Z; role : option string; email : option string }.
End Payload.

(** What a decorated view returns: the 401 and 403 answers of the wrapper, or
    the answer of the view. *)
Inductive Routed (A : Type) : Type :=
| AuthRequired
| Forbidden
| Served (a : A).

Arguments AuthRequired {A}.
Arguments Forbidden {A}.
Arguments Served {A} a.

(** [payload.get("role") not in roles] *)
Definition role_in (role : option string) (roles : list string) : bool :=
  match role with
  | None => false
  | Some r => existsb (String.eqb r) roles
  end.

(** [require_roles(roles...)(fn)]: [current_token_payload()] is [payload];
    the wrapper sets [g.user_id] and calls the view. *)
Definition require_roles {A : Type} (roles : list string)
    (fn : Request -> A) (payload : option Payload.t) (today : Date.t)
    (utcnow : Z) : Routed A :=
  match payload with
  | None => AuthRequired
  | Some p =>
      if match roles with [] => false | _ => true end
         && negb (role_in (Payload.role p) roles)
      then Forbidden
      else Served (fn (mkRequest (Payload.uid p) today utcnow))
  end.

(** The views as they are routed, behind their decorators. *)
Module Route.

Definition approve (payload : option Payload.t) (today : Date.t) (utcnow : Z)
    (form_engineer_id form_lab_id : option Z) (s : Store)
  : Routed (Store * Response) :=
  require_roles ["manager"; "admin"]
    (fun rq => approve rq form_engineer_id form_lab_id s)
    payload today utcnow.

Definition revoke (payload : option Payload.t) (today : Date.t) (utcnow : Z)
    (form_engineer_id form_lab_id : option Z) (s : Store)
  : Routed (Store * Response) :=
  require_roles ["manager"; "admin"]
    (fun rq => revoke rq form_engineer_id form_lab_id s)
    payload today utcnow.

Definition autocheck (payload : option Payload.t) (today : Date.t)
    (utcnow : Z) (s : Store) : Routed (Store * Response) :=
  require_roles ["manager"; "admin"] (fun rq => autocheck rq s)
    payload today utcnow.

Definition metrics_save (payload : option Payload.t) (today : Date.t)
    (utcnow : Z)
    (form_lab_id form_utilization form_condition form_activity : option Z)
    (form_asof : AsofField) (s : Store) : Routed (Store * Response) :=
  require_roles ["manager"; "admin"]
    (fun rq => metrics_save rq form_lab_id form_utilization form_condition
                 form_activity form_asof s)
    payload today utcnow.

Definition request_access (payload : option Payload.t) (today : Date.t)
    (utcnow : Z) (form_engineer_id form_lab_id : option Z) (s : Store)
  : Routed (Store * Response) :=
  require_roles ["engineer"; "manager"; "admin"]
    (fun rq => request_access rq form_engineer_id form_lab_id s)
    payload today utcnow.

Definition cancel_request (payload : option Payload.t) (today : Date.t)
    (utcnow : Z) (form_engineer_id form_lab_id : option Z) (s : Store)
  : Routed (Store * Response) :=
  require_roles ["engineer"; "manager"; "admin"]
    (fun rq => cancel_request rq form_engineer_id form_lab_id s)
    payload today utcnow.

End Route.

(** The committed store after a routed request that started from [s]. *)
Definition store_after {R : Type} (s : Store) (g : Routed (Store * R))
  : Store :=
  match g with
  | Served (s', _) => s'
  | _ => s
  end.

(* ------------------------------------------------------------------ *)
(** ** Document acknowledgment by the engineer ([routes/engineer.py]) *)

Module User.
Record t : Type := mk
  { id : Z; email : string; pass_hash : string; role : string;
    is_active : bool; engineer_id : option Z }.
End User.

(** [User.query.get(g.user_id)] *)
Definition User_get (users : list User.t) (pk : option Z) : option User.t :=
  match pk with
  | None => None
  | Some pk => find (fun u => User.id u =? pk) users
  end.

Definition Document_get (s : Store) (pk : Z) : option Document.t :=
  find (fun d => Document.id d =? pk) (documents s).

Definition set_document_acks (s : Store) (tbl : list DocumentAck.t) : Store :=
  mkStore (engineers s) (labs s) (courses s) (lab_requirements s)
          (completions s) (documents s) tbl (lab_access s)
          (lab_metrics s) (audit_log s).

Definition same_ack (engineer_id document_id version : Z)
    (a : DocumentAck.t) : bool :=
  (DocumentAck.engineer_id a =? engineer_id)
  && (DocumentAck.document_id a =? document_id)
  && (DocumentAck.version a =? version).

(** [INSERT INTO document_ack], under [uq_ack_one_per_version]. *)
Definition insert_document_ack (row : DocumentAck.t)
    (tbl : list DocumentAck.t) : result (list DocumentAck.t) :=
  if existsb (same_ack (DocumentAck.engineer_id row)
                       (DocumentAck.document_id row)
                       (DocumentAck.version row)) tbl
  then Raise IntegrityError
  else Ok (tbl ++ [row]).

Inductive AckMessage : Type :=
| NotLinked
    (* "You must be linked to an engineer record to acknowledge documents." *)
| AlreadyAcknowledged (title : string) (version acked_at : Z)
    (* "You already acknowledged .. v.. on .." *)
| Acknowledged (title : string) (version : Z).
    (* "Successfully acknowledged .. v.." *)

Inductive AckResponse : Type :=
| AckFlashed (m : AckMessage) (c : Category)
| AckNotFound                         (* [get_or_404] aborts with 404 *)
| AckServerError (e : exn).

(** [acknowledge_document(document_id)], with the [user] table it reads. *)
Definition acknowledge_document (rq : Request) (users : list User.t)
    (document_id : Z) (s : Store) : Store * AckResponse :=
  match User_get users (g_user_id rq) with
  | None => (s, AckFlashed NotLinked danger)
  | Some user =>
      if falsy (User.engineer_id user)
      then (s, AckFlashed NotLinked danger)
      else
        match User.engineer_id user, Document_get s document_id with
        | None, _ => (s, AckFlashed NotLinked danger)
        | Some _, None => (s, AckNotFound)
        | Some engineer_id, Some doc =>
            match first (filter (same_ack engineer_id document_id
                                          (Document.version doc))
                                (document_acks s)) with
            | Some existing =>
                (s,
                 AckFlashed (AlreadyAcknowledged (Document.title doc)
                               (Document.version doc)
                               (DocumentAck.acked_at existing)) info)
            | None =>
                let ack :=
                  DocumentAck.mk
                    (next_id (map DocumentAck.id (document_acks s)))
                    engineer_id document_id (Document.version doc)
                    (utcnow rq) in
                match insert_document_ack ack (document_acks s) with
                | Raise e => (s, AckServerError e)
                | Ok tbl =>
                    (audit rq (set_document_acks s tbl)
                       "engineer_acknowledge" "document_ack"
                       (AckId engineer_id document_id (Document.version doc))
                       [("document_title", MStr (Document.title doc))],
                     AckFlashed (Acknowledged (Document.title doc)
                                   (Document.version doc)) success)
                end
            end
        end
  end.

(** The user of the request is linked to engineer [engineer_id]. *)
Definition linked_to (rq : Request) (users : list User.t) (engineer_id : Z)
  : Prop :=
  exists user,
    User_get users (g_user_id rq) = Some user
    /\ User.engineer_id user = Some engineer_id
    /\ engineer_id <> 0.

(** A user linked to engineer 1, and two labs' documents: lab 1 has two
    mandatory documents, of which engineer 1 has acknowledged the first. *)
Definition sample_users : list User.t :=
  [User.mk 7 "ava@example.org" "hash" "engineer" true (Some 1)].

Definition docs_store : Store :=
  mkStore
    [Engineer.mk 1 "E-001" "Ava" "ava@example.org"]
    [Lab.mk 1 "LAB-EE" "Electrical Engineering Lab" 0]
    [] [] []
    [Document.mk 1 1 "Safety Manual" 2 true None 0;
     Document.mk 2 1 "Laser SOP" 1 true None 0]
    [DocumentAck.mk 1 1 1 2 0]
    [] [] [].

(* ------------------------------------------------------------------ *)
(** ** Catalogue forms ([routes/admin.py]) *)

Definition set_labs (s : Store) (tbl : list Lab.t) : Store :=
  mkStore (engineers s) tbl (courses s) (lab_requirements s)
          (completions s) (documents s) (document_acks s) (lab_access s)
          (lab_metrics s) (audit_log s).

Definition set_courses (s : Store) (tbl : list Course.t) : Store :=
  mkStore (engineers s) (labs s) tbl (lab_requirements s)
          (completions s) (documents s) (document_acks s) (lab_access s)
          (lab_metrics s) (audit_log s).

Definition set_lab_requirements (s : Store) (tbl : list LabRequirement.t)
  : Store :=
  mkStore (engineers s) (labs s) (courses s) tbl
          (completions s) (documents s) (document_acks s) (lab_access s)
          (lab_metrics s) (audit_log s).

Definition set_completions (s : Store) (tbl : list Completion.t) : Store :=
  mkStore (engineers s) (labs s) (courses s) (lab_requirements s)
          tbl (documents s) (document_acks s) (lab_access s)
          (lab_metrics s) (audit_log s).

Definition set_documents (s : Store) (tbl : list Document.t) : Store :=
  mkStore (engineers s) (labs s) (courses s) (lab_requirements s)
          (completions s) tbl (document_acks s) (lab_access s)
          (lab_metrics s) (audit_log s).

(** [INSERT INTO lab]: [code] is unique. *)
Definition insert_lab (row : Lab.t) (tbl : list Lab.t) : result (list Lab.t) :=
  if existsb (fun l => String.eqb (Lab.code l) (Lab.code row)) tbl
  then Raise IntegrityError
  else Ok (tbl ++ [row]).

(** [INSERT INTO course]: [code] is unique. *)
Definition insert_course (row : Course.t) (tbl : list Course.t)
  : result (list Course.t) :=
  if existsb (fun c => String.eqb (Course.code c) (Course.code row)) tbl
  then Raise IntegrityError
  else Ok (tbl ++ [row]).

(** [INSERT INTO lab_requirement], under [uq_lab_course]. *)
Definition insert_lab_requirement (row : LabRequirement.t)
    (tbl : list LabRequirement.t) : result (list LabRequirement.t) :=
  if existsb (fun r => (LabRequirement.lab_id r =? LabRequirement.lab_id row)
                       && (LabRequirement.course_id r
                           =? LabRequirement.course_id row)) tbl
  then Raise IntegrityError
  else Ok (tbl ++ [row]).

(** [INSERT INTO completion], under [uq_completion_once_per_day]. *)
Definition insert_completion (row : Completion.t) (tbl : list Completion.t)
  : result (list Completion.t) :=
  if existsb (fun c => (Completion.engineer_id c =? Completion.engineer_id row)
                       && (Completion.course_id c =? Completion.course_id row)
                       && Date.eqb (Completion.date_taken c)
                                   (Completion.date_taken row)) tbl
  then Raise IntegrityError
  else Ok (tbl ++ [row]).

(** [INSERT INTO document], under [uq_doc_lab_title_version]. *)
Definition insert_document (row : Document.t) (tbl : list Document.t)
  : result (list Document.t) :=
  if existsb (fun d => (Document.lab_id d =? Document.lab_id row)
                       && String.eqb (Document.title d) (Document.title row)
                       && (Document.version d =? Document.version row)) tbl
  then Raise IntegrityError
  else Ok (tbl ++ [row]).

Module Admin.

(** A form field that is read as a number: not in the form, the empty
    string, a string that [int(str(value).strip())] rejects, or one that
    it reads as [n]. *)
Inductive FormValue : Type :=
| Absent
| Blank
| NotNumber
| Number (n : Z).

(** [request.form.get(name, default)] *)
Definition form_get (value default : FormValue) : FormValue :=
  match value with
  | Absent => default
  | _ => value
  end.

(** The [date_taken] field, stripped: empty, rejected by
    [strptime(.., "%Y-%m-%d")], or a date. *)
Inductive DateField : Type :=
| DateBlank
| DateMalformed
| DateValue (d : Date.t).

(** What becomes of an attached file: none attached, [_upload_fileobj]
    raises [RuntimeError("Empty file.")], it returns the key of the stored
    object, or the S3 layer raises. *)
Inductive Upload : Type :=
| NoFile
| EmptyFile
| Stored (key : string)
| UploadFailed.

Inductive Message : Type :=
| IsRequired (field : string)          (* "'..' is required." *)
| MustBeWholeNumber (field : string)   (* "'..' must be a whole number." *)
| DuplicateOrInvalid                   (* "Duplicate or invalid data." *)
| LabAdded                             (* "Lab added." *)
| LabCodeExists (code : string)        (* "Lab code '..' already exists." *)
| GraceDaysNegative                    (* "Grace days cannot be negative." *)
| CourseAdded                          (* "Course added." *)
| CourseCodeExists (code : string)     (* "Course code '..' already exists." *)
| ValidityNotPositive         (* "Validity months must be greater than 0." *)
| RequirementSaved                     (* "Requirement saved." *)
| OverrideNotPositive         (* "Override months must be greater than 0." *)
| CompletionRecorded                   (* "Completion recorded." *)
| DateTakenFormat          (* "Date taken must be in YYYY-MM-DD format." *)
| CertificateNotUploaded      (* "Certificate not uploaded: Empty file." *)
| DocumentAdded                        (* "Document added." *)
| DocumentFileNotUploaded   (* "Document file not uploaded: Empty file." *)
| AckCaptured                          (* "Acknowledgment captured." *)
| AlreadyAcknowledgedVersion.   (* "Already acknowledged this version." *)

Definition Flash : Type := Message * Category.

(** Every view ends in a redirect to the home page, unless an exception
    escapes it. *)
Inductive Response : Type :=
| Redirected (flashed : list Flash)
| InternalError.

(** A helper that returns, or flashes and raises [ValueError]; the views
    catch the error and redirect. *)
Definition Parsed (A : Type) : Type := (list Flash + A)%type.

Definition and_then {A B : Type} (c : Parsed A) (k : A -> Parsed B)
  : Parsed B :=
  match c with
  | inl flashed => inl flashed
  | inr a => k a
  end.

Notation "x <~ c ;; k" := (and_then c (fun x => k))
  (at level 61, c at next level, right associativity).

(** [_to_int(value, field, allow_empty)] *)
Definition _to_int (value : FormValue) (field : string) (allow_empty : bool)
  : Parsed (option Z) :=
  match value with
  | Absent | Blank =>
      if allow_empty then inr None else inl [(IsRequired field, warning)]
  | NotNumber => inl [(MustBeWholeNumber field, warning)]
  | Number n => inr (Some n)
  end.

(** [_required_str(value, field)], on [(value or "").strip()]. *)
Definition _required_str (stripped : string) (field : string)
  : Parsed string :=
  if String.eqb stripped "" then inl [(IsRequired field, warning)]
  else inr stripped.

(** [x or default] on an optional integer. *)
Definition or_default (x : option Z) (default : Z) : Z :=
  match x with
  | None => default
  | Some n => if n =? 0 then default else n
  end.

(** [_commit_ok(success_msg, duplicate_msg)]: [commit] is the outcome of
    [db.session.commit()] on the pending changes; on [IntegrityError] the
    session is rolled back to [s]. *)
Definition _commit_ok (s : Store) (commit : result Store)
    (success_msg : Message) (duplicate_msg : option Message)
  : result (Store * Flash * bool) :=
  match commit with
  | Ok s' => Ok (s', (success_msg, success), true)
  | Raise IntegrityError =>
      Ok (s,
          (match duplicate_msg with
           | Some m => m
           | None => DuplicateOrInvalid
           end, warning),
          false)
  | Raise e => Raise e
  end.

(** The tail of every view: [_commit_ok(..)] and the redirect. *)
Definition commit_and_redirect (s : Store) (flashed : list Flash)
    (commit : result Store) (success_msg : Message)
    (duplicate_msg : option Message) : Store * Response :=
  match _commit_ok s commit success_msg duplicate_msg with
  | Ok (s', flash, _) => (s', Redirected (flashed ++ [flash]))
  | Raise _ => (s, InternalError)
  end.

(** [add_lab()] *)
Definition add_lab (form_code form_name : string)
    (form_grace_days : FormValue) (s : Store) : Store * Response :=
  match
    (code <~ _required_str form_code "Lab code" ;;
     name <~ _required_str form_name "Lab name" ;;
     g <~ _to_int (form_get form_grace_days (Number 0)) "Grace days" true ;;
     inr (code, name, or_default g 0))
  with
  | inl flashed => (s, Redirected flashed)
  | inr (code, name, grace_days) =>
      if grace_days <? 0
      then (s, Redirected [(GraceDaysNegative, warning)])
      else
        commit_and_redirect s []
          (tbl <- insert_lab
                    (Lab.mk (next_id (map Lab.id (labs s))) code name
                            grace_days)
                    (labs s) ;;
           Ok (set_labs s tbl))
          LabAdded (Some (LabCodeExists code))
  end.

(** [add_course()] *)
Definition add_course (form_code form_name : string)
    (form_valid_months : FormValue) (s : Store) : Store * Response :=
  match
    (code <~ _required_str form_code "Course code" ;;
     name <~ _required_str form_name "Course name" ;;
     v <~ _to_int (form_get form_valid_months (Number 12))
                  "Validity months" true ;;
     inr (code, name, or_default v 12))
  with
  | inl flashed => (s, Redirected flashed)
  | inr (code, name, valid_months) =>
      if valid_months <=? 0
      then (s, Redirected [(ValidityNotPositive, warning)])
      else
        commit_and_redirect s []
          (tbl <- insert_course
                    (Course.mk (next_id (map Course.id (courses s))) code
                               name (Some valid_months))
                    (courses s) ;;
           Ok (set_courses s tbl))
          CourseAdded (Some (CourseCodeExists code))
  end.

(** [add_requirement()].  [db.session.merge(r)] on an object without a
    primary key adds it to the session as a new row. *)
Definition add_requirement
    (form_lab_id form_course_id form_valid_months : FormValue) (s : Store)
  : Store * Response :=
  match
    (lab_id <~ _to_int form_lab_id "Lab ID" false ;;
     course_id <~ _to_int form_course_id "Course ID" false ;;
     valid_months <~ _to_int form_valid_months "Override months" true ;;
     inr (lab_id, course_id, valid_months))
  with
  | inl flashed => (s, Redirected flashed)
  | inr (lab_id, course_id, valid_months) =>
      if match valid_months with
         | Some n => n <=? 0
         | None => false
         end
      then (s, Redirected [(OverrideNotPositive, warning)])
      else
        commit_and_redirect s []
          (match lab_id, course_id with
           | Some lab_id, Some course_id =>
               tbl <- insert_lab_requirement
                        (LabRequirement.mk
                           (next_id (map LabRequirement.id
                                         (lab_requirements s)))
                           lab_id course_id valid_months)
                        (lab_requirements s) ;;
               Ok (set_lab_requirements s tbl)
           | _, _ => Raise IntegrityError      (* NOT NULL *)
           end)
          RequirementSaved None
  end.

(** [add_completion()] *)
Definition add_completion (form_engineer_id form_course_id : FormValue)
    (form_date_taken : DateField) (certificate_file : Upload)
    (form_certificate_url : string) (s : Store) : Store * Response :=
  match
    (engineer_id <~ _to_int form_engineer_id "Engineer ID" false ;;
     course_id <~ _to_int form_course_id "Course ID" false ;;
     date_taken <~
       match form_date_taken with
       | DateBlank => inl [(IsRequired "Date taken (YYYY-MM-DD)", warning)]
       | DateMalformed => inl [(DateTakenFormat, warning)]
       | DateValue d => inr d
       end ;;
     inr (engineer_id, course_id, date_taken))
  with
  | inl flashed => (s, Redirected flashed)
  | inr (engineer_id, course_id, date_taken) =>
      match certificate_file with
      | UploadFailed => (s, InternalError)
      | _ =>
          let cert_key :=
            match certificate_file with
            | Stored key => Some key
            | _ => None
            end in
          let flashed :=
            match certificate_file with
            | EmptyFile => [(CertificateNotUploaded, warning)]
            | _ => []
            end in
          let certificate_url :=
            if String.eqb form_certificate_url "" then None
            else Some form_certificate_url in
          commit_and_redirect s flashed
            (match engineer_id, course_id with
             | Some engineer_id, Some course_id =>
                 tbl <- insert_completion
                          (Completion.mk
                             (next_id (map Completion.id (completions s)))
                             engineer_id course_id date_taken
                             certificate_url cert_key)
                          (completions s) ;;
                 Ok (set_completions s tbl)
             | _, _ => Raise IntegrityError    (* NOT NULL *)
             end)
            CompletionRecorded None
      end
  end.

(** [add_document()]; [uploaded_at] takes its default, the time of the
    request. *)
Definition add_document (rq : Request) (form_lab_id : FormValue)
    (form_title : string) (form_version form_mandatory : FormValue)
    (file : Upload) (s : Store) : Store * Response :=
  match
    (lab_id <~ _to_int form_lab_id "Lab ID" false ;;
     title <~ _required_str form_title "Document title" ;;
     v <~ _to_int (form_get form_version (Number 1)) "Version" true ;;
     mandatory <~
       match form_mandatory with
       | Absent | Blank => inr true
       | NotNumber => inl []
       | Number n => inr (negb (n =? 0))
       end ;;
     inr (lab_id, title, or_default v 1, mandatory))
  with
  | inl flashed => (s, Redirected flashed)
  | inr (lab_id, title, version, mandatory) =>
      match file with
      | UploadFailed => (s, InternalError)
      | _ =>
          let s3_key :=
            match file with
            | Stored key => Some key
            | _ => None
            end in
          let flashed :=
            match file with
            | EmptyFile => [(DocumentFileNotUploaded, warning)]
            | _ => []
            end in
          commit_and_redirect s flashed
            (match lab_id with
             | Some lab_id =>
                 tbl <- insert_document
                          (Document.mk
                             (next_id (map Document.id (documents s)))
                             lab_id title version mandatory s3_key
                             (utcnow rq))
                          (documents s) ;;
                 Ok (set_documents s tbl)
             | None => Raise IntegrityError    (* NOT NULL *)
             end)
            DocumentAdded None
      end
  end.

(** [ack_document()] *)
Definition ack_document (rq : Request)
    (form_engineer_id form_document_id form_version : FormValue) (s : Store)
  : Store * Response :=
  match
    (engineer_id <~ _to_int form_engineer_id "Engineer ID" false ;;
     document_id <~ _to_int form_document_id "Document ID" false ;;
     version <~ _to_int form_version "Version" false ;;
     inr (engineer_id, document_id, version))
  with
  | inl flashed => (s, Redirected flashed)
  | inr (engineer_id, document_id, version) =>
      commit_and_redirect s []
        (match engineer_id, document_id, version with
         | Some engineer_id, Some document_id, Some version =>
             tbl <- insert_document_ack
                      (DocumentAck.mk
                         (next_id (map DocumentAck.id (document_acks s)))
                         engineer_id document_id version (utcnow rq))
                      (document_acks s) ;;
             Ok (set_document_acks s tbl)
         | _, _, _ => Raise IntegrityError     (* NOT NULL *)
         end)
        AckCaptured (Some AlreadyAcknowledgedVersion)
  end.

End Admin.

(** The numbers of the catalogue are in range: a lab's grace days are not
    negative, a course has a validity and it is positive, and an override
    of a requirement, when there is one, is positive. *)
Definition catalogue_ok (s : Store) : Prop :=
  (forall lab, In lab (labs s) -> 0 <= Lab.grace_days lab)
  /\ (forall c, In c (courses s) ->
                exists n, Course.valid_months c = Some n /\ 0 < n)
  /\ (forall r, In r (lab_requirements s) ->
                match LabRequirement.valid_months r with
                | Some n => 0 < n
                | None => True
                end).


(** Every acknowledgment refers to a document of the store. *)
Definition acks_refer_to_documents (s : Store) : Prop :=
  forall a, In a (document_acks s) ->
            exists d, In d (documents s)
                      /\ Document.id d = DocumentAck.document_id a.

(* ------------------------------------------------------------------ *)
(** ** Dashboards ([routes/manager.py], [routes/views.py]) *)

(** A [dict] keyed by [(engineer_id, course_id)], in insertion order. *)
Definition key_eqb (a b : Z * Z) : bool :=
  (fst a =? fst b) && (snd a =? snd b).

Fixpoint dict_get {V : Type} (key : Z * Z) (d : list (Z * Z * V))
  : option V :=
  match d with
  | [] => None
  | (k, v) :: rest => if key_eqb k key then Some v else dict_get key rest
  end.

(** [d[key] = v] *)
Fixpoint dict_set {V : Type} (key : Z * Z) (v : V) (d : list (Z * Z * V))
  : list (Z * Z * V) :=
  match d with
  | [] => [(key, v)]
  | (k, old) :: rest =>
      if key_eqb k key then (k, v) :: rest
      else (k, old) :: dict_set key v rest
  end.

Definition completion_key (c : Completion.t) : Z * Z :=
  (Completion.engineer_id c, Completion.course_id c).

(** The loop of the manager's [dashboard()] that tracks the latest
    completion per engineer and course, over [Completion.query.all()]. *)
Definition latest_comps (all_completions : list Completion.t)
  : list (Z * Z * Completion.t) :=
  fold_left
    (fun latest comp =>
       let key := completion_key comp in
       match dict_get key latest with
       | None => dict_set key comp latest
       | Some cur =>
           if negb (Date.leb (Completion.date_taken comp)
                             (Completion.date_taken cur))
           then dict_set key comp latest
           else latest
       end)
    all_completions [].

(** The step of the loop, seen from one key. *)
Definition later_of (cur : option Completion.t) (comp : Completion.t)
  : option Completion.t :=
  match cur with
  | None => Some comp
  | Some m =>
      if Date.leb (Completion.date_taken comp) (Completion.date_taken m)
      then Some m else Some comp
  end.

(** [ORDER BY]: the rows sorted by [leb]; rows of equal key stay in table
    order. *)
Fixpoint insert_by {A : Type} (leb : A -> A -> bool) (x : A)
    (sorted : list A) : list A :=
  match sorted with
  | [] => [x]
  | y :: rest =>
      if leb x y then x :: sorted else y :: insert_by leb x rest
  end.

Definition order_by {A : Type} (leb : A -> A -> bool) (rows : list A)
  : list A :=
  fold_right (insert_by leb) [] rows.

(** In a sorted list every row is below the rows after it. *)
Fixpoint sorted_by {A : Type} (leb : A -> A -> bool) (l : list A) : Prop :=
  match l with
  | [] => True
  | x :: rest => (forall y, In y rest -> leb x y = true) /\ sorted_by leb rest
  end.

(** [completions_all()]: [order_by(Completion.date_taken.desc())]. *)
Definition completions_all (s : Store) : list Completion.t :=
  order_by (fun a b => Date.leb (Completion.date_taken b)
                                (Completion.date_taken a))
           (completions s).

(** [course_by_id.get(k)], for [course_by_id = {c.id: c for c in courses}]
    over the courses ordered by code: a later row of the same id replaces
    an earlier one. *)
Definition course_by_id (s : Store) (k : Z) : option Course.t :=
  find (fun c => Course.id c =? k)
       (rev (order_by (fun a b => String.leb (Course.code a) (Course.code b))
                      (courses s))).

(** [_add_months(d, months)] of [routes/views.py]. *)
Definition views_add_months (d : Date.t) (months : Z) : result Date.t :=
  let y := Date.year d + (Date.month d - 1 + months) / 12 in
  let m := (Date.month d - 1 + months) mod 12 + 1 in
  let dim :=
    nth (Z.to_nat (m - 1))
        [31;
         if (y mod 4 =? 0) && (negb (y mod 100 =? 0) || (y mod 400 =? 0))
         then 29 else 28;
         31; 30; 31; 30; 31; 31; 30; 31; 30; 31] 0 in
  let day := Z.min (Date.day d) dim in
  Date.date y m day.

(** An entry of [due_map]: [{"due": due, "days": days}]. *)
Module DueEntry.
Record t : Type := mk { due : option Date.t; days : option Z }.
End DueEntry.

(** The body of the [for c in completions] loop of [home()]. *)
Definition due_entry (rq : Request) (s : Store) (c : Completion.t)
  : result DueEntry.t :=
  let months :=
    match course_by_id s (Completion.course_id c) with
    | Some course => Course.valid_months course
    | None => None
    end in
  match months with
  | Some months =>
      if negb (months =? 0) && (0 <? months) then
        due <- views_add_months (Completion.date_taken c) months ;;
        Ok (DueEntry.mk (Some due)
              (Some (Date.toordinal due - Date.toordinal (today rq))))
      else Ok (DueEntry.mk None None)
  | None => Ok (DueEntry.mk None None)
  end.

Fixpoint due_map_loop (rq : Request) (s : Store)
    (completions : list Completion.t) (due_map : list (Z * Z * DueEntry.t))
  : result (list (Z * Z * DueEntry.t)) :=
  match completions with
  | [] => Ok due_map
  | c :: rest =>
      entry <- due_entry rq s c ;;
      due_map_loop rq s rest (dict_set (completion_key c) entry due_map)
  end.

(** The [due_map] that [home()] hands to its template. *)
Definition home_due_map (rq : Request) (s : Store)
  : result (list (Z * Z * DueEntry.t)) :=
  due_map_loop rq s (completions_all s) [].

(** Engineer 1 completed course 1 on 2023-06-01 and again on 2024-05-01. *)
Definition renewed_store : Store :=
  set_completions sample_store
    [sample_completion; Completion.mk 2 1 1 (Date.mk 2024 5 1) None None].

(** [{r.id: r for r in rows}.get(k)]: a later row of the same id replaces
    an earlier one. *)
Definition dict_by_id {A : Type} (id : A -> Z) (rows : list A) (k : Z)
  : option A :=
  find (fun r => id r =? k) (rev rows).

(** The [for r in reqs] loop of the manager's [dashboard()] that collects
    the codes of the courses whose training is not current; a requirement
    whose course is not in [courses_dict] is passed over. *)
Fixpoint training_issues (s : Store) (engineer_id : Z) (lab : Lab.t)
    (today : Date.t) (reqs : list LabRequirement.t) : result (list string) :=
  match reqs with
  | [] => Ok []
  | r :: rest =>
      match dict_by_id Course.id (courses s) (LabRequirement.course_id r) with
      | Some course =>
          cur <- _is_training_current s engineer_id course
                   (LabRequirement.valid_months r) (Lab.grace_days lab)
                   today ;;
          issues <- training_issues s engineer_id lab today rest ;;
          Ok (if negb cur then Course.code course :: issues else issues)
      | None => training_issues s engineer_id lab today rest
      end
  end.

(** The [for doc in docs] loop that collects the documents without an
    acknowledgment of their current version, as (title, version). *)
Fixpoint doc_issues (s : Store) (engineer_id : Z) (docs : list Document.t)
  : list (string * Z) :=
  match docs with
  | [] => []
  | doc :: rest =>
      match first (filter
                     (fun a => (DocumentAck.engineer_id a =? engineer_id)
                               && (DocumentAck.document_id a =? Document.id doc)
                               && (DocumentAck.version a
                                   =? Document.version doc))
                     (document_acks s)) with
      | None => (Document.title doc, Document.version doc)
                :: doc_issues s engineer_id rest
      | Some _ => doc_issues s engineer_id rest
      end
  end.

(** The compliance check of a row and, when it fails, the issues found:
    the block that [dashboard()] runs for each pending and each active
    row. *)
Definition dashboard_issues (rq : Request) (s : Store) (row : LabAccess.t)
    (lab : Lab.t) : result (bool * list string * list (string * Z)) :=
  compliant <- is_compliant_for_lab rq s (LabAccess.engineer_id row)
                 (LabAccess.lab_id row) (Some (today rq)) ;;
  if negb compliant then
    t <- training_issues s (LabAccess.engineer_id row) lab (today rq)
           (filter (fun r => LabRequirement.lab_id r =? LabAccess.lab_id row)
                   (lab_requirements s)) ;;
    Ok (compliant, t,
        if negb (_has_required_acks s (LabAccess.engineer_id row)
                   (LabAccess.lab_id row))
        then doc_issues s (LabAccess.engineer_id row)
               (filter (fun d => (Document.lab_id d =? LabAccess.lab_id row)
                                 && Document.mandatory d)
                       (documents s))
        else [])
  else Ok (compliant, [], []).

(** An entry of [pending_requests] or of [compliance_status]; the first
    kind has [lab_code] and [requested_at], the second [access_status]. *)
Module DashboardItem.
Record t : Type := mk
  { engineer_id : Z; engineer_name : string; lab_id : Z; lab_name : string;
    lab_code : option string; requested_at : option Z;
    access_status : option Status; is_compliant : bool;
    training_issues : list string; doc_issues : list (string * Z) }.
End DashboardItem.

Definition pending_item (req : LabAccess.t) (eng : Engineer.t) (lab : Lab.t)
    (compliant : bool) (t : list string) (d : list (string * Z))
  : DashboardItem.t :=
  DashboardItem.mk (LabAccess.engineer_id req) (Engineer.name eng)
    (LabAccess.lab_id req) (Lab.name lab) (Some (Lab.code lab))
    (Some (LabAccess.effective_at req)) None compliant t d.

Definition status_item (acc : LabAccess.t) (eng : Engineer.t) (lab : Lab.t)
    (compliant : bool) (t : list string) (d : list (string * Z))
  : DashboardItem.t :=
  DashboardItem.mk (LabAccess.engineer_id acc) (Engineer.name eng)
    (LabAccess.lab_id acc) (Lab.name lab) None None
    (Some (LabAccess.status acc)) compliant t d.

(** The [for req in pending] and [for acc in active] loops; a row whose
    engineer or lab is not in the dicts is passed over. *)
Fixpoint dashboard_rows (rq : Request) (s : Store)
    (item : LabAccess.t -> Engineer.t -> Lab.t -> bool -> list string ->
            list (string * Z) -> DashboardItem.t)
    (rows : list LabAccess.t) : result (list DashboardItem.t) :=
  match rows with
  | [] => Ok []
  | row :: rest =>
      match dict_by_id Engineer.id (engineers s) (LabAccess.engineer_id row),
            dict_by_id Lab.id (labs s) (LabAccess.lab_id row) with
      | Some eng, Some lab =>
          found <- dashboard_issues rq s row lab ;;
          items <- dashboard_rows rq s item rest ;;
          Ok (item row eng lab (fst (fst found)) (snd (fst found))
                   (snd found) :: items)
      | _, _ => dashboard_rows rq s item rest
      end
  end.

(** [pending_requests] and [compliance_status] of [dashboard()]. *)
Definition dashboard_lists (rq : Request) (s : Store)
  : result (list DashboardItem.t * list DashboardItem.t) :=
  pending_requests <-
    dashboard_rows rq s pending_item
      (filter (fun r => status_eqb (LabAccess.status r) pending)
              (lab_access s)) ;;
  compliance_status <-
    dashboard_rows rq s status_item
      (filter (fun r => status_eqb (LabAccess.status r) active)
              (lab_access s)) ;;
  Ok (pending_requests, compliance_status).

(** Lab 1 requires course 1, which engineer 1 completed long ago, and has
    a mandatory document that engineer 1 has not acknowledged; engineer 1
    has a pending request. *)
Definition lapsed_store : Store :=
  mkStore
    [Engineer.mk 1 "E-001" "Ava" "ava@example.org"]
    [Lab.mk 1 "LAB-EE" "Electrical Engineering Lab" 0]
    [sample_course]
    [LabRequirement.mk 1 1 1 None]
    [Completion.mk 1 1 1 (Date.mk 2020 1 15) None None]
    [Document.mk 1 1 "Safety Manual" 2 true None 0]
    []
    [LabAccess.mk 1 1 1 pending (Some "requested") 1717100000]
    [] [].

(** What holds of an entry, whichever list it is in. *)
Definition explained (rq : Request) (s : Store) (st : Status)
    (item : DashboardItem.t) : Prop :=
  (exists row,
      In row (lab_access s)
      /\ LabAccess.status row = st
      /\ LabAccess.engineer_id row = DashboardItem.engineer_id item
      /\ LabAccess.lab_id row = DashboardItem.lab_id item)
  /\ is_compliant_for_lab rq s (DashboardItem.engineer_id item)
       (DashboardItem.lab_id item) (Some (today rq))
     = Ok (DashboardItem.is_compliant item)
  /\ (DashboardItem.is_compliant item = true ->
      DashboardItem.training_issues item = []
      /\ DashboardItem.doc_issues item = [])
  /\ (DashboardItem.is_compliant item = false ->
      (forall r, In r (requirements_of s (DashboardItem.lab_id item)) ->
                 ~ dangling s r) ->
      DashboardItem.training_issues item <> []
      \/ DashboardItem.doc_issues item <> []).

(* ================================================================== *)
(** * Properties *)

(* ------------------------------------------------------------------ *)
(** ** Dates *)

Lemma is_leap_iff (y : Z) :
  Date.is_leap y = true
  <-> y mod 4 = 0 /\ (y mod 100 <> 0 \/ y mod 400 = 0).
Proof.
  unfold Date.is_leap.
  rewrite andb_true_iff, orb_true_iff, negb_true_iff.
  rewrite !Z.eqb_eq, Z.eqb_neq.
  tauto.
Qed.

Lemma month_cases (m : Z) :
  1 <= m <= 12 ->
  m = 1 \/ m = 2 \/ m = 3 \/ m = 4 \/ m = 5 \/ m = 6
  \/ m = 7 \/ m = 8 \/ m = 9 \/ m = 10 \/ m = 11 \/ m = 12.
Proof. lia. Qed.

(** The table indexed in [_add_months] is the month length of the calendar. *)
Lemma month_table (y m : Z) :
  1 <= m <= 12 ->
  nth (Z.to_nat (m - 1))
      [31;
       if (y mod 4 =? 0) && (negb (y mod 100 =? 0) || (y mod 400 =? 0))
       then 29 else 28;
       31; 30; 31; 30; 31; 31; 30; 31; 30; 31] 0
  = Date.days_in_month y m.
Proof.
  intros Hm.
  destruct (month_cases m Hm) as [H | H]; [ subst m; reflexivity | ].
  repeat (destruct H as [H | H]; [ subst m; reflexivity | ]).
  subst m; reflexivity.
Qed.

Lemma days_in_month_ge_28 (y m : Z) : 28 <= Date.days_in_month y m.
Proof.
  unfold Date.days_in_month.
  destruct (m =? 2); [ destruct (Date.is_leap y); lia | ].
  destruct ((m =? 4) || (m =? 6) || (m =? 9) || (m =? 11)); lia.
Qed.

Lemma valid_iff (d : Date.t) :
  Date.valid d = true
  <-> (Date.MINYEAR <= Date.year d <= Date.MAXYEAR)
      /\ (1 <= Date.month d <= 12)
      /\ (1 <= Date.day d <= Date.days_in_month (Date.year d) (Date.month d)).
Proof.
  unfold Date.valid.
  rewrite !andb_true_iff, !Z.leb_le.
  tauto.
Qed.

Lemma fits_c_int_iff (n : Z) :
  Date.fits_c_int n = true <-> - 2 ^ 31 <= n < 2 ^ 31.
Proof.
  unfold Date.fits_c_int. rewrite andb_true_iff, Z.leb_le, Z.ltb_lt.
  reflexivity.
Qed.

Lemma fits_c_int_small (n : Z) : -1 <= n <= 9999 -> Date.fits_c_int n = true.
Proof. intros H. apply fits_c_int_iff. lia. Qed.

Lemma date_ok (y m d : Z) :
  Date.valid (Date.mk y m d) = true -> Date.date y m d = Ok (Date.mk y m d).
Proof.
  intros H. unfold Date.date. rewrite H.
  apply valid_iff in H. simpl in H. destruct H as (Hy & Hm & Hd).
  assert (Hdim : Date.days_in_month y m <= 31).
  { unfold Date.days_in_month.
    destruct (m =? 2); [ destruct (Date.is_leap y); lia | ].
    destruct ((m =? 4) || (m =? 6) || (m =? 9) || (m =? 11)); lia. }
  unfold Date.MINYEAR, Date.MAXYEAR in Hy.
  rewrite !fits_c_int_small by lia. reflexivity.
Qed.

Lemma date_raises (y m d : Z) :
  Date.fits_c_int y = true -> Date.fits_c_int m = true ->
  Date.fits_c_int d = true ->
  Date.valid (Date.mk y m d) = false -> Date.date y m d = Raise ValueError.
Proof. unfold Date.date; intros -> -> -> ->; reflexivity. Qed.

Lemma date_returns (y m d : Z) (r : Date.t) :
  Date.date y m d = Ok r -> r = Date.mk y m d /\ Date.valid r = true.
Proof.
  unfold Date.date. destruct (negb _); [ discriminate | ].
  destruct (Date.valid (Date.mk y m d)) eqn:E; [ | discriminate ].
  intros [= <-]. auto.
Qed.

Lemma date_overflows (y m d : Z) :
  Date.fits_c_int y = false -> Date.date y m d = Raise OverflowError.
Proof. unfold Date.date; intros ->; reflexivity. Qed.

Lemma add_months_unfold (d : Date.t) (months : Z) :
  let y := Date.year d + (Date.month d - 1 + months) / 12 in
  let m := (Date.month d - 1 + months) mod 12 + 1 in
  _add_months d months
  = Date.date y m (Z.min (Date.day d) (Date.days_in_month y m)).
Proof.
  intros y m.
  unfold _add_months.
  fold y; fold m.
  rewrite month_table; [ reflexivity | ].
  subst m.
  pose proof (Z.mod_pos_bound (Date.month d - 1 + months) 12).
  lia.
Qed.

(** C8, as amended.  For a date [d] and any integer [months], let the month
    index [12 * year + (month - 1)] grow by [months]: this fixes the
    resulting year [y] and month [m] (year rollover in both directions).
    When [y] lies in the years 1..9999 of the date type, [_add_months]
    returns the date of year [y], month [m] and day
    [min (day d) (last day of that month)], a valid date, where the last
    day of February follows the Gregorian leap rule; when [y] leaves that
    range, the date constructor raises [ValueError] if [y] is still a C
    [int], and [OverflowError] if it is not.  The three dates of the
    specification are computed as stated. *)
Theorem add_months_spec (d : Date.t) (months : Z) :
  Date.valid d = true ->
  let y := Date.year d + (Date.month d - 1 + months) / 12 in
  let m := (Date.month d - 1 + months) mod 12 + 1 in
  let r := Date.mk y m (Z.min (Date.day d) (Date.days_in_month y m)) in
  (12 * y + (m - 1) = 12 * Date.year d + (Date.month d - 1) + months
   /\ 1 <= m <= 12)
  /\ (Date.MINYEAR <= y <= Date.MAXYEAR ->
      _add_months d months = Ok r /\ Date.valid r = true)
  /\ (~ Date.MINYEAR <= y <= Date.MAXYEAR ->
      _add_months d months
      = Raise (if Date.fits_c_int y then ValueError else OverflowError))
  /\ (forall y', Date.days_in_month y' 2
                 = if Date.is_leap y' then 29 else 28)
  /\ (forall y', Date.is_leap y' = true
                 <-> y' mod 4 = 0 /\ (y' mod 100 <> 0 \/ y' mod 400 = 0))
  /\ _add_months (Date.mk 2024 1 31) 1 = Ok (Date.mk 2024 2 29)
  /\ _add_months (Date.mk 2023 1 31) 1 = Ok (Date.mk 2023 2 28)
  /\ _add_months (Date.mk 2024 3 31) (-1) = Ok (Date.mk 2024 2 29).
Proof.
  intros Hd y m r.
  apply valid_iff in Hd.
  destruct Hd as (Hy & Hm & Hday).
  pose proof (Z.mod_pos_bound (Date.month d - 1 + months) 12 ltac:(lia)) as Hmod.
  pose proof (Z.div_mod (Date.month d - 1 + months) 12 ltac:(lia)) as Hdiv.
  pose proof (days_in_month_ge_28 y m) as H28.
  split; [ subst y m; lia | ].
  split.
  - intros Hrange.
    assert (Hr : Date.valid r = true).
    { apply valid_iff; subst r; simpl. subst m; lia. }
    split; [ | exact Hr ].
    rewrite add_months_unfold. fold y; fold m.
    apply date_ok. exact Hr.
  - split.
    + intros Hout.
      rewrite add_months_unfold. fold y; fold m.
      destruct (Date.fits_c_int y) eqn:Hfit;
        [ | now apply date_overflows ].
      apply date_raises; [ exact Hfit | | | ].
      * apply fits_c_int_small. subst m. lia.
      * apply fits_c_int_small.
        assert (Date.days_in_month (Date.year d) (Date.month d) <= 31).
        { unfold Date.days_in_month.
          destruct (Date.month d =? 2);
            [ destruct (Date.is_leap (Date.year d)); lia | ].
          destruct ((Date.month d =? 4) || (Date.month d =? 6)
                    || (Date.month d =? 9) || (Date.month d =? 11)); lia. }
        lia.
      * destruct (Date.valid
                    (Date.mk y m (Z.min (Date.day d)
                                        (Date.days_in_month y m))))
          eqn:E; [ | reflexivity ].
        apply valid_iff in E; simpl in E. tauto.
    + split; [ intros y'; reflexivity | ].
      split; [ exact is_leap_iff | ].
      repeat split; reflexivity.
Qed.

Lemma add_months_spec_witness :
  _add_months (Date.mk 2024 11 30) 3 = Ok (Date.mk 2025 2 28)
  /\ _add_months (Date.mk 1 1 15) (-1) = Raise ValueError
  /\ _add_months (Date.mk 2024 5 31) (2 ^ 40) = Raise OverflowError.
Proof.
  split; [ | split ].
  - apply (add_months_spec (Date.mk 2024 11 30) 3 eq_refl).
    vm_compute. split; discriminate.
  - apply (add_months_spec (Date.mk 1 1 15) (-1) eq_refl).
    vm_compute. intros [H _]. apply H. reflexivity.
  - apply (add_months_spec (Date.mk 2024 5 31) (2 ^ 40) eq_refl).
    vm_compute. intros [_ H]. apply H. reflexivity.
Defined.

(** C8, as stated, fails: the last day of year 9999 is a date, and adding
    one month to it yields no date. *)
Lemma add_months_year_overflow :
  Date.valid (Date.mk 9999 12 31) = true
  /\ _add_months (Date.mk 9999 12 31) 1 = Raise ValueError
  /\ ~ exists r, _add_months (Date.mk 9999 12 31) 1 = Ok r.
Proof.
  split; [ reflexivity | ].
  split; [ reflexivity | ].
  intros [r H]. discriminate H.
Qed.

Lemma date_leb_iff (a b : Date.t) :
  Date.leb a b = true
  <-> Date.year a < Date.year b
      \/ (Date.year a = Date.year b
          /\ (Date.month a < Date.month b
              \/ (Date.month a = Date.month b /\ Date.day a <= Date.day b))).
Proof.
  unfold Date.leb.
  rewrite !orb_true_iff, !andb_true_iff, orb_true_iff, andb_true_iff.
  rewrite !Z.ltb_lt, !Z.eqb_eq, Z.leb_le.
  tauto.
Qed.

Lemma date_leb_total (a b : Date.t) :
  Date.leb a b = false -> Date.leb b a = true.
Proof.
  intros H. apply date_leb_iff.
  destruct (Date.leb a b) eqn:E; [ discriminate | ].
  assert (Hn : ~ Date.leb a b = true) by congruence.
  rewrite date_leb_iff in Hn. lia.
Qed.

Lemma date_leb_trans (a b c : Date.t) :
  Date.leb a b = true -> Date.leb b c = true -> Date.leb a c = true.
Proof. rewrite !date_leb_iff. lia. Qed.


(** *** Ordinals

    [toordinal] numbers the days of the calendar: it is monotone for the
    chronological order, so comparing ordinals compares dates, and adding
    an integer to an ordinal moves by that many calendar days. *)

Lemma days_before_year_step (y : Z) :
  Date.days_before_year (y + 1)
  = Date.days_before_year y + 365 + (if Date.is_leap y then 1 else 0).
Proof.
  unfold Date.days_before_year.
  replace (y + 1 - 1) with y by lia.
  destruct (Date.is_leap y) eqn:E.
  - apply is_leap_iff in E. Z.div_mod_to_equations. lia.
  - assert (H : ~ (y mod 4 = 0 /\ (y mod 100 <> 0 \/ y mod 400 = 0))).
    { rewrite <- is_leap_iff. congruence. }
    Z.div_mod_to_equations. lia.
Qed.

Lemma days_before_year_mono (y1 y2 : Z) :
  y1 <= y2 ->
  Date.days_before_year y1 + 365 * (y2 - y1) <= Date.days_before_year y2.
Proof.
  intros H. replace y2 with (y1 + (y2 - y1)) at 2 by lia.
  assert (Hn : 0 <= y2 - y1) by lia.
  revert Hn. generalize (y2 - y1). clear H y2.
  apply natlike_ind.
  - cbv beta. replace (y1 + 0) with y1 by lia. lia.
  - intros n Hn IH. cbv beta in IH |- *. replace (y1 + Z.succ n) with (y1 + n + 1) by lia.
    rewrite days_before_year_step.
    destruct (Date.is_leap (y1 + n)); lia.
Qed.

Lemma days_before_month_step (y m : Z) :
  1 <= m <= 11 ->
  Date.days_before_month y (m + 1)
  = Date.days_before_month y m + Date.days_in_month y m.
Proof.
  intros Hm. unfold Date.days_before_month, Date.days_in_month.
  destruct (month_cases m ltac:(lia)) as [H | H].
  { subst m. simpl. destruct (Date.is_leap y); reflexivity. }
  repeat (destruct H as [H | H];
          [ subst m; simpl; destruct (Date.is_leap y); reflexivity | ]).
  lia.
Qed.

Lemma days_before_month_last (y : Z) :
  Date.days_before_month y 12 + Date.days_in_month y 12
  = 365 + (if Date.is_leap y then 1 else 0).
Proof.
  unfold Date.days_before_month, Date.days_in_month. simpl.
  destruct (Date.is_leap y); reflexivity.
Qed.

Ltac month_split m Hm :=
  let H := fresh "H" in
  destruct (month_cases m Hm) as [H | H]; [ subst m | ];
  repeat (destruct H as [H | H]; [ subst m | ]); [ .. | subst m ].

(** Days before each month and length of each month, [leap] being 1 in a
    leap year and 0 otherwise. *)
Lemma month_tables (y : Z) :
  let leap := if Date.is_leap y then 1 else 0 in
  (Date.days_before_month y 1 = 0
   /\ Date.days_before_month y 2 = 31
   /\ Date.days_before_month y 3 = 59 + leap
   /\ Date.days_before_month y 4 = 90 + leap
   /\ Date.days_before_month y 5 = 120 + leap
   /\ Date.days_before_month y 6 = 151 + leap
   /\ Date.days_before_month y 7 = 181 + leap
   /\ Date.days_before_month y 8 = 212 + leap
   /\ Date.days_before_month y 9 = 243 + leap
   /\ Date.days_before_month y 10 = 273 + leap
   /\ Date.days_before_month y 11 = 304 + leap
   /\ Date.days_before_month y 12 = 334 + leap)
  /\ (Date.days_in_month y 1 = 31
      /\ Date.days_in_month y 2 = 28 + leap
      /\ Date.days_in_month y 3 = 31
      /\ Date.days_in_month y 4 = 30
      /\ Date.days_in_month y 5 = 31
      /\ Date.days_in_month y 6 = 30
      /\ Date.days_in_month y 7 = 31
      /\ Date.days_in_month y 8 = 31
      /\ Date.days_in_month y 9 = 30
      /\ Date.days_in_month y 10 = 31
      /\ Date.days_in_month y 11 = 30
      /\ Date.days_in_month y 12 = 31).
Proof.
  unfold Date.days_before_month, Date.days_in_month.
  destruct (Date.is_leap y); repeat split; reflexivity.
Qed.

Lemma day_of_year_order (y m1 d1 m2 d2 : Z) :
  1 <= m1 <= 12 -> 1 <= m2 <= 12 ->
  1 <= d1 <= Date.days_in_month y m1 ->
  1 <= d2 <= Date.days_in_month y m2 ->
  (Date.days_before_month y m1 + d1 <= Date.days_before_month y m2 + d2
   <-> m1 < m2 \/ (m1 = m2 /\ d1 <= d2)).
Proof.
  intros Hm1 Hm2.
  pose proof (month_tables y) as T. cbv zeta in T.
  destruct (Date.is_leap y); decompose [and] T; clear T;
    month_split m1 Hm1; month_split m2 Hm2; lia.
Qed.

Lemma day_of_year_range (y m d : Z) :
  1 <= m <= 12 -> 1 <= d <= Date.days_in_month y m ->
  1 <= Date.days_before_month y m + d
       <= 365 + (if Date.is_leap y then 1 else 0).
Proof.
  intros Hm.
  pose proof (month_tables y) as T. cbv zeta in T.
  destruct (Date.is_leap y); decompose [and] T; clear T;
    month_split m Hm; lia.
Qed.

Lemma toordinal_lt_years (a b : Date.t) :
  Date.valid a = true -> Date.valid b = true ->
  Date.year a < Date.year b -> Date.toordinal a < Date.toordinal b.
Proof.
  intros Ha Hb Hlt.
  apply valid_iff in Ha, Hb.
  destruct Ha as (_ & Hma & Hda), Hb as (_ & Hmb & Hdb).
  pose proof (day_of_year_range _ _ _ Hma Hda) as Ra.
  pose proof (day_of_year_range _ _ _ Hmb Hdb) as Rb.
  pose proof (days_before_year_step (Date.year a)) as Hstep.
  pose proof (days_before_year_mono (Date.year a + 1) (Date.year b)
                ltac:(lia)) as Hmono.
  unfold Date.toordinal. lia.
Qed.

Lemma toordinal_le_iff (a b : Date.t) :
  Date.valid a = true -> Date.valid b = true ->
  (Date.toordinal a <= Date.toordinal b <-> Date.leb a b = true).
Proof.
  intros Ha Hb. rewrite date_leb_iff.
  destruct (Z.lt_trichotomy (Date.year a) (Date.year b)) as [H | [H | H]].
  - pose proof (toordinal_lt_years a b Ha Hb H). lia.
  - apply valid_iff in Ha, Hb.
    destruct Ha as (_ & Hma & Hda), Hb as (_ & Hmb & Hdb).
    rewrite <- H in Hdb.
    pose proof (day_of_year_order _ _ _ _ _ Hma Hmb Hda Hdb) as Hord.
    unfold Date.toordinal. rewrite <- H. lia.
  - pose proof (toordinal_lt_years b a Hb Ha H). lia.
Qed.

Lemma toordinal_samples :
  Date.toordinal (Date.mk 1 1 1) = 1
  /\ Date.toordinal (Date.mk 2020 1 1) = 737425
  /\ Date.toordinal (Date.mk 2024 6 1) = 739038
  /\ Date.toordinal (Date.mk 9999 12 31) = 3652059.
Proof. repeat split; reflexivity. Qed.

(* ------------------------------------------------------------------ *)
(** ** Queries *)

Section FirstDesc.

Variable A : Type.
Variable leb : A -> A -> bool.
Hypothesis leb_total : forall a b, leb a b = false -> leb b a = true.
Hypothesis leb_trans :
  forall a b c, leb a b = true -> leb b c = true -> leb a c = true.

Lemma first_desc_none (rows : list A) :
  first_desc leb rows = None -> rows = [].
Proof.
  destruct rows as [ | r rest ]; [ reflexivity | ].
  simpl. destruct (first_desc leb rest) as [ r' | ]; [ | discriminate ].
  destruct (leb r' r); discriminate.
Qed.

Lemma first_desc_in (rows : list A) (r : A) :
  first_desc leb rows = Some r -> In r rows.
Proof.
  revert r. induction rows as [ | x rest IH ]; intros r; simpl.
  - discriminate.
  - destruct (first_desc leb rest) as [ r' | ].
    + destruct (leb r' x); intros [= <-]; auto.
    + intros [= <-]; auto.
Qed.

Lemma first_desc_greatest (rows : list A) (r : A) :
  first_desc leb rows = Some r -> forall x, In x rows -> leb x r = true.
Proof.
  assert (leb_refl : forall a, leb a a = true).
  { intros a. pose proof (leb_total a a) as H.
    destruct (leb a a); auto. }
  revert r. induction rows as [ | y rest IH ]; intros r; simpl.
  - discriminate.
  - destruct (first_desc leb rest) as [ r' | ] eqn:E.
    + destruct (leb r' y) eqn:Hle; intros [= <-] x [ <- | Hin ].
      * apply leb_refl.
      * apply leb_trans with r'; [ exact (IH r' eq_refl x Hin) | exact Hle ].
      * now apply leb_total.
      * exact (IH r' eq_refl x Hin).
    + apply first_desc_none in E. subst rest.
      intros [= <-] x [ <- | [] ]. apply leb_refl.
Qed.

End FirstDesc.

Lemma first_filter_some (A : Type) (f : A -> bool) (rows : list A) (r : A) :
  first (filter f rows) = Some r -> In r rows /\ f r = true.
Proof.
  intros H. apply filter_In.
  destruct (filter f rows) as [ | x l ]; [ discriminate | ].
  injection H as <-. now left.
Qed.

Lemma first_filter_none (A : Type) (f : A -> bool) (rows : list A) :
  first (filter f rows) = None -> forall r, In r rows -> f r = false.
Proof.
  intros H r Hin.
  destruct (f r) eqn:E; [ | reflexivity ].
  assert (Hf : In r (filter f rows)) by (apply filter_In; auto).
  destruct (filter f rows); [ destruct Hf | discriminate ].
Qed.

(* ------------------------------------------------------------------ *)
(** ** Training currency *)

Lemma completion_filter_iff (s : Store) (engineer_id course_id : Z)
    (c : Completion.t) :
  In c (filter (fun c => (Completion.engineer_id c =? engineer_id)
                         && (Completion.course_id c =? course_id))
               (completions s))
  <-> In c (completions s)
      /\ Completion.engineer_id c = engineer_id
      /\ Completion.course_id c = course_id.
Proof.
  rewrite filter_In, andb_true_iff, !Z.eqb_eq. tauto.
Qed.

Lemma latest_completion_some (s : Store) (engineer_id course_id : Z)
    (comp : Completion.t) :
  _latest_completion s engineer_id course_id = Some comp ->
  latest_completion s engineer_id course_id comp.
Proof.
  unfold _latest_completion, latest_completion. intros H.
  pose proof (first_desc_in _ _ _ _ H) as Hin.
  apply completion_filter_iff in Hin.
  destruct Hin as (Hin & He & Hc).
  repeat split; auto.
  intros c Hc1 Hc2 Hc3.
  refine (first_desc_greatest _ _ _ _ _ _ H c _).
  - intros a b. apply date_leb_total.
  - intros a b c0. apply date_leb_trans.
  - apply completion_filter_iff. auto.
Qed.

Lemma latest_completion_none (s : Store) (engineer_id course_id : Z) :
  _latest_completion s engineer_id course_id = None ->
  forall c, In c (completions s) ->
            ~ (Completion.engineer_id c = engineer_id
               /\ Completion.course_id c = course_id).
Proof.
  unfold _latest_completion. intros H c Hin [He Hc].
  apply first_desc_none in H.
  assert (Hf : In c (filter
                       (fun c => (Completion.engineer_id c =? engineer_id)
                                 && (Completion.course_id c =? course_id))
                       (completions s)))
    by (apply completion_filter_iff; auto).
  rewrite H in Hf. destruct Hf.
Qed.




(* ------------------------------------------------------------------ *)
(** ** Document acknowledgment *)

Lemma acks_loop_iff (s : Store) (engineer_id : Z) (docs : list Document.t) :
  acks_loop s engineer_id docs = true
  <-> forall d, In d docs -> acked_current s engineer_id d.
Proof.
  induction docs as [ | d rest IH ]; simpl.
  - split; [ intros _ d [] | reflexivity ].
  - destruct (first _) as [ a | ] eqn:Hfirst.
    + apply first_filter_some in Hfirst.
      destruct Hfirst as [Hin Ha].
      rewrite !andb_true_iff, !Z.eqb_eq in Ha.
      rewrite IH. split.
      * intros H d' [ <- | Hd' ]; [ exists a; tauto | auto ].
      * intros H d' Hd'. apply H. now right.
    + split; [ discriminate | ].
      intros H. destruct (H d (or_introl eq_refl)) as (a & Hin & He & Hd & Hv).
      pose proof (first_filter_none _ _ _ Hfirst a Hin) as Hf.
      simpl in Hf. rewrite He, Hd, Hv, !Z.eqb_refl in Hf. discriminate.
Qed.

Lemma mandatory_filter_iff (s : Store) (lab_id : Z) (d : Document.t) :
  In d (filter (fun d => (Document.lab_id d =? lab_id) && Document.mandatory d)
               (documents s))
  <-> mandatory_document s lab_id d.
Proof.
  unfold mandatory_document.
  rewrite filter_In, andb_true_iff, Z.eqb_eq. tauto.
Qed.

Lemma has_required_acks_loop (s : Store) (engineer_id lab_id : Z) :
  _has_required_acks s engineer_id lab_id
  = acks_loop s engineer_id
      (filter (fun d => (Document.lab_id d =? lab_id) && Document.mandatory d)
              (documents s)).
Proof.
  unfold _has_required_acks.
  destruct (filter _ (documents s)); reflexivity.
Qed.

Lemma has_required_acks_true_iff (s : Store) (engineer_id lab_id : Z) :
  _has_required_acks s engineer_id lab_id = true
  <-> forall d, mandatory_document s lab_id d ->
                acked_current s engineer_id d.
Proof.
  rewrite has_required_acks_loop, acks_loop_iff.
  split; intros H d Hd; apply H; now apply mandatory_filter_iff.
Qed.

(** C7.  [_has_required_acks] returns true if and only if every mandatory
    document of the lab has an acknowledgment by the engineer whose version
    equals the document's current version.  With no mandatory document the
    result is true, and a mandatory document acknowledged only at other
    versions makes it false. *)
Theorem has_required_acks_iff (s : Store) (engineer_id lab_id : Z) :
  (_has_required_acks s engineer_id lab_id = true
   <-> forall d, mandatory_document s lab_id d ->
                 acked_current s engineer_id d)
  /\ ((forall d, ~ mandatory_document s lab_id d) ->
      _has_required_acks s engineer_id lab_id = true)
  /\ (forall d,
        mandatory_document s lab_id d ->
        (forall a, In a (document_acks s) ->
                   DocumentAck.engineer_id a = engineer_id ->
                   DocumentAck.document_id a = Document.id d ->
                   DocumentAck.version a <> Document.version d) ->
        _has_required_acks s engineer_id lab_id = false).
Proof.
  pose proof (has_required_acks_true_iff s engineer_id lab_id) as Hiff.
  split; [ exact Hiff | ].
  split.
  - intros Hnone. apply Hiff. intros d Hd. destruct (Hnone d Hd).
  - intros d Hd Hstale.
    destruct (_has_required_acks s engineer_id lab_id) eqn:E; [ | reflexivity ].
    destruct (proj1 Hiff eq_refl d Hd) as (a & Hin & He & Hdoc & Hv).
    destruct (Hstale a Hin He Hdoc Hv).
Qed.

Lemma has_required_acks_iff_witness :
  (forall d, mandatory_document sample_store 1 d ->
             acked_current sample_store 1 d)
  /\ _has_required_acks sample_store 1 2 = true.
Proof.
  split.
  - apply (has_required_acks_iff sample_store 1 1). reflexivity.
  - apply (has_required_acks_iff sample_store 1 2).
    intros d (Hin & Hlab & _).
    destruct Hin as [ <- | [] ]. discriminate Hlab.
Defined.

(* ------------------------------------------------------------------ *)
(** ** Compliance decision *)

Lemma reqs_loop_true_iff (s : Store) (engineer_id : Z) (lab : Lab.t)
    (asof : Date.t) (reqs : list LabRequirement.t) :
  reqs_loop s engineer_id lab asof reqs = Ok true
  <-> forall r, In r reqs -> requirement_current s engineer_id lab asof r.
Proof.
  unfold requirement_current.
  induction reqs as [ | r rest IH ]; simpl.
  - split; [ intros _ r [] | reflexivity ].
  - destruct (Course_get s (LabRequirement.course_id r)) as [ course | ] eqn:Hc.
    + destruct (_is_training_current s engineer_id course
                  (LabRequirement.valid_months r) (Lab.grace_days lab) asof)
        as [ [ | ] | e ] eqn:Hcur; simpl.
      * rewrite IH. split.
        -- intros H r' [ <- | Hr' ]; [ exists course; auto | auto ].
        -- intros H r' Hr'. apply H. now right.
      * split; [ discriminate | ].
        intros H. destruct (H r (or_introl eq_refl)) as (c & Hc' & Hcur').
        congruence.
      * split; [ discriminate | ].
        intros H. destruct (H r (or_introl eq_refl)) as (c & Hc' & Hcur').
        congruence.
    + split; [ discriminate | ].
      intros H. destruct (H r (or_introl eq_refl)) as (c & Hc' & _).
      congruence.
Qed.

Lemma reqs_loop_defined (s : Store) (engineer_id : Z) (lab : Lab.t)
    (asof : Date.t) (reqs : list LabRequirement.t) :
  (forall r, In r reqs -> training_defined s engineer_id lab asof r) ->
  reqs_loop s engineer_id lab asof reqs
  = Ok (forallb (requirement_current_b s engineer_id lab asof) reqs).
Proof.
  unfold training_defined, requirement_current_b.
  induction reqs as [ | r rest IH ]; simpl; intros Hdef.
  - reflexivity.
  - destruct (Course_get s (LabRequirement.course_id r)) as [ course | ] eqn:Hc.
    + destruct (Hdef r (or_introl eq_refl) course Hc) as [b Hb].
      rewrite Hb. simpl. destruct b; simpl.
      * apply IH. intros r' Hr'. apply Hdef. now right.
      * reflexivity.
    + reflexivity.
Qed.





(* ------------------------------------------------------------------ *)
(** ** Access state reconciler *)

Lemma status_eqb_eq (a b : Status) : status_eqb a b = true <-> a = b.
Proof. destruct a, b; simpl; split; congruence. Qed.

Lemma same_pair_iff (engineer_id lab_id : Z) (r : LabAccess.t) :
  same_pair engineer_id lab_id r = true
  <-> LabAccess.engineer_id r = engineer_id /\ LabAccess.lab_id r = lab_id.
Proof. unfold same_pair. now rewrite andb_true_iff, !Z.eqb_eq. Qed.

Lemma same_state_iff (engineer_id lab_id : Z) (st : Status) (r : LabAccess.t) :
  same_state engineer_id lab_id st r = true
  <-> LabAccess.engineer_id r = engineer_id /\ LabAccess.lab_id r = lab_id
      /\ LabAccess.status r = st.
Proof.
  unfold same_state. rewrite andb_true_iff, same_pair_iff, status_eqb_eq.
  tauto.
Qed.

Lemma filter_nil_iff (A : Type) (f : A -> bool) (l : list A) :
  filter f l = [] <-> forall x, In x l -> f x = false.
Proof.
  split.
  - intros H x Hin. destruct (f x) eqn:E; [ | reflexivity ].
    assert (Hf : In x (filter f l)) by (apply filter_In; auto).
    rewrite H in Hf. destruct Hf.
  - induction l as [ | a l IH ]; simpl; intros H; [ reflexivity | ].
    rewrite (H a (or_introl eq_refl)). apply IH. intros x Hx. apply H. now right.
Qed.

Lemma existsb_false_filter (A : Type) (f : A -> bool) (l : list A) :
  existsb f l = false <-> filter f l = [].
Proof.
  rewrite filter_nil_iff. split.
  - intros H x Hin. destruct (f x) eqn:E; [ | reflexivity ].
    assert (Hex : existsb f l = true) by (apply existsb_exists; eauto).
    congruence.
  - intros H. destruct (existsb f l) eqn:E; [ | reflexivity ].
    apply existsb_exists in E. destruct E as (x & Hin & Hx).
    rewrite (H x Hin) in Hx. discriminate.
Qed.

Lemma fits_integer_iff (n : Z) :
  fits_integer n = true <-> - 2 ^ 63 <= n < 2 ^ 63.
Proof.
  unfold fits_integer. rewrite andb_true_iff, Z.leb_le, Z.ltb_lt.
  reflexivity.
Qed.

(** An id that is no [INTEGER] stops [_ensure_access_state] at its first
    query. *)
Lemma ensure_access_state_overflow (rq : Request) (s : Store)
    (engineer_id lab_id : Z) (desired_status : Status) :
  fits_integer engineer_id && fits_integer lab_id = false ->
  _ensure_access_state rq s engineer_id lab_id desired_status
  = Raise OverflowError.
Proof. unfold _ensure_access_state. intros ->. reflexivity. Qed.

(** The two paths of [_ensure_access_state] on ids that are [INTEGER]s.
    When a row of the desired status exists, it is returned and the store
    is unchanged.  Otherwise the rows of the pair are deleted and one row is
    inserted, which is then the only row of the pair. *)
Lemma ensure_access_state_cases (rq : Request) (s : Store)
    (engineer_id lab_id : Z) (desired_status : Status) :
  fits_integer engineer_id && fits_integer lab_id = true ->
  (forall existing,
     first (filter (same_state engineer_id lab_id desired_status)
                   (lab_access s)) = Some existing ->
     _ensure_access_state rq s engineer_id lab_id desired_status
     = Ok (existing, s))
  /\ (filter (same_state engineer_id lab_id desired_status) (lab_access s)
      = [] ->
      let kept := filter (fun r => negb (same_pair engineer_id lab_id r))
                         (lab_access s) in
      let row := LabAccess.mk (next_id (map LabAccess.id kept)) engineer_id
                              lab_id desired_status None (utcnow rq) in
      _ensure_access_state rq s engineer_id lab_id desired_status
      = Ok (row, set_lab_access s (kept ++ [row]))
      /\ filter (same_pair engineer_id lab_id) (kept ++ [row]) = [row]).
Proof.
  intros Hfits. split.
  - intros existing H. unfold _ensure_access_state.
    rewrite Hfits, H. reflexivity.
  - intros Hnone. cbv zeta. unfold _ensure_access_state.
    rewrite Hfits, Hnone. cbn [first negb].
    set (kept := filter (fun r => negb (same_pair engineer_id lab_id r))
                        (lab_access s)).
    set (row := LabAccess.mk (next_id (map LabAccess.id kept)) engineer_id
                             lab_id desired_status None (utcnow rq)).
    assert (Hkept : filter (same_pair engineer_id lab_id) kept = []).
    { apply filter_nil_iff. intros x Hx. apply filter_In in Hx.
      destruct Hx as [_ Hx]. now apply negb_true_iff in Hx. }
    assert (Htaken : state_taken row kept = false).
    { unfold state_taken. apply existsb_false_filter, filter_nil_iff.
      intros x Hx. simpl. unfold same_state.
      rewrite filter_nil_iff in Hkept. rewrite (Hkept x Hx). reflexivity. }
    unfold insert_lab_access. rewrite Htaken. simpl.
    split; [ reflexivity | ].
    rewrite filter_app, Hkept. simpl.
    unfold same_pair. simpl. rewrite !Z.eqb_refl. reflexivity.
Qed.

Lemma conflict_store_rows :
  lab_access conflict_store = [active_row; pending_row].
Proof. reflexivity. Qed.

(** C1 at a store the handlers produce: the pair (1, 1) holds an active row
    and a pending row; [_ensure_access_state] for [active] returns the
    active row and leaves the store as it is, so two rows of the pair
    remain. *)
Theorem ensure_access_state_keeps_other_rows :
  lab_access conflict_store = [active_row; pending_row]
  /\ _ensure_access_state sample_request conflict_store 1 1 active
     = Ok (active_row, conflict_store)
  /\ filter (same_pair 1 1) (lab_access conflict_store)
     = [active_row; pending_row]
  /\ ~ (List.length (filter (same_pair 1 1) (lab_access conflict_store)) <= 1)%nat.
Proof.
  split; [ reflexivity | ].
  split; [ reflexivity | ].
  split; [ reflexivity | ].
  simpl. lia.
Qed.

(** C2 at the same store, where engineer 1 is compliant for lab 1: each run
    of [autocheck] reports one activation and leaves the pending row in
    place, so the second run is not a run of zero changes.  Likewise, at
    [stale_store], where the engineer holds an active row and a cancelled
    request and the training has lapsed by the day of [later_request],
    each run reports one revocation and the active row stays active. *)
Theorem autocheck_repeats_its_changes :
  let run1 := autocheck sample_request conflict_store in
  let run2 := autocheck sample_request (fst run1) in
  let stale1 := autocheck later_request stale_store in
  let stale2 := autocheck later_request (fst stale1) in
  is_compliant_for_lab sample_request conflict_store 1 1 None = Ok true
  /\ snd run1 = Flashed (AutocheckDone 1 0) success
  /\ lab_access (fst run1) = [active_row; pending_row]
  /\ snd run2 = Flashed (AutocheckDone 1 0) success
  /\ lab_access stale_store = [active_row; revoked_row]
  /\ is_compliant_for_lab later_request stale_store 1 1 None = Ok false
  /\ snd stale1 = Flashed (AutocheckDone 0 1) success
  /\ lab_access (fst stale1) = [active_row; revoked_row]
  /\ snd stale2 = Flashed (AutocheckDone 0 1) success.
Proof. repeat split; reflexivity. Qed.

(** C3 at [base_store], which has engineer 1 and lab 1 only.  [revoke] for
    the unknown lab 99 inserts a revoked row and reports success; [approve]
    for the unknown lab 99 inserts a pending row and answers as it does for
    an engineer who is not compliant; [approve] for the unknown engineer 5
    inserts an active row.  [request_access], in contrast, reports the
    unknown lab and changes nothing. *)
Theorem approve_revoke_unknown_ids :
  Lab_get base_store 99 = None
  /\ Engineer_get base_store 5 = None
  /\ lab_access base_store = []
  /\ revoke sample_request (Some 1) (Some 99) base_store
     = (audit sample_request
          (set_lab_access base_store
             [LabAccess.mk 1 1 99 revoked None 1717200000])
          "revoke_access" "lab_access" (PairId 1 99)
          [("status", MStr "revoked"); ("mode", MStr "manual")],
        Flashed AccessRevoked info)
  /\ approve sample_request (Some 1) (Some 99) base_store
     = (audit sample_request
          (set_lab_access base_store
             [LabAccess.mk 1 1 99 pending None 1717200000])
          "approve_access" "lab_access" (PairId 1 99)
          [("status", MStr "pending"); ("reason", MStr "not_compliant")],
        Flashed KeptPending warning)
  /\ lab_access (fst (approve sample_request (Some 5) (Some 1) base_store))
     = [LabAccess.mk 1 5 1 active None 1717200000]
  /\ snd (approve sample_request (Some 5) (Some 1) base_store)
     = Flashed AccessApproved success
  /\ request_access sample_request (Some 1) (Some 99) base_store
     = (base_store, Flashed (LabNotFound 99) warning).
Proof. repeat split; reflexivity. Qed.

(* ------------------------------------------------------------------ *)
(** ** Engineer requests *)

Lemma engineer_get_some (s : Store) (pk : Z) (eng : Engineer.t) :
  Engineer_get s pk = Some eng -> In eng (engineers s) /\ Engineer.id eng = pk.
Proof.
  unfold Engineer_get. intros H. apply find_some in H.
  now rewrite Z.eqb_eq in H.
Qed.

Lemma filter_app_one_length (A : Type) (f : A -> bool) (l : list A) (x : A) :
  List.length (filter f (l ++ [x]))
  = (List.length (filter f l) + (if f x then 1 else 0))%nat.
Proof.
  rewrite filter_app, length_app. simpl.
  destruct (f x); reflexivity.
Qed.

Lemma insert_lab_access_unique (row : LabAccess.t) (tbl tbl' : list LabAccess.t) :
  unique_state tbl ->
  insert_lab_access row tbl = Ok tbl' ->
  tbl' = tbl ++ [row] /\ unique_state tbl'.
Proof.
  unfold insert_lab_access. intros Huniq.
  destruct (state_taken row tbl) eqn:Htaken; [ discriminate | ].
  intros [= <-]. split; [ reflexivity | ].
  intros e l st. rewrite filter_app_one_length.
  destruct (same_state e l st row) eqn:Hrow.
  - apply same_state_iff in Hrow. destruct Hrow as (<- & <- & <-).
    unfold state_taken in Htaken. apply existsb_false_filter in Htaken.
    rewrite Htaken. simpl. lia.
  - specialize (Huniq e l st). lia.
Qed.

(** Whatever the form holds, [request_access] keeps the unique constraint. *)
Lemma request_access_preserves_unique (rq : Request)
    (form_engineer_id form_lab_id : option Z) (s : Store) :
  unique_state (lab_access s) ->
  unique_state
    (lab_access (fst (request_access rq form_engineer_id form_lab_id s))).
Proof.
  intros Huniq. unfold request_access.
  destruct form_engineer_id as [ e | ]; [ | exact Huniq ].
  destruct form_lab_id as [ l | ]; [ | exact Huniq ].
  destruct (falsy (Some e) || falsy (Some l)); [ exact Huniq | ].
  destruct (Engineer_get s e) as [ eng | ]; [ | exact Huniq ].
  destruct (Lab_get s l) as [ lab | ]; [ | exact Huniq ].
  destruct (insert_lab_access _ (lab_access s)) as [ tbl | ex ] eqn:Hins;
    [ | exact Huniq ].
  simpl. now apply (insert_lab_access_unique _ _ _ Huniq Hins).
Qed.

(** C4, as amended.  For an engineer and a lab that exist, with nonzero
    identifiers: when the pair has no pending row, [request_access] appends
    one row with status pending, reason "requested" and [effective_at] now,
    writes the audit row and reports success; when the pair has a pending
    row, the insert violates the unique (engineer, lab, status) constraint,
    [IntegrityError] escapes and the store is unchanged.  Hence, in a store
    that satisfies the constraint, the pair has at most one pending row
    after the call. *)
Theorem request_access_spec (rq : Request) (s : Store)
    (engineer_id lab_id : Z) (eng : Engineer.t) (lab : Lab.t) :
  Engineer_get s engineer_id = Some eng ->
  Lab_get s lab_id = Some lab ->
  engineer_id <> 0 ->
  lab_id <> 0 ->
  let row :=
    LabAccess.mk (next_id (map LabAccess.id (lab_access s))) engineer_id
                 lab_id pending (Some "requested") (utcnow rq) in
  let after := request_access rq (Some engineer_id) (Some lab_id) s in
  (filter (same_state engineer_id lab_id pending) (lab_access s) = [] ->
   after
   = (audit rq (set_lab_access s (lab_access s ++ [row])) "request_access"
            "lab_access" (PairId engineer_id lab_id)
            [("status", MStr "pending")],
      Flashed (RequestSubmitted (Engineer.name eng) (Lab.name lab)) success))
  /\ (filter (same_state engineer_id lab_id pending) (lab_access s) <> [] ->
      after = (s, ServerError IntegrityError))
  /\ (unique_state (lab_access s) ->
      unique_state (lab_access (fst after))
      /\ (List.length (filter (same_state engineer_id lab_id pending)
                              (lab_access (fst after))) <= 1)%nat).
Proof.
  intros Heng Hlab He Hl row after.
  assert (Hunfold :
    after
    = match insert_lab_access row (lab_access s) with
      | Raise e => (s, ServerError e)
      | Ok tbl =>
          (audit rq (set_lab_access s tbl) "request_access" "lab_access"
                 (PairId engineer_id lab_id) [("status", MStr "pending")],
           Flashed (RequestSubmitted (Engineer.name eng) (Lab.name lab))
                   success)
      end).
  { subst after. unfold request_access, falsy.
    apply Z.eqb_neq in He, Hl. rewrite He, Hl, Heng, Hlab. reflexivity. }
  assert (Htaken :
    state_taken row (lab_access s) = false
    <-> filter (same_state engineer_id lab_id pending) (lab_access s) = []).
  { unfold state_taken. apply existsb_false_filter. }
  split; [ | split ].
  - intros Hnone. rewrite Hunfold. unfold insert_lab_access.
    rewrite (proj2 Htaken Hnone). reflexivity.
  - intros Hsome. rewrite Hunfold. unfold insert_lab_access.
    destruct (state_taken row (lab_access s)); [ reflexivity | ].
    destruct Hsome. now apply Htaken.
  - intros Huniq.
    pose proof (request_access_preserves_unique rq (Some engineer_id)
                  (Some lab_id) s Huniq) as H.
    split; [ exact H | apply H ].
Qed.

Lemma request_access_spec_witness :
  request_access sample_request (Some 1) (Some 1) conflict_store
  = (conflict_store, ServerError IntegrityError)
  /\ lab_access (fst (request_access sample_request (Some 1) (Some 1)
                        base_store))
     = [LabAccess.mk 1 1 1 pending (Some "requested") 1717200000].
Proof.
  split.
  - apply (request_access_spec sample_request conflict_store 1 1
             (Engineer.mk 1 "E-001" "Ava" "ava@example.org")
             (Lab.mk 1 "LAB-EE" "Electrical Engineering Lab" 0)
             eq_refl eq_refl); [ lia | lia | ].
    discriminate.
  - destruct (request_access_spec sample_request base_store 1 1
                (Engineer.mk 1 "E-001" "Ava" "ava@example.org")
                (Lab.mk 1 "LAB-EE" "Electrical Engineering Lab" 0)
                eq_refl eq_refl) as (H & _); [ lia | lia | ].
    rewrite (H eq_refl). reflexivity.
Defined.

(** C4, as stated, fails: a second request for the same pair does not add a
    second pending row; it fails on the unique constraint and the pair
    keeps its single pending row.  No call on a store that satisfies the
    constraint leaves two pending rows of a pair. *)
Lemma request_access_twice_fails :
  let once := request_access sample_request (Some 1) (Some 1) base_store in
  let twice := request_access sample_request (Some 1) (Some 1) (fst once) in
  snd once = Flashed (RequestSubmitted "Ava" "Electrical Engineering Lab")
                     success
  /\ snd twice = ServerError IntegrityError
  /\ lab_access (fst twice)
     = [LabAccess.mk 1 1 1 pending (Some "requested") 1717200000]
  /\ ~ (exists rq s engineer_id lab_id,
          unique_state (lab_access s)
          /\ (2 <= List.length
                     (filter (same_state engineer_id lab_id pending)
                        (lab_access
                           (fst (request_access rq (Some engineer_id)
                                   (Some lab_id) s)))))%nat).
Proof.
  split; [ reflexivity | ].
  split; [ reflexivity | ].
  split; [ reflexivity | ].
  intros (rq & s & e & l & Huniq & Htwo).
  pose proof (request_access_preserves_unique rq (Some e) (Some l) s Huniq
                e l pending) as Hle.
  lia.
Qed.

(* ------------------------------------------------------------------ *)
(** ** Metrics snapshots *)

Lemma date_eqb_eq (a b : Date.t) : Date.eqb a b = true <-> a = b.
Proof.
  unfold Date.eqb. rewrite !andb_true_iff, !Z.eqb_eq.
  destruct a, b; simpl. split.
  - intros [[-> ->] ->]. reflexivity.
  - intros [= -> -> ->]. auto.
Qed.

Lemma same_day_iff (lab_id : Z) (asof : Date.t) (r : LabMetrics.t) :
  same_day lab_id asof r = true
  <-> LabMetrics.lab_id r = lab_id /\ LabMetrics.asof r = asof.
Proof. unfold same_day. now rewrite andb_true_iff, Z.eqb_eq, date_eqb_eq. Qed.

Lemma clamp_pct_range (n : Z) : 0 <= clamp_pct n <= 100.
Proof. unfold clamp_pct. lia. Qed.

Lemma pct_clamp (n : Z) : pct (clamp_pct n) = true.
Proof.
  unfold pct. pose proof (clamp_pct_range n).
  apply andb_true_iff. rewrite !Z.leb_le. lia.
Qed.

Lemma filter_map_commute (A : Type) (f : A -> bool) (g : A -> A)
    (l : list A) :
  (forall r, In r l -> f (g r) = f r) ->
  filter f (map g l) = map g (filter f l).
Proof.
  induction l as [ | a l IH ]; simpl; intros H; [ reflexivity | ].
  rewrite (H a (or_introl eq_refl)).
  rewrite IH by (intros r Hr; apply H; now right).
  destruct (f a); reflexivity.
Qed.

Lemma first_filter_singleton (A : Type) (f : A -> bool) (l : list A) (a : A) :
  (List.length (filter f l) <= 1)%nat ->
  first (filter f l) = Some a ->
  filter f l = [a].
Proof.
  destruct (filter f l) as [ | x [ | y rest ] ]; simpl.
  - discriminate.
  - intros _ [= ->]. reflexivity.
  - lia.
Qed.

Lemma pk_inj (A : Type) (id : A -> Z) (tbl : list A) (a b : A) :
  NoDup (map id tbl) -> In a tbl -> In b tbl -> id a = id b -> a = b.
Proof.
  induction tbl as [ | x tbl IH ]; simpl; [ intros _ [] | ].
  intros Hnd Ha Hb Hid. apply NoDup_cons_iff in Hnd.
  destruct Hnd as [Hx Hnd].
  destruct Ha as [ -> | Ha ], Hb as [ -> | Hb ]; auto.
  - destruct Hx. rewrite Hid. now apply in_map.
  - destruct Hx. rewrite <- Hid. now apply in_map.
Qed.

(** C9, as amended.  For numeric form fields, of which the lab id is an
    SQLite [INTEGER], and an [asof] field that is empty or a date, in a
    store whose [lab_metrics] table satisfies its primary key and its
    unique (lab, day) constraint, [metrics_save] succeeds.  The three
    values are clamped into 0..100.  When the (lab, day) has a row, that row
    is overwritten in place with the clamped values; when it has none, a row
    is appended.  Afterwards exactly one row of the table has that
    (lab, day), it holds the clamped values, the rows of other keys are
    still in the table, and the table still satisfies the unique
    constraint. *)
Theorem metrics_save_upsert (rq : Request) (s : Store)
    (lab_id util cond act : Z) (field : AsofField) :
  field <> AsofMalformed ->
  fits_integer lab_id = true ->
  NoDup (map LabMetrics.id (lab_metrics s)) ->
  unique_day (lab_metrics s) ->
  let asof := asof_of rq field in
  let u := clamp_pct util in
  let c := clamp_pct cond in
  let a := clamp_pct act in
  exists row tbl,
    metrics_save rq (Some lab_id) (Some util) (Some cond) (Some act) field s
    = (audit rq (set_lab_metrics s tbl) "save_metrics" "lab_metrics"
             (MetricsId lab_id asof)
             [("utilization", MInt u); ("condition", MInt c);
              ("activity", MInt a)],
       Flashed MetricsSaved success)
    /\ filter (same_day lab_id asof) tbl = [row]
    /\ LabMetrics.lab_id row = lab_id /\ LabMetrics.asof row = asof
    /\ LabMetrics.utilization row = u /\ LabMetrics.condition row = c
    /\ LabMetrics.activity row = a
    /\ (0 <= u <= 100 /\ 0 <= c <= 100 /\ 0 <= a <= 100)
    /\ (filter (same_day lab_id asof) (lab_metrics s) = [] ->
        tbl = lab_metrics s ++ [row])
    /\ (forall old,
          In old (lab_metrics s) -> same_day lab_id asof old = true ->
          LabMetrics.id row = LabMetrics.id old
          /\ tbl = map (fun r => if LabMetrics.id r =? LabMetrics.id old
                                 then row else r)
                       (lab_metrics s))
    /\ (forall r, In r (lab_metrics s) -> same_day lab_id asof r = false ->
                  In r tbl)
    /\ unique_day tbl.
Proof.
  intros Hfield Hfits Hpk Huniq asof u c a.
  assert (Hparse :
    match field with
    | AsofEmpty => Some (today rq)
    | AsofMalformed => None
    | AsofDate d => Some d
    end = Some asof).
  { subst asof. destruct field; simpl; congruence. }
  unfold metrics_save. rewrite Hparse, Hfits. cbn [negb].
  fold (clamp_pct util) (clamp_pct cond) (clamp_pct act). fold u c a.
  assert (Hrange : 0 <= u <= 100 /\ 0 <= c <= 100 /\ 0 <= a <= 100)
    by (subst u c a; repeat split; apply clamp_pct_range).
  destruct (first (filter (same_day lab_id asof) (lab_metrics s)))
    as [ old | ] eqn:Hfirst.
  - (* a row of that lab and day exists: UPDATE *)
    pose proof (first_filter_singleton _ _ _ old (Huniq lab_id asof) Hfirst)
      as Hone.
    apply first_filter_some in Hfirst. destruct Hfirst as [Hin Hold].
    pose proof Hold as Hkey. apply same_day_iff in Hkey.
    destruct Hkey as [Hlab Hasof].
    set (row := LabMetrics.mk (LabMetrics.id old) (LabMetrics.lab_id old)
                              (LabMetrics.asof old) u c a).
    set (upd := fun r => if LabMetrics.id r =? LabMetrics.id old
                         then row else r).
    assert (Hupd : forall l' d' r, In r (lab_metrics s) ->
                                   same_day l' d' (upd r) = same_day l' d' r).
    { intros l' d' r Hr. unfold upd.
      destruct (LabMetrics.id r =? LabMetrics.id old) eqn:Hid;
        [ | reflexivity ].
      apply Z.eqb_eq in Hid.
      rewrite (pk_inj _ _ _ r old Hpk Hr Hin Hid). reflexivity. }
    assert (Hfree :
      existsb (same_day (LabMetrics.lab_id row) (LabMetrics.asof row))
              (filter (fun r => negb (LabMetrics.id r =? LabMetrics.id old))
                      (lab_metrics s)) = false).
    { apply existsb_false_filter, filter_nil_iff. intros r Hr.
      apply filter_In in Hr. destruct Hr as [Hr Hid].
      destruct (same_day _ _ r) eqn:Hsame; [ | reflexivity ].
      simpl in Hsame. rewrite Hlab, Hasof in Hsame.
      assert (Hr' : In r (filter (same_day lab_id asof) (lab_metrics s)))
        by (apply filter_In; auto).
      rewrite Hone in Hr'. destruct Hr' as [ <- | [] ].
      rewrite Z.eqb_refl in Hid. discriminate. }
    assert (Hchecks : metrics_checks row = true).
    { unfold metrics_checks. simpl. subst u c a. now rewrite !pct_clamp. }
    unfold update_lab_metrics. fold row. rewrite Hfree, Hchecks. simpl.
    fold upd.
    exists row, (map upd (lab_metrics s)).
    split; [ reflexivity | ].
    split.
    { rewrite filter_map_commute by (intros r Hr; now apply Hupd).
      rewrite Hone. simpl. unfold upd. now rewrite Z.eqb_refl. }
    split; [ exact Hlab | ].
    split; [ exact Hasof | ].
    do 3 (split; [ reflexivity | ]).
    split; [ exact Hrange | ].
    split; [ intros Hnone; rewrite Hnone in Hone; discriminate | ].
    split.
    { intros old' Hin' Hold'.
      assert (Hr' : In old' (filter (same_day lab_id asof) (lab_metrics s)))
        by (apply filter_In; auto).
      rewrite Hone in Hr'. destruct Hr' as [ <- | [] ].
      split; reflexivity. }
    split.
    { intros r Hr Hother.
      assert (Hsame : upd r = r).
      { unfold upd.
        destruct (LabMetrics.id r =? LabMetrics.id old) eqn:Hid;
          [ | reflexivity ].
        apply Z.eqb_eq in Hid.
        rewrite (pk_inj _ _ _ r old Hpk Hr Hin Hid) in Hother.
        congruence. }
      rewrite <- Hsame. now apply in_map. }
    intros l' d'.
    rewrite filter_map_commute by (intros r Hr; now apply Hupd).
    rewrite length_map. apply Huniq.
  - (* no row of that lab and day: INSERT *)
    assert (Hnone : filter (same_day lab_id asof) (lab_metrics s) = []).
    { destruct (filter (same_day lab_id asof) (lab_metrics s));
        [ reflexivity | discriminate ]. }
    set (row := LabMetrics.mk (next_id (map LabMetrics.id (lab_metrics s)))
                              lab_id asof u c a).
    assert (Hrow : same_day lab_id asof row = true)
      by (apply same_day_iff; split; reflexivity).
    assert (Hchecks : metrics_checks row = true).
    { unfold metrics_checks. simpl. subst u c a. now rewrite !pct_clamp. }
    unfold insert_lab_metrics. simpl LabMetrics.lab_id. simpl LabMetrics.asof.
    rewrite (proj2 (existsb_false_filter _ _ _) Hnone), Hchecks. simpl.
    exists row, (lab_metrics s ++ [row]).
    split; [ reflexivity | ].
    split; [ rewrite filter_app, Hnone; simpl; now rewrite Hrow | ].
    do 5 (split; [ reflexivity | ]).
    split; [ exact Hrange | ].
    split; [ reflexivity | ].
    split.
    { intros old Hin Hold.
      assert (Hr' : In old (filter (same_day lab_id asof) (lab_metrics s)))
        by (apply filter_In; auto).
      rewrite Hnone in Hr'. destruct Hr'. }
    split; [ intros r Hr _; apply in_or_app; now left | ].
    intros l' d'. rewrite filter_app_one_length.
    destruct (same_day l' d' row) eqn:Hsame.
    + apply same_day_iff in Hsame. simpl in Hsame.
      destruct Hsame as [<- <-]. rewrite Hnone. simpl. lia.
    + specialize (Huniq l' d'). lia.
Qed.

Lemma metrics_save_upsert_witness :
  exists row,
    filter (same_day 1 (Date.mk 2024 6 1))
           (lab_metrics (fst (metrics_save sample_request (Some 1) (Some 150)
                                 (Some (-5)) (Some 50) AsofEmpty
                                 metrics_store)))
    = [row]
    /\ LabMetrics.id row = 1
    /\ LabMetrics.utilization row = 100
    /\ LabMetrics.condition row = 0
    /\ LabMetrics.activity row = 50.
Proof.
  destruct (metrics_save_upsert sample_request metrics_store 1 150 (-5) 50
              AsofEmpty)
    as (row & tbl & Heq & Hone & _ & _ & Hu & Hc & Ha & _ & _ & Hold & _).
  - discriminate.
  - reflexivity.
  - simpl. constructor; [ intros [] | constructor ].
  - intros l d. simpl. destruct (same_day l d _); simpl; lia.
  - exists row. rewrite Heq. simpl. repeat split; auto.
    apply (Hold (LabMetrics.mk 1 1 (Date.mk 2024 6 1) 10 20 30)).
    + left. reflexivity.
    + reflexivity.
Defined.

(** C9, as stated, fails for a lab id that is no [INTEGER]: the form passes
    [int("9223372036854775808")] on, the lookup of the day's row raises
    [OverflowError], nothing is written and no row of that lab and day
    exists afterwards. *)
Lemma metrics_save_integer_overflow :
  metrics_save sample_request (Some (2 ^ 63)) (Some 150) (Some (-5))
    (Some 50) AsofEmpty metrics_store
  = (metrics_store, ServerError OverflowError)
  /\ filter (same_day (2 ^ 63) (Date.mk 2024 6 1))
            (lab_metrics
               (fst (metrics_save sample_request (Some (2 ^ 63)) (Some 150)
                       (Some (-5)) (Some 50) AsofEmpty metrics_store)))
     = [].
Proof. split; reflexivity. Qed.

(* ------------------------------------------------------------------ *)
(** ** Cancelling a request *)

(** C10.  For a pair of nonzero identifiers that has a pending row and a
    revoked row, in a table that satisfies its primary key,
    [cancel_request] selects the most recent pending row of the pair; the
    update of that row to status revoked collides with the revoked row
    under the unique (engineer, lab, status) constraint; [IntegrityError]
    escapes the handler and the store is unchanged, so the selected row is
    still pending. *)
Theorem cancel_request_collides (rq : Request) (s : Store)
    (engineer_id lab_id : Z) :
  engineer_id <> 0 ->
  lab_id <> 0 ->
  NoDup (map LabAccess.id (lab_access s)) ->
  (exists p, In p (lab_access s)
             /\ LabAccess.engineer_id p = engineer_id
             /\ LabAccess.lab_id p = lab_id
             /\ LabAccess.status p = pending) ->
  (exists r, In r (lab_access s)
             /\ LabAccess.engineer_id r = engineer_id
             /\ LabAccess.lab_id r = lab_id
             /\ LabAccess.status r = revoked) ->
  exists row,
    In row (lab_access s)
    /\ LabAccess.engineer_id row = engineer_id
    /\ LabAccess.lab_id row = lab_id
    /\ LabAccess.status row = pending
    /\ (forall p, In p (lab_access s) ->
                  LabAccess.engineer_id p = engineer_id ->
                  LabAccess.lab_id p = lab_id ->
                  LabAccess.status p = pending ->
                  LabAccess.effective_at p <= LabAccess.effective_at row)
    /\ update_lab_access (LabAccess.id row)
         (LabAccess.mk (LabAccess.id row) engineer_id lab_id revoked
                       (Some "user_cancelled") (utcnow rq))
         (lab_access s)
       = Raise IntegrityError
    /\ cancel_request rq (Some engineer_id) (Some lab_id) s
       = (s, ServerError IntegrityError).
Proof.
  intros He Hl Hpk (p & Hp & Hpe & Hpl & Hps) (r & Hr & Hre & Hrl & Hrs).
  set (by_time := fun a b : LabAccess.t =>
                    LabAccess.effective_at a <=? LabAccess.effective_at b).
  set (pend := filter (same_state engineer_id lab_id pending) (lab_access s)).
  assert (Hpend : forall x, In x pend
                            <-> In x (lab_access s)
                                /\ LabAccess.engineer_id x = engineer_id
                                /\ LabAccess.lab_id x = lab_id
                                /\ LabAccess.status x = pending).
  { intros x. unfold pend. now rewrite filter_In, same_state_iff. }
  destruct (first_desc by_time pend) as [ row | ] eqn:Hrow.
  2:{ apply first_desc_none in Hrow.
      assert (Hin : In p pend) by (apply Hpend; auto).
      rewrite Hrow in Hin. destruct Hin. }
  pose proof (first_desc_in _ _ _ _ Hrow) as Hin.
  apply Hpend in Hin. destruct Hin as (Hin & Hrow_e & Hrow_l & Hrow_s).
  assert (Hmax : forall x, In x pend -> by_time x row = true).
  { apply (first_desc_greatest _ by_time); [ | | exact Hrow ].
    - intros a b H. unfold by_time in *. apply Z.leb_le.
      apply Z.leb_gt in H. lia.
    - intros a b c H1 H2. unfold by_time in *.
      apply Z.leb_le. apply Z.leb_le in H1, H2. lia. }
  assert (Hupdate :
    update_lab_access (LabAccess.id row)
      (LabAccess.mk (LabAccess.id row) engineer_id lab_id revoked
                    (Some "user_cancelled") (utcnow rq))
      (lab_access s)
    = Raise IntegrityError).
  { unfold update_lab_access.
    assert (Htaken :
      state_taken
        (LabAccess.mk (LabAccess.id row) engineer_id lab_id revoked
                      (Some "user_cancelled") (utcnow rq))
        (filter (fun x => negb (LabAccess.id x =? LabAccess.id row))
                (lab_access s)) = true).
    { unfold state_taken. apply existsb_exists. exists r. split.
      - apply filter_In. split; [ exact Hr | ].
        apply negb_true_iff, Z.eqb_neq. intros Hid.
        rewrite (pk_inj _ _ _ r row Hpk Hr Hin Hid) in Hrs. congruence.
      - simpl. apply same_state_iff. auto. }
    rewrite Htaken. reflexivity. }
  exists row.
  split; [ exact Hin | ].
  do 3 (split; [ assumption | ]).
  split.
  { intros x Hx Hxe Hxl Hxs. apply Z.leb_le.
    apply (Hmax x). apply Hpend. auto. }
  split; [ exact Hupdate | ].
  unfold cancel_request, falsy.
  apply Z.eqb_neq in He, Hl. rewrite He, Hl. simpl.
  fold by_time. fold pend. rewrite Hrow.
  rewrite Hrow_e, Hrow_l, Hupdate. reflexivity.
Qed.

Lemma cancel_request_collides_witness :
  cancel_request sample_request (Some 1) (Some 1) cancel_store
  = (cancel_store, ServerError IntegrityError).
Proof.
  destruct (cancel_request_collides sample_request cancel_store 1 1)
    as (row & _ & _ & _ & _ & _ & _ & H).
  - lia.
  - lia.
  - simpl. constructor; [ simpl; intros [ H | [] ]; discriminate H | ].
    constructor; [ intros [] | constructor ].
  - exists (LabAccess.mk 2 1 1 pending (Some "requested") 1717100000).
    simpl. auto.
  - exists (LabAccess.mk 1 1 1 revoked (Some "user_cancelled") 1717000000).
    simpl. auto.
  - exact H.
Defined.

(* ------------------------------------------------------------------ *)
(** ** Autocheck when each pair has a single row

    The stores on which [autocheck] repeats its changes hold two rows of
    one pair.  When every pair has at most one row, a run that completes
    leaves nothing to do: the next run reports zero changes and leaves the
    store as it is. *)

Lemma acks_loop_frame (s s' : Store) (engineer_id : Z) (docs : list Document.t) :
  document_acks s = document_acks s' ->
  acks_loop s engineer_id docs = acks_loop s' engineer_id docs.
Proof.
  intros H. induction docs as [ | d rest IH ]; simpl; [ reflexivity | ].
  rewrite H, IH. reflexivity.
Qed.

Lemma reqs_loop_frame (s s' : Store) (engineer_id : Z) (lab : Lab.t)
    (asof : Date.t) (reqs : list LabRequirement.t) :
  courses s = courses s' -> completions s = completions s' ->
  reqs_loop s engineer_id lab asof reqs
  = reqs_loop s' engineer_id lab asof reqs.
Proof.
  intros Hc Hk. induction reqs as [ | r rest IH ]; simpl; [ reflexivity | ].
  unfold Course_get, _is_training_current, _latest_completion.
  rewrite Hc, Hk, IH. reflexivity.
Qed.

Lemma is_compliant_frame (rq : Request) (s s' : Store)
    (engineer_id lab_id : Z) (asof : option Date.t) :
  same_reference s s' ->
  is_compliant_for_lab rq s engineer_id lab_id asof
  = is_compliant_for_lab rq s' engineer_id lab_id asof.
Proof.
  intros (Hl & Hc & Hr & Hk & Hd & Ha).
  unfold is_compliant_for_lab, Lab_get, _has_required_acks.
  rewrite Hl, Hr, Hd.
  destruct (find _ (labs s')) as [ lab | ]; [ | reflexivity ].
  rewrite (reqs_loop_frame s s' _ _ _ _ Hc Hk).
  destruct (filter _ (documents s')); [ reflexivity | ].
  rewrite (acks_loop_frame s s' _ _ Ha). reflexivity.
Qed.

Lemma autocheck_loop_settled (rq : Request) (s : Store)
    (pairs : list (Z * Z * Status)) (a r : Z) :
  (forall e l st, In (e, l, st) pairs ->
                  st <> revoked /\ settled_at rq s e l st) ->
  autocheck_loop rq pairs s a r = (s, Ok (a, r)).
Proof.
  induction pairs as [ | [[e l] st] rest IH ]; simpl; intros H.
  - reflexivity.
  - destruct (H e l st (or_introl eq_refl)) as [Hst Hsettled].
    assert (Hrest : autocheck_loop rq rest s a r = (s, Ok (a, r))).
    { apply IH. intros e' l' st' Hin. apply H. now right. }
    destruct st; simpl in Hsettled; try congruence;
      rewrite Hsettled; simpl; exact Hrest.
Qed.

Lemma filter_length_le (A : Type) (f : A -> bool) (l : list A) :
  (List.length (filter f l) <= List.length l)%nat.
Proof.
  induction l as [ | x l IH ]; simpl; [ lia | ].
  destruct (f x); simpl; lia.
Qed.

Lemma one_row_cons (x : LabAccess.t) (tbl : list LabAccess.t) :
  one_row_per_pair (x :: tbl) ->
  one_row_per_pair tbl
  /\ forall y, In y tbl ->
               same_pair (LabAccess.engineer_id x) (LabAccess.lab_id x) y
               = false.
Proof.
  intros H. split.
  - intros e l. specialize (H e l). simpl in H.
    destruct (same_pair e l x); simpl in H; lia.
  - intros y Hy.
    destruct (same_pair _ _ y) eqn:E; [ | reflexivity ].
    specialize (H (LabAccess.engineer_id x) (LabAccess.lab_id x)).
    simpl in H. unfold same_pair at 1 in H. rewrite !Z.eqb_refl in H.
    simpl in H.
    assert (Hin : In y (filter (same_pair (LabAccess.engineer_id x)
                                          (LabAccess.lab_id x)) tbl))
      by (apply filter_In; auto).
    destruct (filter _ tbl); [ destruct Hin | simpl in H; lia ].
Qed.

Lemma one_row_only (tbl : list LabAccess.t) (e l : Z) (x y : LabAccess.t) :
  one_row_per_pair tbl ->
  In x tbl -> same_pair e l x = true ->
  In y tbl -> same_pair e l y = true -> x = y.
Proof.
  intros H Hx Hxp Hy Hyp. specialize (H e l).
  assert (Hx' : In x (filter (same_pair e l) tbl)) by (apply filter_In; auto).
  assert (Hy' : In y (filter (same_pair e l) tbl)) by (apply filter_In; auto).
  destruct (filter (same_pair e l) tbl) as [ | a [ | b rest ] ].
  - destruct Hx'.
  - destruct Hx' as [ <- | [] ], Hy' as [ <- | [] ]. reflexivity.
  - simpl in H. lia.
Qed.

Lemma one_row_nodup (f : LabAccess.t -> bool) (tbl : list LabAccess.t) :
  one_row_per_pair tbl -> NoDup (map row_pair (filter f tbl)).
Proof.
  induction tbl as [ | x tbl IH ]; simpl; intros H; [ constructor | ].
  apply one_row_cons in H. destruct H as [Htl Hx].
  destruct (f x); [ | now apply IH ].
  simpl. constructor; [ | now apply IH ].
  intros Hin. apply in_map_iff in Hin. destruct Hin as (y & Hy & Hin).
  apply filter_In in Hin. destruct Hin as [Hin _].
  specialize (Hx y Hin).
  unfold row_pair in Hy. injection Hy as He Hl.
  unfold same_pair in Hx. rewrite He, Hl, !Z.eqb_refl in Hx. discriminate.
Qed.

Lemma filter_filter_length (A : Type) (f g : A -> bool) (l : list A) :
  (List.length (filter f (filter g l)) <= List.length (filter f l))%nat.
Proof.
  induction l as [ | x l IH ]; simpl; [ lia | ].
  destruct (g x), (f x) eqn:E; simpl; rewrite ?E; simpl; lia.
Qed.

(** Under one row per pair, replacing the status of a pair's row. *)
Lemma ensure_replaces (rq : Request) (s : Store) (e l : Z)
    (st_old st_new : Status) (row : LabAccess.t) :
  fits_integer e && fits_integer l = true ->
  one_row_per_pair (lab_access s) ->
  In row (lab_access s) ->
  same_state e l st_old row = true ->
  st_old <> st_new ->
  exists new tbl,
    _ensure_access_state rq s e l st_new = Ok (new, set_lab_access s tbl)
    /\ LabAccess.engineer_id new = e /\ LabAccess.lab_id new = l
    /\ LabAccess.status new = st_new
    /\ one_row_per_pair tbl
    /\ (forall y, In y tbl ->
                  y = new \/ (In y (lab_access s) /\ same_pair e l y = false))
    /\ (forall y, In y (lab_access s) -> same_pair e l y = false -> In y tbl).
Proof.
  intros Hfits Hone Hrow Hstate Hneq.
  apply same_state_iff in Hstate. destruct Hstate as (Hre & Hrl & Hrs).
  assert (Hrp : same_pair e l row = true) by (apply same_pair_iff; auto).
  assert (Hnone : filter (same_state e l st_new) (lab_access s) = []).
  { apply filter_nil_iff. intros x Hx.
    destruct (same_state e l st_new x) eqn:E; [ | reflexivity ].
    apply same_state_iff in E. destruct E as (Hxe & Hxl & Hxs).
    assert (Hxp : same_pair e l x = true) by (apply same_pair_iff; auto).
    rewrite (one_row_only _ e l x row Hone Hx Hxp Hrow Hrp) in Hxs.
    congruence. }
  destruct (ensure_access_state_cases rq s e l st_new Hfits) as [_ H].
  specialize (H Hnone). cbv zeta in H. destruct H as [Heq Hnew].
  set (kept := filter (fun r => negb (same_pair e l r)) (lab_access s)) in *.
  set (new := LabAccess.mk (next_id (map LabAccess.id kept)) e l st_new None
                           (utcnow rq)) in *.
  exists new, (kept ++ [new]).
  split; [ exact Heq | ].
  do 3 (split; [ reflexivity | ]).
  split; [ | split ].
  - intros e' l'. rewrite filter_app_one_length.
    destruct (same_pair e' l' new) eqn:E.
    + apply same_pair_iff in E. simpl in E. destruct E as [<- <-].
      assert (Hk : filter (same_pair e l) kept = []).
      { apply filter_nil_iff. intros x Hx. apply filter_In in Hx.
        destruct Hx as [_ Hx]. now apply negb_true_iff in Hx. }
      rewrite Hk. simpl. lia.
    + pose proof (filter_filter_length _ (same_pair e' l')
                    (fun r => negb (same_pair e l r)) (lab_access s)).
      specialize (Hone e' l'). fold kept in H. lia.
  - intros y Hy. apply in_app_or in Hy. destruct Hy as [Hy | [ <- | [] ]].
    + right. apply filter_In in Hy. destruct Hy as [Hy Hp].
      now apply negb_true_iff in Hp.
    + now left.
  - intros y Hy Hp. apply in_or_app. left. apply filter_In.
    split; [ exact Hy | now apply negb_true_iff ].
Qed.

Lemma same_reference_refl (s : Store) : same_reference s s.
Proof. repeat split. Qed.

Lemma same_reference_step (rq : Request) (s0 s : Store)
    (tbl : list LabAccess.t) (action entity : string) (eid : EntityId)
    (meta : list (string * MetaValue)) :
  same_reference s0 s ->
  same_reference s0 (audit rq (set_lab_access s tbl) action entity eid meta).
Proof. intros H. exact H. Qed.

Lemma autocheck_loop_settles (rq : Request) (s0 : Store)
    (pairs : list (Z * Z * Status)) :
  forall (s : Store) (a r : Z) (s' : Store) (a' r' : Z),
    same_reference s0 s ->
    one_row_per_pair (lab_access s) ->
    NoDup (map pair_of pairs) ->
    (forall e l st, In (e, l, st) pairs ->
                    exists row, In row (lab_access s)
                                /\ same_state e l st row = true) ->
    (forall row, In row (lab_access s) ->
                 ~ In (row_pair row) (map pair_of pairs) ->
                 settled rq s0 row) ->
    autocheck_loop rq pairs s a r = (s', Ok (a', r')) ->
    same_reference s0 s'
    /\ forall row, In row (lab_access s') -> settled rq s0 row.
Proof.
  induction pairs as [ | [[e l] st] rest IH ];
    intros s a r s' a' r' Href Hone Hnd Hrows Hsettled Hrun.
  - simpl in Hrun. injection Hrun as <- <- <-.
    split; [ exact Href | ].
    intros row Hrow. apply Hsettled; auto.
  - simpl in Hrun.
    rewrite <- (is_compliant_frame rq s0 s e l _ Href) in Hrun.
    simpl in Hnd. apply NoDup_cons_iff in Hnd. destruct Hnd as [Hfresh Hnd].
    destruct (Hrows e l st (or_introl eq_refl)) as (row & Hrow & Hstate).
    pose proof Hstate as Hfields. apply same_state_iff in Hfields.
    destruct Hfields as (Hre & Hrl & Hrs).
    assert (Hrp : same_pair e l row = true) by (apply same_pair_iff; auto).
    assert (Hother : forall e' l' st',
              In (e', l', st') rest -> (e', l') <> (e, l)).
    { intros e' l' st' Hin Heq. apply Hfresh.
      change (In (pair_of (e, l, st)) (map pair_of rest)).
      replace (pair_of (e, l, st)) with (pair_of (e', l', st'))
        by (unfold pair_of; simpl; exact Heq).
      exact (in_map pair_of _ _ Hin). }
    destruct (is_compliant_for_lab rq s0 e l (Some (today rq)))
      as [ compliant | ex ] eqn:Hc; [ | discriminate ].
    (* what the rest of the loop needs, after a replacement of the row *)
    assert (Hreplace : forall st_new s1 tbl new acts ent eid meta a1 r1,
      st <> st_new ->
      settled_at rq s0 e l st_new ->
      LabAccess.engineer_id new = e -> LabAccess.lab_id new = l ->
      LabAccess.status new = st_new ->
      one_row_per_pair tbl ->
      (forall y, In y tbl ->
                 y = new \/ (In y (lab_access s) /\ same_pair e l y = false)) ->
      (forall y, In y (lab_access s) -> same_pair e l y = false -> In y tbl) ->
      s1 = audit rq (set_lab_access s tbl) acts ent eid meta ->
      autocheck_loop rq rest s1 a1 r1 = (s', Ok (a', r')) ->
      same_reference s0 s'
      /\ forall row, In row (lab_access s') -> settled rq s0 row).
    { intros st_new s1 tbl new acts ent eid meta a1 r1
             Hneq Hnew_settled Hne Hnl Hns Hone' Hsub Hsup -> Hrun'.
      apply (IH (audit rq (set_lab_access s tbl) acts ent eid meta)
                a1 r1 s' a' r'); auto.
      - intros e' l' st' Hin.
        destruct (Hrows e' l' st' (or_intror Hin)) as (y & Hy & Hys).
        exists y. split; [ | exact Hys ]. simpl. apply Hsup; [ exact Hy | ].
        destruct (same_pair e l y) eqn:E; [ | reflexivity ].
        apply same_state_iff in Hys. destruct Hys as (Hye & Hyl & _).
        apply same_pair_iff in E. destruct E as [E1 E2].
        destruct (Hother e' l' st' Hin). congruence.
      - intros y Hy Hnot. simpl in Hy.
        destruct (Hsub y Hy) as [ -> | [Hy' Hyp] ].
        + unfold settled. rewrite Hne, Hnl, Hns. exact Hnew_settled.
        + apply Hsettled; [ exact Hy' | ].
          simpl. intros [ Heq | Hin ]; [ | now apply Hnot ].
          unfold pair_of, row_pair in Heq. simpl in Heq.
          injection Heq as He Hl.
          unfold same_pair in Hyp. rewrite <- He, <- Hl, !Z.eqb_refl in Hyp.
          discriminate. }
    (* what it needs when the row is left as it is *)
    assert (Hkeep :
      settled_at rq s0 e l st ->
      autocheck_loop rq rest s a r = (s', Ok (a', r')) ->
      same_reference s0 s'
      /\ forall row, In row (lab_access s') -> settled rq s0 row).
    { intros Hst Hrun'.
      apply (IH s a r s' a' r'); auto.
      - intros e' l' st' Hin. apply Hrows. now right.
      - intros y Hy Hnot.
        destruct (same_pair e l y) eqn:E.
        + rewrite (one_row_only _ e l y row Hone Hy E Hrow Hrp).
          unfold settled. rewrite Hre, Hrl, Hrs. exact Hst.
        + apply Hsettled; [ exact Hy | ].
          simpl. intros [ Heq | Hin ]; [ | now apply Hnot ].
          unfold pair_of, row_pair in Heq. simpl in Heq.
          injection Heq as He Hl.
          unfold same_pair in E. rewrite <- He, <- Hl, !Z.eqb_refl in E.
          discriminate. }
    destruct st, compliant; simpl in Hrun.
    + (* pending, compliant: activate *)
      assert (Hneq : pending <> active) by discriminate.
      destruct (fits_integer e && fits_integer l) eqn:Hfits;
        [ | rewrite (ensure_access_state_overflow rq s e l active Hfits)
              in Hrun; discriminate ].
      destruct (ensure_replaces rq s e l pending active row Hfits Hone Hrow
                  Hstate Hneq)
        as (new & tbl & Heq & Hne & Hnl & Hns & Hone' & Hsub & Hsup).
      rewrite Heq in Hrun.
      eapply (Hreplace active); eauto.
    + apply Hkeep; [ exact Hc | exact Hrun ].
    + apply Hkeep; [ exact Hc | exact Hrun ].
    + (* active, not compliant: revoke *)
      assert (Hneq : active <> revoked) by discriminate.
      destruct (fits_integer e && fits_integer l) eqn:Hfits;
        [ | rewrite (ensure_access_state_overflow rq s e l revoked Hfits)
              in Hrun; discriminate ].
      destruct (ensure_replaces rq s e l active revoked row Hfits Hone Hrow
                  Hstate Hneq)
        as (new & tbl & Heq & Hne & Hnl & Hns & Hone' & Hsub & Hsup).
      rewrite Heq in Hrun.
      eapply (Hreplace revoked); eauto; exact I.
    + apply Hkeep; [ exact I | exact Hrun ].
    + apply Hkeep; [ exact I | exact Hrun ].
Qed.

Lemma open_pairs_in (tbl : list LabAccess.t) (e l : Z) (st : Status) :
  In (e, l, st) (open_pairs tbl)
  <-> st <> revoked
      /\ exists row, In row tbl /\ same_state e l st row = true.
Proof.
  unfold open_pairs. rewrite in_map_iff. split.
  - intros (row & Heq & Hin). injection Heq as <- <- <-.
    apply filter_In in Hin. destruct Hin as [Hin Hst]. split.
    + intros Hr. rewrite Hr in Hst. discriminate.
    + exists row. split; [ exact Hin | ]. apply same_state_iff. auto.
  - intros (Hst & row & Hin & Hrow).
    apply same_state_iff in Hrow. destruct Hrow as (<- & <- & <-).
    exists row. split; [ reflexivity | ].
    apply filter_In. split; [ exact Hin | ].
    destruct (LabAccess.status row); try reflexivity. congruence.
Qed.

Lemma open_pairs_keys (tbl : list LabAccess.t) :
  map pair_of (open_pairs tbl)
  = map row_pair
        (filter (fun r => status_eqb (LabAccess.status r) pending
                          || status_eqb (LabAccess.status r) active)
                tbl).
Proof. unfold open_pairs. rewrite map_map. reflexivity. Qed.

(** X16.  On a table with at most one row per pair, [autocheck] is
    idempotent: after a run that completes, every pending row belongs to a
    pair that is not compliant and every active row to a pair that is, and
    a second run on the same day changes nothing and reports zero
    activations and zero revocations. *)
Theorem autocheck_idempotent_single_rows (rq : Request) (s s1 : Store)
    (a r : Z) :
  one_row_per_pair (lab_access s) ->
  autocheck rq s = (s1, Flashed (AutocheckDone a r) success) ->
  (forall row, In row (lab_access s1) -> settled rq s1 row)
  /\ autocheck rq s1 = (s1, Flashed (AutocheckDone 0 0) success).
Proof.
  intros Hone Hrun. unfold autocheck in Hrun. fold (open_pairs (lab_access s)) in Hrun.
  destruct (autocheck_loop rq (open_pairs (lab_access s)) s 0 0)
    as [s' [ [a0 r0] | ex ]] eqn:Hloop; [ | discriminate ].
  injection Hrun as -> <- <-.
  destruct (autocheck_loop_settles rq s (open_pairs (lab_access s))
              s 0 0 s1 a0 r0) as [Href Hsettled]; auto.
  - apply same_reference_refl.
  - rewrite open_pairs_keys. now apply one_row_nodup.
  - intros e l st Hin. now apply open_pairs_in in Hin.
  - intros row Hrow Hnot. unfold settled.
    destruct (LabAccess.status row) eqn:Hst; try exact I; destruct Hnot;
      rewrite open_pairs_keys; apply in_map; apply filter_In;
      (split; [ exact Hrow | rewrite Hst; reflexivity ]).
  - assert (Hsettled1 : forall row, In row (lab_access s1) ->
                                    settled rq s1 row).
    { intros row Hrow. specialize (Hsettled row Hrow).
      unfold settled, settled_at in *.
      destruct (LabAccess.status row); auto;
        rewrite <- (is_compliant_frame rq s s1 _ _ _ Href); exact Hsettled. }
    split; [ exact Hsettled1 | ].
    unfold autocheck. fold (open_pairs (lab_access s1)).
    rewrite autocheck_loop_settled; [ reflexivity | ].
    intros e l st Hin. apply open_pairs_in in Hin.
    destruct Hin as (Hst & row & Hrow & Hstate). split; [ exact Hst | ].
    apply same_state_iff in Hstate. destruct Hstate as (<- & <- & <-).
    exact (Hsettled1 row Hrow).
Qed.

(* ------------------------------------------------------------------ *)
(** ** More on calendar arithmetic *)

(** The year and month [_add_months] lands on, read off its result. *)
Lemma add_months_ok_fields (d r : Date.t) (months : Z) :
  _add_months d months = Ok r ->
  Date.year r = Date.year d + (Date.month d - 1 + months) / 12
  /\ Date.month r = (Date.month d - 1 + months) mod 12 + 1
  /\ Date.day r
     = Z.min (Date.day d) (Date.days_in_month (Date.year r) (Date.month r)).
Proof.
  rewrite add_months_unfold. cbv zeta. intros H.
  apply date_returns in H. destruct H as [-> _]. simpl. auto.
Qed.

(** X1.  A longer window never gives an earlier due date: for [m1 <= m2],
    when both [_add_months d m1] and [_add_months d m2] return a date, the
    first is not after the second. *)
Theorem add_months_monotone_months (d r1 r2 : Date.t) (m1 m2 : Z) :
  m1 <= m2 ->
  _add_months d m1 = Ok r1 ->
  _add_months d m2 = Ok r2 ->
  Date.leb r1 r2 = true.
Proof.
  intros Hle H1 H2.
  apply add_months_ok_fields in H1, H2.
  destruct H1 as (Hy1 & Hm1 & Hd1), H2 as (Hy2 & Hm2 & Hd2).
  apply date_leb_iff.
  pose proof (Z.mod_pos_bound (Date.month d - 1 + m1) 12 ltac:(lia)).
  pose proof (Z.mod_pos_bound (Date.month d - 1 + m2) 12 ltac:(lia)).
  pose proof (Z.div_mod (Date.month d - 1 + m1) 12 ltac:(lia)).
  pose proof (Z.div_mod (Date.month d - 1 + m2) 12 ltac:(lia)).
  assert (Hcase : Date.year r1 < Date.year r2
                  \/ (Date.year r1 = Date.year r2
                      /\ Date.month r1 < Date.month r2)
                  \/ (Date.year r1 = Date.year r2
                      /\ Date.month r1 = Date.month r2)) by lia.
  destruct Hcase as [Hc | [Hc | [Hc1 Hc2]]]; [ lia | lia | ].
  right. split; [ exact Hc1 | right ]. split; [ exact Hc2 | ].
  rewrite Hd1, Hd2, Hc1, Hc2. lia.
Qed.

Lemma add_months_monotone_months_witness :
  Date.leb (Date.mk 2024 2 29) (Date.mk 2025 1 31) = true.
Proof.
  apply (add_months_monotone_months (Date.mk 2024 1 31) _ _ 1 12).
  - lia.
  - reflexivity.
  - reflexivity.
Defined.

(** The result of [_add_months] is a date of the calendar. *)
Lemma add_months_valid (d r : Date.t) (months : Z) :
  _add_months d months = Ok r -> Date.valid r = true.
Proof.
  rewrite add_months_unfold. cbv zeta. intros H.
  now apply date_returns in H.
Qed.

Lemma add_months_date_mono (a b ra rb : Date.t) (months : Z) :
  Date.valid a = true ->
  Date.valid b = true ->
  Date.leb a b = true ->
  _add_months a months = Ok ra ->
  _add_months b months = Ok rb ->
  Date.leb ra rb = true.
Proof.
  intros Hva Hvb Hle Ha Hb.
  apply valid_iff in Hva, Hvb.
  destruct Hva as (_ & Hma' & _), Hvb as (_ & Hmb' & _).
  apply add_months_ok_fields in Ha, Hb.
  destruct Ha as (Hya & Hma & Hda), Hb as (Hyb & Hmb & Hdb).
  apply date_leb_iff in Hle. apply date_leb_iff.
  pose proof (Z.mod_pos_bound (Date.month a - 1 + months) 12 ltac:(lia)).
  pose proof (Z.mod_pos_bound (Date.month b - 1 + months) 12 ltac:(lia)).
  pose proof (Z.div_mod (Date.month a - 1 + months) 12 ltac:(lia)).
  pose proof (Z.div_mod (Date.month b - 1 + months) 12 ltac:(lia)).
  assert (Hcase : Date.year ra < Date.year rb
                  \/ (Date.year ra = Date.year rb
                      /\ Date.month ra < Date.month rb)
                  \/ (Date.year ra = Date.year rb
                      /\ Date.month ra = Date.month rb
                      /\ Date.day a <= Date.day b)) by lia.
  destruct Hcase as [Hc | [Hc | (Hc1 & Hc2 & Hc3)]]; [ lia | lia | ].
  right. split; [ exact Hc1 | right ]. split; [ exact Hc2 | ].
  rewrite Hda, Hdb, Hc1, Hc2. lia.
Qed.


(** X2.  A later completion never gives an earlier due date: for dates
    [a <= b] and the same month count, when both calls return a date, the
    result for [a] is not after the result for [b]. *)
Theorem add_months_monotone_date (a b ra rb : Date.t) (months : Z) :
  Date.valid a = true ->
  Date.valid b = true ->
  Date.leb a b = true ->
  _add_months a months = Ok ra ->
  _add_months b months = Ok rb ->
  Date.leb ra rb = true.
Proof. apply add_months_date_mono. Qed.

Lemma add_months_monotone_date_witness :
  Date.leb (Date.mk 2024 2 29) (Date.mk 2024 3 1) = true.
Proof.
  apply (add_months_monotone_date (Date.mk 2024 1 31) (Date.mk 2024 2 1)
           _ _ 1); reflexivity.
Defined.

(** X3.  Adding zero months returns the date itself, and adding [12 * k]
    months moves the year by [k] and keeps the month; the day is kept too,
    except that 29 February becomes 28 February in a year that is not a
    leap year. *)
Theorem add_months_whole_years (d : Date.t) (k : Z) :
  Date.valid d = true ->
  Date.MINYEAR <= Date.year d + k <= Date.MAXYEAR ->
  _add_months d 0 = Ok d
  /\ _add_months d (12 * k)
     = Ok (Date.mk (Date.year d + k) (Date.month d)
                   (if (Date.month d =? 2) && (Date.day d =? 29)
                       && negb (Date.is_leap (Date.year d + k))
                    then 28 else Date.day d)).
Proof.
  intros Hv Hrange.
  apply valid_iff in Hv. destruct Hv as (Hy & Hm & Hd).
  destruct d as [y m dd]. cbn [Date.year Date.month Date.day] in *.
  assert (Hdiv : forall j, (m - 1 + 12 * j) / 12 = j
                           /\ (m - 1 + 12 * j) mod 12 + 1 = m).
  { intros j.
    pose proof (Z.mod_pos_bound (m - 1 + 12 * j) 12 ltac:(lia)).
    pose proof (Z.div_mod (m - 1 + 12 * j) 12 ltac:(lia)).
    lia. }
  split.
  - rewrite add_months_unfold. cbn [Date.year Date.month Date.day].
    destruct (Hdiv 0) as [Hq Hr]. rewrite Z.mul_0_r in Hq, Hr.
    rewrite Hq, Hr, Z.add_0_r, Z.min_l by lia.
    apply date_ok. apply valid_iff. simpl. lia.
  - rewrite add_months_unfold. cbn [Date.year Date.month Date.day].
    destruct (Hdiv k) as [Hq Hr]. rewrite Hq, Hr.
    pose proof (month_tables y) as T.
    pose proof (month_tables (y + k)) as T'.
    cbv zeta in T, T'.
    assert (Hday :
      Z.min dd (Date.days_in_month (y + k) m)
      = if (m =? 2) && (dd =? 29) && negb (Date.is_leap (y + k))
        then 28 else dd).
    { destruct (Z.eqb_spec dd 29) as [E29 | E29];
        destruct (Date.is_leap y), (Date.is_leap (y + k));
        decompose [and] T; decompose [and] T'; clear T T';
        month_split m Hm; cbn [Z.eqb Pos.eqb andb negb]; lia. }
    rewrite Hday. apply date_ok. apply valid_iff. simpl.
    rewrite <- Hday.
    pose proof (days_in_month_ge_28 (y + k) m).
    lia.
Qed.

Lemma add_months_whole_years_witness :
  _add_months (Date.mk 2024 2 29) 0 = Ok (Date.mk 2024 2 29)
  /\ _add_months (Date.mk 2024 2 29) (12 * 1) = Ok (Date.mk 2025 2 28).
Proof.
  apply (add_months_whole_years (Date.mk 2024 2 29) 1).
  - reflexivity.
  - vm_compute. split; discriminate.
Defined.

(* ------------------------------------------------------------------ *)
(** ** Compliance over time *)

(** X4.  Training that is current on a day is current on every earlier day
    and under every longer grace period: for dates [asof' <= asof] and
    [grace_days <= grace_days'], a verdict [True] at [asof] with
    [grace_days] gives the verdict [True] at [asof'] with [grace_days']. *)
Theorem is_training_current_monotone (s : Store) (engineer_id : Z)
    (course : Course.t) (override_months : option Z)
    (grace_days grace_days' : Z) (asof asof' : Date.t) :
  Date.valid asof = true ->
  Date.valid asof' = true ->
  Date.leb asof' asof = true ->
  grace_days <= grace_days' ->
  _is_training_current s engineer_id course override_months grace_days asof
  = Ok true ->
  _is_training_current s engineer_id course override_months grace_days' asof'
  = Ok true.
Proof.
  intros Hv Hv' Hle Hg.
  apply (toordinal_le_iff asof' asof Hv' Hv) in Hle.
  unfold _is_training_current.
  destruct (match override_months with
            | Some m => Some m
            | None => Course.valid_months course
            end) as [ months | ]; [ | discriminate ].
  destruct ((months =? 0) || (months <=? 0)); [ discriminate | ].
  destruct (_latest_completion s engineer_id (Course.id course))
    as [ comp | ]; [ | discriminate ].
  destruct (_add_months (Completion.date_taken comp) months) as [ due | e ];
    cbn [bind]; [ | discriminate ].
  intros [= H]. f_equal.
  apply Z.leb_le in H. apply Z.leb_le. lia.
Qed.

Lemma is_training_current_monotone_witness :
  _is_training_current sample_store 1 sample_course None 30 (Date.mk 2024 6 1)
  = Ok true.
Proof.
  apply (is_training_current_monotone sample_store 1 sample_course None
           7 30 (Date.mk 2024 6 8) (Date.mk 2024 6 1));
    solve [ reflexivity | lia ].
Defined.

Lemma requirement_current_earlier (s : Store) (engineer_id : Z) (lab : Lab.t)
    (asof asof' : Date.t) (r : LabRequirement.t) :
  Date.valid asof = true ->
  Date.valid asof' = true ->
  Date.leb asof' asof = true ->
  requirement_current s engineer_id lab asof r ->
  requirement_current s engineer_id lab asof' r.
Proof.
  intros Hv Hv' Hle (course & Hc & Hcur).
  exists course. split; [ exact Hc | ].
  unfold _is_training_current in *.
  apply (toordinal_le_iff asof' asof Hv' Hv) in Hle.
  destruct (match LabRequirement.valid_months r with
            | Some m => Some m
            | None => Course.valid_months course
            end) as [ months | ]; [ | discriminate ].
  destruct ((months =? 0) || (months <=? 0)); [ discriminate | ].
  destruct (_latest_completion s engineer_id (Course.id course))
    as [ comp | ]; [ | discriminate ].
  destruct (_add_months (Completion.date_taken comp) months) as [ due | e ];
    cbn [bind] in *; [ | discriminate ].
  injection Hcur as H. f_equal.
  apply Z.leb_le in H. apply Z.leb_le. lia.
Qed.

(** X5.  Compliance can lapse with time but never appears with it: an
    engineer who is compliant for a lab on a day is compliant for it on
    every earlier day, the store being the same. *)
Theorem is_compliant_for_lab_earlier (rq : Request) (s : Store)
    (engineer_id lab_id : Z) (asof asof' : Date.t) :
  Date.valid asof = true ->
  Date.valid asof' = true ->
  Date.leb asof' asof = true ->
  is_compliant_for_lab rq s engineer_id lab_id (Some asof) = Ok true ->
  is_compliant_for_lab rq s engineer_id lab_id (Some asof') = Ok true.
Proof.
  intros Hv Hv' Hle.
  unfold is_compliant_for_lab.
  destruct (Lab_get s lab_id) as [ lab | ]; [ | discriminate ].
  destruct (reqs_loop s engineer_id lab asof _) as [ [ | ] | e ] eqn:Hloop;
    cbn [bind negb]; try discriminate.
  pose proof (proj1 (reqs_loop_true_iff _ _ _ _ _) Hloop) as Hall.
  assert (Hloop' :
    reqs_loop s engineer_id lab asof'
      (filter (fun r => LabRequirement.lab_id r =? lab_id)
              (lab_requirements s)) = Ok true).
  { apply reqs_loop_true_iff. intros r Hr.
    apply (requirement_current_earlier s engineer_id lab asof asof' r Hv Hv' Hle).
    now apply Hall. }
  rewrite Hloop'. cbn [bind negb]. auto.
Qed.

Lemma is_compliant_for_lab_earlier_witness :
  is_compliant_for_lab sample_request sample_store 1 1
    (Some (Date.mk 2024 1 1)) = Ok true.
Proof.
  apply (is_compliant_for_lab_earlier sample_request sample_store 1 1
           (Date.mk 2024 6 8) (Date.mk 2024 1 1)); reflexivity.
Defined.

(** X6.  [_latest_completion] returns [None] exactly when the engineer has
    no completion of the course; otherwise it returns one of the engineer's
    completions of the course, and no other is dated later. *)
Theorem latest_completion_spec (s : Store) (engineer_id course_id : Z) :
  (_latest_completion s engineer_id course_id = None
   <-> forall c, In c (completions s) ->
                 ~ (Completion.engineer_id c = engineer_id
                    /\ Completion.course_id c = course_id))
  /\ (forall comp,
        _latest_completion s engineer_id course_id = Some comp ->
        latest_completion s engineer_id course_id comp).
Proof.
  split.
  - split.
    + apply latest_completion_none.
    + intros Hnone.
      destruct (_latest_completion s engineer_id course_id) as [ comp | ] eqn:E;
        [ | reflexivity ].
      apply latest_completion_some in E.
      destruct E as (Hin & He & Hc & _).
      destruct (Hnone comp Hin). auto.
  - apply latest_completion_some.
Qed.

(* ------------------------------------------------------------------ *)
(** ** The reconciler on any table *)

Lemma next_id_fresh (ids : list Z) (x : Z) : In x ids -> x < next_id ids.
Proof.
  unfold next_id. induction ids as [ | y ids IH ]; [ intros [] | ].
  cbn [fold_right In]. intros [ -> | H ]; [ lia | ]. specialize (IH H). lia.
Qed.

Lemma next_id_not_in (ids : list Z) : ~ In (next_id ids) ids.
Proof. intros H. apply next_id_fresh in H. lia. Qed.

Lemma set_lab_access_same (s : Store) : set_lab_access s (lab_access s) = s.
Proof. now destruct s. Qed.

Lemma NoDup_map_filter (A : Type) (id : A -> Z) (f : A -> bool) (l : list A) :
  NoDup (map id l) -> NoDup (map id (filter f l)).
Proof.
  induction l as [ | x l IH ]; simpl; [ auto | ].
  intros H. apply NoDup_cons_iff in H. destruct H as [Hx Hl].
  destruct (f x); simpl; [ | auto ].
  apply NoDup_cons; [ | auto ].
  intros Hin. apply Hx. apply in_map_iff in Hin.
  destruct Hin as (y & Hy & Hin). apply filter_In in Hin.
  apply in_map_iff. exists y. tauto.
Qed.

Lemma NoDup_map_app_one (A : Type) (id : A -> Z) (l : list A) (x : A) :
  NoDup (map id l) -> ~ In (id x) (map id l) -> NoDup (map id (l ++ [x])).
Proof.
  intros Hl Hx. rewrite map_app. simpl.
  apply NoDup_app.
  - exact Hl.
  - apply NoDup_cons; [ intros [] | apply NoDup_nil ].
  - intros a Ha [ <- | [] ]. auto.
Qed.

Lemma unique_state_filter (f : LabAccess.t -> bool) (tbl : list LabAccess.t) :
  unique_state tbl -> unique_state (filter f tbl).
Proof.
  intros H e l st.
  eapply Nat.le_trans; [ apply filter_filter_length | apply H ].
Qed.

Lemma filter_other_pair (e l e' l' : Z) (tbl : list LabAccess.t) :
  (e', l') <> (e, l) ->
  filter (same_pair e' l')
         (filter (fun r => negb (same_pair e l r)) tbl)
  = filter (same_pair e' l') tbl.
Proof.
  intros Hne. induction tbl as [ | x tbl IH ]; simpl; [ reflexivity | ].
  destruct (same_pair e l x) eqn:E; simpl.
  - destruct (same_pair e' l' x) eqn:E'; [ | exact IH ].
    apply same_pair_iff in E, E'. destruct E, E'. destruct Hne. congruence.
  - rewrite IH. reflexivity.
Qed.

Lemma filter_kept_state (e l : Z) (st : Status) (tbl : list LabAccess.t) :
  filter (same_state e l st)
         (filter (fun r => negb (same_pair e l r)) tbl) = [].
Proof.
  apply filter_nil_iff. intros x Hx. apply filter_In in Hx.
  destruct Hx as [_ Hx]. unfold same_state.
  destruct (same_pair e l x); [ discriminate | reflexivity ].
Qed.

(** What a call of [_ensure_access_state] on ids that are [INTEGER]s does
    to a table, whichever branch it takes. *)
Lemma ensure_access_state_effect (rq : Request) (s : Store)
    (e l : Z) (st : Status) :
  fits_integer e && fits_integer l = true ->
  exists row tbl,
    _ensure_access_state rq s e l st = Ok (row, set_lab_access s tbl)
    /\ first (filter (same_state e l st) tbl) = Some row
    /\ (forall e' l', (e', l') <> (e, l) ->
          filter (same_pair e' l') tbl
          = filter (same_pair e' l') (lab_access s))
    /\ (NoDup (map LabAccess.id (lab_access s)) ->
        NoDup (map LabAccess.id tbl))
    /\ (unique_state (lab_access s) -> unique_state tbl)
    /\ (tbl = lab_access s
        \/ (filter (same_state e l st) (lab_access s) = []
            /\ row = LabAccess.mk
                       (next_id (map LabAccess.id
                                   (filter (fun r => negb (same_pair e l r))
                                           (lab_access s))))
                       e l st None (utcnow rq)
            /\ tbl = filter (fun r => negb (same_pair e l r)) (lab_access s)
                     ++ [row])).
Proof.
  intros Hfits.
  destruct (ensure_access_state_cases rq s e l st Hfits) as [Hsome Hnone].
  destruct (filter (same_state e l st) (lab_access s)) as [ | x rest ] eqn:E.
  - specialize (Hnone eq_refl). cbv zeta in Hnone.
    destruct Hnone as [Hcall Hpair].
    set (kept := filter (fun r => negb (same_pair e l r)) (lab_access s)) in *.
    set (row := LabAccess.mk (next_id (map LabAccess.id kept)) e l st None
                             (utcnow rq)) in *.
    assert (Hrow : same_state e l st row = true).
    { apply same_state_iff. simpl. auto. }
    exists row, (kept ++ [row]).
    split; [ exact Hcall | ].
    split.
    { rewrite filter_app. unfold kept. rewrite filter_kept_state.
      simpl. rewrite Hrow. reflexivity. }
    split.
    { intros e' l' Hne. rewrite filter_app. simpl.
      assert (Hr : same_pair e' l' row = false).
      { destruct (same_pair e' l' row) eqn:Hp; [ | reflexivity ].
        apply same_pair_iff in Hp. simpl in Hp. destruct Hp, Hne. congruence. }
      rewrite Hr, app_nil_r. unfold kept. now apply filter_other_pair. }
    split.
    { intros Hnd. apply NoDup_map_app_one.
      - unfold kept. now apply NoDup_map_filter.
      - simpl. apply next_id_not_in. }
    split.
    { intros Hu.
      assert (Hins : insert_lab_access row kept = Ok (kept ++ [row])).
      { unfold insert_lab_access, state_taken. simpl.
        assert (Hex : existsb (same_state e l st) kept = false).
        { apply existsb_false_filter. apply filter_kept_state. }
        rewrite Hex. reflexivity. }
      apply (insert_lab_access_unique row kept (kept ++ [row])) in Hins;
        [ tauto | ].
      unfold kept. now apply unique_state_filter. }
    right. auto.
  - specialize (Hsome x eq_refl).
    exists x, (lab_access s).
    rewrite set_lab_access_same, E. simpl.
    split; [ exact Hsome | ]. split; [ reflexivity | ].
    split; [ reflexivity | ]. split; [ auto | ]. split; [ auto | ].
    left. reflexivity.
Qed.

(** Splits on whether the two ids are [INTEGER]s: the first goal keeps the
    call, with [Hfits] for [ensure_access_state_effect]; in the second the
    call is rewritten to the [OverflowError] of its first query. *)
Ltac ensure_fits rq s e l st Hfits :=
  destruct (fits_integer e && fits_integer l) eqn:Hfits;
  [ | rewrite (ensure_access_state_overflow rq s e l st Hfits) ].

(** X7.  On ids that are SQLite [INTEGER]s, of 64 bits,
    [_ensure_access_state] never fails: on every store and for every such
    pair and status it returns a row of that pair and status that is in the
    table afterwards, it leaves the rows of every other pair and every other
    table as they were, and the table still satisfies its primary key and
    its unique (engineer, lab, status) constraint if it did before.  On an
    id outside that range its first query raises [OverflowError] and
    nothing is written. *)
Theorem ensure_access_state_total (rq : Request) (s : Store)
    (engineer_id lab_id : Z) (desired_status : Status) :
  if fits_integer engineer_id && fits_integer lab_id
  then
    exists row s1,
      _ensure_access_state rq s engineer_id lab_id desired_status
      = Ok (row, s1)
      /\ In row (lab_access s1)
      /\ LabAccess.engineer_id row = engineer_id
      /\ LabAccess.lab_id row = lab_id
      /\ LabAccess.status row = desired_status
      /\ (forall e' l', (e', l') <> (engineer_id, lab_id) ->
            filter (same_pair e' l') (lab_access s1)
            = filter (same_pair e' l') (lab_access s))
      /\ s1 = set_lab_access s (lab_access s1)
      /\ (access_table_ok (lab_access s) -> access_table_ok (lab_access s1))
  else
    _ensure_access_state rq s engineer_id lab_id desired_status
    = Raise OverflowError.
Proof.
  destruct (fits_integer engineer_id && fits_integer lab_id) eqn:Hfits;
    [ | now apply ensure_access_state_overflow ].
  destruct (ensure_access_state_effect rq s engineer_id lab_id desired_status
              Hfits)
    as (row & tbl & Hcall & Hfirst & Hframe & Hnd & Hu & _).
  exists row, (set_lab_access s tbl).
  apply first_filter_some in Hfirst. destruct Hfirst as [Hin Hst].
  apply same_state_iff in Hst. destruct Hst as (He & Hl & Hs).
  split; [ exact Hcall | ]. simpl.
  split; [ exact Hin | ]. split; [ exact He | ]. split; [ exact Hl | ].
  split; [ exact Hs | ]. split; [ exact Hframe | ].
  split; [ reflexivity | ].
  intros [Hpk Huniq]. split; auto.
Qed.

(** X8.  [_ensure_access_state] is idempotent: a second call for the same
    pair and status, at any later time, returns the row of the first call
    and leaves the store of the first call unchanged. *)
Theorem ensure_access_state_idempotent (rq rq' : Request) (s s1 : Store)
    (engineer_id lab_id : Z) (desired_status : Status) (row : LabAccess.t) :
  _ensure_access_state rq s engineer_id lab_id desired_status = Ok (row, s1) ->
  _ensure_access_state rq' s1 engineer_id lab_id desired_status
  = Ok (row, s1).
Proof.
  intros Hcall.
  destruct (fits_integer engineer_id && fits_integer lab_id) eqn:Hfits;
    [ | rewrite (ensure_access_state_overflow _ _ _ _ _ Hfits) in Hcall;
        discriminate ].
  destruct (ensure_access_state_effect rq s engineer_id lab_id desired_status
              Hfits)
    as (row0 & tbl & Hcall0 & Hfirst & _).
  rewrite Hcall0 in Hcall. injection Hcall as <- <-.
  destruct (ensure_access_state_cases rq' (set_lab_access s tbl)
              engineer_id lab_id desired_status Hfits) as [Hsome _].
  apply Hsome. exact Hfirst.
Qed.

Lemma ensure_access_state_idempotent_witness :
  _ensure_access_state later_request
    (set_lab_access base_store
       [LabAccess.mk 1 1 1 revoked None 1717200000]) 1 1 revoked
  = Ok (LabAccess.mk 1 1 1 revoked None 1717200000,
        set_lab_access base_store
          [LabAccess.mk 1 1 1 revoked None 1717200000]).
Proof.
  apply (ensure_access_state_idempotent sample_request later_request
           (set_lab_access base_store
              [LabAccess.mk 7 1 1 pending (Some "requested") 1717100000])).
  reflexivity.
Defined.

(* ------------------------------------------------------------------ *)
(** ** Invariants of the access handlers *)

Lemma filter_all (A : Type) (f : A -> bool) (l : list A) :
  (forall x, In x l -> f x = true) -> filter f l = l.
Proof.
  induction l as [ | x l IH ]; simpl; [ reflexivity | ].
  intros H. rewrite (H x (or_introl eq_refl)), IH; auto.
Qed.

Lemma map_fixed (A : Type) (g : A -> A) (l : list A) :
  (forall x, In x l -> g x = x) -> map g l = l.
Proof.
  induction l as [ | x l IH ]; simpl; [ reflexivity | ].
  intros H. rewrite (H x (or_introl eq_refl)), IH; auto.
Qed.

(** An [UPDATE ... WHERE id = pk] on a table with a primary key: the one
    row of that key is replaced where it stands. *)
Lemma update_split (A : Type) (id : A -> Z) (tbl : list A) (row new : A) :
  NoDup (map id tbl) ->
  In row tbl ->
  exists l1 l2,
    tbl = l1 ++ row :: l2
    /\ filter (fun r => negb (id r =? id row)) tbl = l1 ++ l2
    /\ map (fun r => if id r =? id row then new else r) tbl
       = l1 ++ new :: l2.
Proof.
  intros Hnd Hin.
  destruct (in_split row tbl Hin) as (l1 & l2 & ->).
  exists l1, l2. split; [ reflexivity | ].
  rewrite map_app in Hnd. simpl in Hnd.
  apply NoDup_remove_2 in Hnd.
  assert (H1 : forall x, In x l1 -> (id x =? id row) = false).
  { intros x Hx. apply Z.eqb_neq. intros E. apply Hnd.
    apply in_or_app. left. rewrite <- E. now apply in_map. }
  assert (H2 : forall x, In x l2 -> (id x =? id row) = false).
  { intros x Hx. apply Z.eqb_neq. intros E. apply Hnd.
    apply in_or_app. right. rewrite <- E. now apply in_map. }
  split.
  - rewrite filter_app. simpl. rewrite Z.eqb_refl. simpl.
    rewrite !filter_all; [ reflexivity | | ];
      intros x Hx; [ rewrite (H2 x Hx) | rewrite (H1 x Hx) ]; reflexivity.
  - rewrite map_app. simpl. rewrite Z.eqb_refl.
    rewrite !map_fixed; [ reflexivity | | ];
      intros x Hx; [ rewrite (H2 x Hx) | rewrite (H1 x Hx) ]; reflexivity.
Qed.

Lemma update_lab_access_ok (new row : LabAccess.t)
    (tbl tbl' : list LabAccess.t) :
  access_table_ok tbl ->
  In row tbl ->
  LabAccess.id new = LabAccess.id row ->
  update_lab_access (LabAccess.id row) new tbl = Ok tbl' ->
  access_table_ok tbl'.
Proof.
  intros [Hnd Hu] Hin Hid. unfold update_lab_access.
  destruct (update_split _ LabAccess.id tbl row new Hnd Hin)
    as (l1 & l2 & Htbl & Hothers & Hmap).
  rewrite Hothers, Hmap.
  destruct (state_taken new (l1 ++ l2)) eqn:Htaken; [ discriminate | ].
  intros [= <-]. split.
  - rewrite map_app. simpl. rewrite Hid.
    rewrite Htbl, map_app in Hnd. exact Hnd.
  - intros e l st. specialize (Hu e l st).
    rewrite Htbl in Hu. rewrite filter_app, length_app in Hu |- *.
    simpl in Hu |- *.
    destruct (same_state e l st new) eqn:Hnew.
    + apply same_state_iff in Hnew. destruct Hnew as (<- & <- & <-).
      unfold state_taken in Htaken. apply existsb_false_filter in Htaken.
      rewrite filter_app in Htaken. apply app_eq_nil in Htaken.
      destruct Htaken as [-> ->]. simpl. lia.
    + destruct (same_state e l st row); simpl in *; lia.
Qed.

Lemma audit_lab_access (rq : Request) (s : Store) (action entity : string)
    (eid : EntityId) (meta : list (string * MetaValue)) :
  lab_access (audit rq s action entity eid meta) = lab_access s.
Proof. reflexivity. Qed.

Lemma autocheck_loop_ok (rq : Request) (pairs : list (Z * Z * Status)) :
  forall (s : Store) (a r : Z),
    access_table_ok (lab_access s) ->
    access_table_ok (lab_access (fst (autocheck_loop rq pairs s a r))).
Proof.
  induction pairs as [ | [[e l] st] rest IH ]; intros s a r Hok;
    [ exact Hok | ].
  cbn [autocheck_loop].
  destruct (is_compliant_for_lab rq s e l (Some (today rq)))
    as [ compliant | err ]; [ | exact Hok ].
  destruct (status_eqb st pending && compliant).
  - ensure_fits rq s e l active Hfits; [ | exact Hok ].
    destruct (ensure_access_state_effect rq s e l active Hfits)
      as (row & tbl & -> & _ & _ & Hnd & Hu & _).
    apply IH. rewrite audit_lab_access. simpl.
    destruct Hok; split; auto.
  - destruct (status_eqb st active && negb compliant).
    + ensure_fits rq s e l revoked Hfits; [ | exact Hok ].
      destruct (ensure_access_state_effect rq s e l revoked Hfits)
        as (row & tbl & -> & _ & _ & Hnd & Hu & _).
      apply IH. rewrite audit_lab_access. simpl.
      destruct Hok; split; auto.
    + now apply IH.
Qed.

(** X9.  The handlers that write [lab_access] keep its constraints: if the
    table satisfies its primary key and the unique (engineer, lab, status)
    constraint before a request to [approve], [revoke], [autocheck],
    [request_access] or [cancel_request], it satisfies them after it,
    whatever the form fields and whether the request succeeds or fails. *)
Theorem access_handlers_keep_constraints (rq : Request)
    (form_engineer_id form_lab_id : option Z) (s : Store) :
  access_table_ok (lab_access s) ->
  access_table_ok
    (lab_access (fst (approve rq form_engineer_id form_lab_id s)))
  /\ access_table_ok
       (lab_access (fst (revoke rq form_engineer_id form_lab_id s)))
  /\ access_table_ok (lab_access (fst (autocheck rq s)))
  /\ access_table_ok
       (lab_access (fst (request_access rq form_engineer_id form_lab_id s)))
  /\ access_table_ok
       (lab_access (fst (cancel_request rq form_engineer_id form_lab_id s))).
Proof.
  intros Hok.
  assert (Hens : forall st,
    match _ensure_access_state rq s
            (match form_engineer_id with Some e => e | None => 0 end)
            (match form_lab_id with Some l => l | None => 0 end) st with
    | Ok (_, s1) => access_table_ok (lab_access s1)
    | Raise _ => True
    end).
  { intros st.
    set (e := match form_engineer_id with Some e => e | None => 0 end).
    set (l := match form_lab_id with Some l => l | None => 0 end).
    ensure_fits rq s e l st Hfits; [ | exact I ].
    destruct (ensure_access_state_effect rq s e l st Hfits)
      as (row & tbl & -> & _ & _ & Hnd & Hu & _).
    simpl. destruct Hok; split; auto. }
  split; [ | split; [ | split; [ | split ] ] ].
  - unfold approve.
    destruct form_engineer_id as [ e | ], form_lab_id as [ l | ];
      try exact Hok.
    destruct (is_compliant_for_lab rq s e l None) as [ [ | ] | err ];
      [ | | exact Hok ].
    + specialize (Hens active).
      destruct (_ensure_access_state rq s e l active) as [ [row s1] | err ];
        [ exact Hens | exact Hok ].
    + specialize (Hens pending).
      destruct (_ensure_access_state rq s e l pending) as [ [row s1] | err ];
        [ exact Hens | exact Hok ].
  - unfold revoke.
    destruct form_engineer_id as [ e | ], form_lab_id as [ l | ];
      try exact Hok.
    specialize (Hens revoked).
    destruct (_ensure_access_state rq s e l revoked) as [ [row s1] | err ];
      [ exact Hens | exact Hok ].
  - unfold autocheck.
    pose proof (autocheck_loop_ok rq
                  (map (fun r => (LabAccess.engineer_id r, LabAccess.lab_id r,
                                  LabAccess.status r))
                       (filter (fun r => status_eqb (LabAccess.status r) pending
                                         || status_eqb (LabAccess.status r) active)
                               (lab_access s))) s 0 0 Hok) as H.
    cbv zeta.
    destruct (autocheck_loop rq _ s 0 0) as [s' [ [a r] | err ]];
      exact H.
  - unfold request_access.
    destruct form_engineer_id as [ e | ], form_lab_id as [ l | ];
      try exact Hok.
    destruct (falsy (Some e) || falsy (Some l)); [ exact Hok | ].
    destruct (Engineer_get s e) as [ eng | ]; [ | exact Hok ].
    destruct (Lab_get s l) as [ lab | ]; [ | exact Hok ].
    cbv zeta.
    destruct (insert_lab_access _ (lab_access s)) as [ tbl | err ] eqn:Hins;
      [ | exact Hok ].
    destruct Hok as [Hnd Hu].
    apply (insert_lab_access_unique _ _ _ Hu) in Hins.
    destruct Hins as [-> Hu']. simpl. split; [ | exact Hu' ].
    apply NoDup_map_app_one; [ exact Hnd | ]. simpl. apply next_id_not_in.
  - unfold cancel_request.
    destruct form_engineer_id as [ e | ], form_lab_id as [ l | ];
      try exact Hok.
    destruct (falsy (Some e) || falsy (Some l)); [ exact Hok | ].
    destruct (first_desc _ (filter (same_state e l pending) (lab_access s)))
      as [ row | ] eqn:Hrow; [ | exact Hok ].
    apply first_desc_in in Hrow. apply filter_In in Hrow.
    destruct Hrow as [Hin _].
    destruct (update_lab_access _ _ (lab_access s)) as [ tbl | err ] eqn:Hup;
      [ | exact Hok ].
    simpl. eapply update_lab_access_ok; [ exact Hok | exact Hin | | exact Hup ].
    reflexivity.
Qed.

Lemma access_table_ok_short (tbl : list LabAccess.t) :
  NoDup (map LabAccess.id tbl) ->
  NoDup (map (fun r => (LabAccess.engineer_id r, LabAccess.lab_id r,
                        LabAccess.status r)) tbl) ->
  access_table_ok tbl.
Proof.
  intros Hid Hkey. split; [ exact Hid | ].
  intros e l st. clear Hid.
  induction tbl as [ | x tbl IH ]; simpl; [ lia | ].
  simpl in Hkey. apply NoDup_cons_iff in Hkey. destruct Hkey as [Hx Hkey].
  specialize (IH Hkey).
  destruct (same_state e l st x) eqn:E; [ | exact IH ].
  simpl. apply same_state_iff in E. destruct E as (He & Hl & Hs).
  assert (Hnil : filter (same_state e l st) tbl = []).
  { apply filter_nil_iff. intros y Hy.
    destruct (same_state e l st y) eqn:E'; [ | reflexivity ].
    apply same_state_iff in E'. destruct E' as (He' & Hl' & Hs').
    destruct Hx. apply in_map_iff. exists y. split; [ | exact Hy ].
    congruence. }
  rewrite Hnil. simpl. lia.
Qed.

Lemma cancel_store_ok : access_table_ok (lab_access cancel_store).
Proof.
  apply access_table_ok_short; simpl;
    repeat (apply NoDup_cons; [ simpl; intuition congruence | ]);
    apply NoDup_nil.
Qed.

Lemma access_handlers_keep_constraints_witness :
  access_table_ok
    (lab_access (fst (approve sample_request (Some 1) (Some 1) cancel_store)))
  /\ access_table_ok
       (lab_access (fst (revoke sample_request (Some 1) (Some 1) cancel_store)))
  /\ access_table_ok (lab_access (fst (autocheck sample_request cancel_store)))
  /\ access_table_ok
       (lab_access
          (fst (request_access sample_request (Some 1) (Some 1) cancel_store)))
  /\ access_table_ok
       (lab_access
          (fst (cancel_request sample_request (Some 1) (Some 1) cancel_store))).
Proof.
  apply (access_handlers_keep_constraints sample_request (Some 1) (Some 1)
           cancel_store).
  exact cancel_store_ok.
Defined.

(* ------------------------------------------------------------------ *)
(** ** What the engineer's own requests cannot do *)

Lemma requests_add_no_active_row (rq : Request)
    (form_engineer_id form_lab_id : option Z) (s : Store) (r : LabAccess.t) :
  LabAccess.status r = active ->
  (In r (lab_access (fst (request_access rq form_engineer_id form_lab_id s)))
   -> In r (lab_access s))
  /\ (In r (lab_access (fst (cancel_request rq form_engineer_id form_lab_id s)))
      -> In r (lab_access s)).
Proof.
  intros Hact. split.
  - unfold request_access.
    destruct form_engineer_id as [ e | ], form_lab_id as [ l | ]; auto.
    destruct (falsy (Some e) || falsy (Some l)); auto.
    destruct (Engineer_get s e) as [ eng | ]; auto.
    destruct (Lab_get s l) as [ lab | ]; auto.
    cbv zeta. unfold insert_lab_access.
    destruct (state_taken _ (lab_access s)); auto.
    simpl. intros Hin. apply in_app_or in Hin.
    destruct Hin as [ Hin | [ <- | [] ] ]; [ exact Hin | ].
    discriminate Hact.
  - unfold cancel_request.
    destruct form_engineer_id as [ e | ], form_lab_id as [ l | ]; auto.
    destruct (falsy (Some e) || falsy (Some l)); auto.
    destruct (first_desc _ (filter (same_state e l pending) (lab_access s)))
      as [ row | ]; auto.
    unfold update_lab_access.
    destruct (state_taken _ _); auto.
    simpl. intros Hin. apply in_map_iff in Hin.
    destruct Hin as (x & Hx & Hin).
    destruct (LabAccess.id x =? LabAccess.id row).
    + subst r. discriminate Hact.
    + now subst x.
Qed.


(** X10.  An engineer's own requests never grant access: every active row
    of [lab_access] after a [request_access] or a [cancel_request] was in
    the table before it. *)
Theorem self_service_never_activates (rq : Request)
    (form_engineer_id form_lab_id : option Z) (s : Store) (r : LabAccess.t) :
  LabAccess.status r = active ->
  (In r (lab_access (fst (request_access rq form_engineer_id form_lab_id s)))
   -> In r (lab_access s))
  /\ (In r (lab_access (fst (cancel_request rq form_engineer_id form_lab_id s)))
      -> In r (lab_access s)).
Proof. apply requests_add_no_active_row. Qed.

Lemma self_service_never_activates_witness :
  (In active_row
      (lab_access (fst (request_access sample_request (Some 1) (Some 1)
                          conflict_store)))
   -> In active_row (lab_access conflict_store))
  /\ (In active_row
         (lab_access (fst (cancel_request sample_request (Some 1) (Some 1)
                             conflict_store)))
      -> In active_row (lab_access conflict_store)).
Proof.
  apply (self_service_never_activates sample_request (Some 1) (Some 1)
           conflict_store active_row).
  reflexivity.
Defined.

(* ------------------------------------------------------------------ *)
(** ** What the handlers leave alone *)

Lemma same_catalogue_refl (s : Store) : same_catalogue s s.
Proof. repeat split. Qed.

Lemma same_catalogue_step (rq : Request) (s0 s : Store)
    (tbl : list LabAccess.t) (action entity : string) (eid : EntityId)
    (meta : list (string * MetaValue)) :
  same_catalogue s0 s ->
  same_catalogue s0 (audit rq (set_lab_access s tbl) action entity eid meta).
Proof. intros H. exact H. Qed.

Lemma same_catalogue_reference (s s' : Store) :
  same_catalogue s s' -> same_reference s s'.
Proof. intros (_ & H). exact H. Qed.

Lemma autocheck_loop_catalogue (rq : Request) (s0 : Store)
    (pairs : list (Z * Z * Status)) :
  forall (s : Store) (a r : Z),
    same_catalogue s0 s ->
    same_catalogue s0 (fst (autocheck_loop rq pairs s a r)).
Proof.
  induction pairs as [ | [[e l] st] rest IH ]; intros s a r Hs;
    [ exact Hs | ].
  cbn [autocheck_loop].
  destruct (is_compliant_for_lab rq s e l (Some (today rq)))
    as [ compliant | err ]; [ | exact Hs ].
  destruct (status_eqb st pending && compliant).
  - ensure_fits rq s e l active Hfits; [ | exact Hs ].
    destruct (ensure_access_state_effect rq s e l active Hfits)
      as (row & tbl & -> & _).
    apply IH. now apply same_catalogue_step.
  - destruct (status_eqb st active && negb compliant).
    + ensure_fits rq s e l revoked Hfits; [ | exact Hs ].
      destruct (ensure_access_state_effect rq s e l revoked Hfits)
        as (row & tbl & -> & _).
      apply IH. now apply same_catalogue_step.
    + now apply IH.
Qed.

Lemma access_handlers_catalogue (rq : Request)
    (form_engineer_id form_lab_id form_utilization form_condition
       form_activity : option Z) (form_asof : AsofField) (s : Store) :
  same_catalogue s (fst (approve rq form_engineer_id form_lab_id s))
  /\ same_catalogue s (fst (revoke rq form_engineer_id form_lab_id s))
  /\ same_catalogue s (fst (autocheck rq s))
  /\ same_catalogue s (fst (request_access rq form_engineer_id form_lab_id s))
  /\ same_catalogue s (fst (cancel_request rq form_engineer_id form_lab_id s))
  /\ same_catalogue s
       (fst (metrics_save rq form_lab_id form_utilization form_condition
               form_activity form_asof s)).
Proof.
  pose proof (same_catalogue_refl s) as Hrefl.
  split; [ | split; [ | split; [ | split; [ | split ] ] ] ].
  - unfold approve.
    destruct form_engineer_id as [ e | ], form_lab_id as [ l | ]; auto.
    destruct (is_compliant_for_lab rq s e l None) as [ [ | ] | err ]; auto.
    + ensure_fits rq s e l active Hfits; [ | exact Hrefl ].
      destruct (ensure_access_state_effect rq s e l active Hfits)
        as (row & tbl & -> & _). exact Hrefl.
    + ensure_fits rq s e l pending Hfits; [ | exact Hrefl ].
      destruct (ensure_access_state_effect rq s e l pending Hfits)
        as (row & tbl & -> & _). exact Hrefl.
  - unfold revoke.
    destruct form_engineer_id as [ e | ], form_lab_id as [ l | ]; auto.
    ensure_fits rq s e l revoked Hfits; [ | exact Hrefl ].
    destruct (ensure_access_state_effect rq s e l revoked Hfits)
      as (row & tbl & -> & _). exact Hrefl.
  - unfold autocheck. cbv zeta.
    pose proof (autocheck_loop_catalogue rq s
                  (map (fun r => (LabAccess.engineer_id r, LabAccess.lab_id r,
                                  LabAccess.status r))
                       (filter (fun r => status_eqb (LabAccess.status r) pending
                                         || status_eqb (LabAccess.status r) active)
                               (lab_access s))) s 0 0 Hrefl) as H.
    destruct (autocheck_loop rq _ s 0 0) as [s' [ [a r] | err ]]; exact H.
  - unfold request_access.
    destruct form_engineer_id as [ e | ], form_lab_id as [ l | ]; auto.
    destruct (falsy (Some e) || falsy (Some l)); auto.
    destruct (Engineer_get s e) as [ eng | ]; auto.
    destruct (Lab_get s l) as [ lab | ]; auto.
    cbv zeta. destruct (insert_lab_access _ (lab_access s)); auto.
  - unfold cancel_request.
    destruct form_engineer_id as [ e | ], form_lab_id as [ l | ]; auto.
    destruct (falsy (Some e) || falsy (Some l)); auto.
    destruct (first_desc _ (filter (same_state e l pending) (lab_access s)))
      as [ row | ]; auto.
    destruct (update_lab_access _ _ (lab_access s)); auto.
  - unfold metrics_save.
    destruct form_lab_id, form_utilization, form_condition, form_activity;
      auto; destruct form_asof; auto; cbv zeta;
      match goal with
      | |- context [ fits_integer ?x ] => destruct (fits_integer x)
      end; cbn [negb]; auto;
      match goal with
      | |- context [ first ?x ] => destruct (first x)
      end;
      match goal with
      | |- context [ insert_lab_metrics ?x ?y ] =>
          destruct (insert_lab_metrics x y)
      | |- context [ update_lab_metrics ?x ?y ?z ] =>
          destruct (update_lab_metrics x y z)
      end; auto.
Qed.

(** X11.  The handlers of the manager and the engineer never touch the data
    that compliance is computed from: after [approve], [revoke],
    [autocheck], [request_access], [cancel_request] or [metrics_save], with
    any form fields, the engineers, labs, courses, requirements,
    completions, documents and acknowledgments are as before, and
    [is_compliant_for_lab] gives for every engineer, lab and date the answer
    it gave before. *)
Theorem handlers_keep_compliance (rq rq' : Request)
    (form_engineer_id form_lab_id form_utilization form_condition
       form_activity : option Z) (form_asof : AsofField) (s : Store)
    (engineer_id lab_id : Z) (asof : option Date.t) :
  let keeps (s' : Store) :=
    same_catalogue s s'
    /\ is_compliant_for_lab rq' s' engineer_id lab_id asof
       = is_compliant_for_lab rq' s engineer_id lab_id asof in
  keeps (fst (approve rq form_engineer_id form_lab_id s))
  /\ keeps (fst (revoke rq form_engineer_id form_lab_id s))
  /\ keeps (fst (autocheck rq s))
  /\ keeps (fst (request_access rq form_engineer_id form_lab_id s))
  /\ keeps (fst (cancel_request rq form_engineer_id form_lab_id s))
  /\ keeps (fst (metrics_save rq form_lab_id form_utilization form_condition
                   form_activity form_asof s)).
Proof.
  intros keeps.
  assert (Hk : forall s', same_catalogue s s' -> keeps s').
  { intros s' H. split; [ exact H | ]. symmetry.
    apply is_compliant_frame. now apply same_catalogue_reference. }
  destruct (access_handlers_catalogue rq form_engineer_id form_lab_id
              form_utilization form_condition form_activity form_asof s)
    as (H1 & H2 & H3 & H4 & H5 & H6).
  repeat split; try apply Hk; assumption.
Qed.

(* ------------------------------------------------------------------ *)
(** ** The audit trail *)

Lemma audit_log_audit (rq : Request) (s : Store) (action entity : string)
    (eid : EntityId) (meta : list (string * MetaValue)) :
  audit_log (audit rq s action entity eid meta)
  = audit_log s
    ++ [AuditLog.mk (utcnow rq) (g_user_id rq) action entity eid meta].
Proof. reflexivity. Qed.

Lemma autocheck_loop_audit (rq : Request) (pairs : list (Z * Z * Status)) :
  forall (s : Store) (a r : Z),
  exists rows,
    audit_log (fst (autocheck_loop rq pairs s a r)) = audit_log s ++ rows
    /\ (List.length rows <= List.length pairs)%nat
    /\ (forall x, In x rows ->
          AuditLog.at_ x = utcnow rq
          /\ AuditLog.actor_user_id x = g_user_id rq
          /\ AuditLog.entity x = "lab_access")
    /\ forall a' r',
         snd (autocheck_loop rq pairs s a r) = Ok (a', r') ->
         a' = a + Z.of_nat (List.length (with_action "auto_activate" rows))
         /\ r' = r + Z.of_nat (List.length (with_action "auto_revoke" rows))
         /\ (List.length rows
             = List.length (with_action "auto_activate" rows)
               + List.length (with_action "auto_revoke" rows))%nat.
Proof.
  induction pairs as [ | [[e l] st] rest IH ]; intros s a r.
  { exists []. rewrite app_nil_r. simpl.
    split; [ reflexivity | ]. split; [ lia | ]. split; [ intros x [] | ].
    intros a' r' [= <- <-]. lia. }
  cbn [autocheck_loop].
  assert (Hstop : forall err,
    exists rows,
      audit_log (fst (s, @Raise (Z * Z) err)) = audit_log s ++ rows
      /\ (List.length rows <= List.length ((e, l, st) :: rest))%nat
      /\ (forall x, In x rows ->
            AuditLog.at_ x = utcnow rq
            /\ AuditLog.actor_user_id x = g_user_id rq
            /\ AuditLog.entity x = "lab_access")
      /\ forall a' r',
           snd (s, @Raise (Z * Z) err) = Ok (a', r') ->
           a' = a + Z.of_nat (List.length (with_action "auto_activate" rows))
           /\ r' = r + Z.of_nat (List.length (with_action "auto_revoke" rows))
           /\ (List.length rows
               = List.length (with_action "auto_activate" rows)
                 + List.length (with_action "auto_revoke" rows))%nat).
  { intros err. exists []. rewrite app_nil_r. simpl.
    split; [ reflexivity | ]. split; [ lia | ].
    split; [ intros x [] | discriminate ]. }
  destruct (is_compliant_for_lab rq s e l (Some (today rq)))
    as [ compliant | err ]; [ | apply Hstop ].
  destruct (status_eqb st pending && compliant).
  - ensure_fits rq s e l active Hfits; [ | apply Hstop ].
    destruct (ensure_access_state_effect rq s e l active Hfits)
      as (row & tbl & -> & _).
    destruct (IH (audit rq (set_lab_access s tbl) "auto_activate"
                    "lab_access" (PairId e l) []) (a + 1) r)
      as (rows & Hlog & Hlen & Hrows & Hcount).
    rewrite audit_log_audit in Hlog. simpl audit_log in Hlog.
    rewrite <- app_assoc in Hlog.
    eexists. split; [ exact Hlog | ]. split; [ simpl; lia | ]. split.
    + intros x [ <- | Hx ]; [ simpl; auto | now apply Hrows ].
    + intros a' r' Hres. specialize (Hcount a' r' Hres).
      unfold with_action in *. simpl. lia.
  - destruct (status_eqb st active && negb compliant).
    + ensure_fits rq s e l revoked Hfits; [ | apply Hstop ].
      destruct (ensure_access_state_effect rq s e l revoked Hfits)
        as (row & tbl & -> & _).
      destruct (IH (audit rq (set_lab_access s tbl) "auto_revoke"
                      "lab_access" (PairId e l)
                      [("reason", MStr "out_of_compliance")]) a (r + 1))
        as (rows & Hlog & Hlen & Hrows & Hcount).
      rewrite audit_log_audit in Hlog. simpl audit_log in Hlog.
      rewrite <- app_assoc in Hlog.
      eexists. split; [ exact Hlog | ]. split; [ simpl; lia | ]. split.
      * intros x [ <- | Hx ]; [ simpl; auto | now apply Hrows ].
      * intros a' r' Hres. specialize (Hcount a' r' Hres).
        unfold with_action in *. simpl. lia.
    + destruct (IH s a r) as (rows & Hlog & Hlen & Hrest).
      exists rows. split; [ exact Hlog | ]. split; [ simpl; lia | exact Hrest ].
Qed.

(** X12.  The summary of [autocheck] agrees with its audit trail: when the
    run flashes "Activated: a, Revoked: r", it has appended to the audit log
    exactly [a] rows of action [auto_activate] and [r] rows of action
    [auto_revoke], and nothing else; the rows already in the log are
    unchanged. *)
Theorem autocheck_counts_match_audit (rq : Request) (s s' : Store) (a r : Z) :
  autocheck rq s = (s', Flashed (AutocheckDone a r) success) ->
  exists rows,
    audit_log s' = audit_log s ++ rows
    /\ a = Z.of_nat (List.length (with_action "auto_activate" rows))
    /\ r = Z.of_nat (List.length (with_action "auto_revoke" rows))
    /\ Z.of_nat (List.length rows) = a + r.
Proof.
  unfold autocheck. cbv zeta.
  destruct (autocheck_loop_audit rq
              (map (fun r => (LabAccess.engineer_id r, LabAccess.lab_id r,
                              LabAccess.status r))
                   (filter (fun r => status_eqb (LabAccess.status r) pending
                                     || status_eqb (LabAccess.status r) active)
                           (lab_access s))) s 0 0)
    as (rows & Hlog & _ & _ & Hcount).
  destruct (autocheck_loop rq _ s 0 0) as [s1 [ [a1 r1] | err ]];
    [ | discriminate ].
  intros [= <- <- <-]. simpl in Hlog, Hcount.
  destruct (Hcount a1 r1 eq_refl) as (Ha & Hr & Hlen).
  exists rows. split; [ exact Hlog | ]. lia.
Qed.

Lemma autocheck_counts_match_audit_witness :
  exists rows,
    audit_log (fst (autocheck sample_request cancel_store))
    = audit_log cancel_store ++ rows
    /\ 1 = Z.of_nat (List.length (with_action "auto_activate" rows))
    /\ 0 = Z.of_nat (List.length (with_action "auto_revoke" rows))
    /\ Z.of_nat (List.length rows) = 1 + 0.
Proof.
  apply (autocheck_counts_match_audit sample_request cancel_store
           (fst (autocheck sample_request cancel_store)) 1 0).
  reflexivity.
Defined.

(** X13.  The audit log is append-only under the seven handlers that call
    [audit]: [autocheck], [approve], [revoke], [request_access],
    [cancel_request], [metrics_save] and [acknowledge_document].  Each of
    them leaves the rows that were in the log as they were and in their
    order, and stamps the rows it adds with the time and the user of the
    request.  [autocheck] adds at most one row for each row of
    [lab_access]; each of the other six adds at most one row. *)
Theorem audit_log_append_only (rq : Request)
    (form_engineer_id form_lab_id form_utilization form_condition
       form_activity : option Z) (form_asof : AsofField)
    (users : list User.t) (document_id : Z) (s : Store) :
  appends_audit rq s (List.length (lab_access s)) (fst (autocheck rq s))
  /\ appends_audit rq s 1 (fst (approve rq form_engineer_id form_lab_id s))
  /\ appends_audit rq s 1 (fst (revoke rq form_engineer_id form_lab_id s))
  /\ appends_audit rq s 1
       (fst (request_access rq form_engineer_id form_lab_id s))
  /\ appends_audit rq s 1
       (fst (cancel_request rq form_engineer_id form_lab_id s))
  /\ appends_audit rq s 1
       (fst (metrics_save rq form_lab_id form_utilization form_condition
               form_activity form_asof s))
  /\ appends_audit rq s 1 (fst (acknowledge_document rq users document_id s)).
Proof.
  assert (Hnone : forall n, appends_audit rq s n s).
  { intros n. exists []. rewrite app_nil_r.
    split; [ reflexivity | ]. split; [ simpl; lia | intros x [] ]. }
  assert (Hone : forall s1 action entity eid meta,
    audit_log s1 = audit_log s ->
    appends_audit rq s 1 (audit rq s1 action entity eid meta)).
  { intros s1 action entity eid meta Hs1. eexists.
    rewrite audit_log_audit, Hs1. split; [ reflexivity | ].
    split; [ simpl; lia | ]. intros x [ <- | [] ]. simpl. auto. }
  split; [ | split; [ | split; [ | split; [ | split; [ | split ] ] ] ] ].
  - unfold autocheck. cbv zeta.
    destruct (autocheck_loop_audit rq
                (map (fun r => (LabAccess.engineer_id r, LabAccess.lab_id r,
                                LabAccess.status r))
                     (filter (fun r => status_eqb (LabAccess.status r) pending
                                       || status_eqb (LabAccess.status r) active)
                             (lab_access s))) s 0 0)
      as (rows & Hlog & Hlen & Hrows & _).
    rewrite length_map in Hlen.
    pose proof (filter_length_le _
                  (fun r => status_eqb (LabAccess.status r) pending
                            || status_eqb (LabAccess.status r) active)
                  (lab_access s)) as Hf.
    destruct (autocheck_loop rq _ s 0 0) as [s1 [ [a1 r1] | err ]];
      simpl in *; exists rows; (split; [ exact Hlog | ]);
      (split; [ lia | ]); intros x Hx; destruct (Hrows x Hx); tauto.
  - unfold approve.
    destruct form_engineer_id as [ e | ], form_lab_id as [ l | ]; auto.
    destruct (is_compliant_for_lab rq s e l None) as [ [ | ] | err ]; auto.
    + ensure_fits rq s e l active Hfits; [ | apply Hnone ].
      destruct (ensure_access_state_effect rq s e l active Hfits)
        as (row & tbl & -> & _). now apply Hone.
    + ensure_fits rq s e l pending Hfits; [ | apply Hnone ].
      destruct (ensure_access_state_effect rq s e l pending Hfits)
        as (row & tbl & -> & _). now apply Hone.
  - unfold revoke.
    destruct form_engineer_id as [ e | ], form_lab_id as [ l | ]; auto.
    ensure_fits rq s e l revoked Hfits; [ | apply Hnone ].
    destruct (ensure_access_state_effect rq s e l revoked Hfits)
      as (row & tbl & -> & _). now apply Hone.
  - unfold request_access.
    destruct form_engineer_id as [ e | ], form_lab_id as [ l | ]; auto.
    destruct (falsy (Some e) || falsy (Some l)); auto.
    destruct (Engineer_get s e) as [ eng | ]; auto.
    destruct (Lab_get s l) as [ lab | ]; auto.
    cbv zeta. destruct (insert_lab_access _ (lab_access s)); auto.
    now apply Hone.
  - unfold cancel_request.
    destruct form_engineer_id as [ e | ], form_lab_id as [ l | ]; auto.
    destruct (falsy (Some e) || falsy (Some l)); auto.
    destruct (first_desc _ (filter (same_state e l pending) (lab_access s)))
      as [ row | ]; auto.
    destruct (update_lab_access _ _ (lab_access s)); auto.
    now apply Hone.
  - unfold metrics_save.
    destruct form_lab_id, form_utilization, form_condition, form_activity;
      auto; destruct form_asof; auto; cbv zeta;
      match goal with
      | |- context [ fits_integer ?x ] => destruct (fits_integer x)
      end; cbn [negb]; auto;
      match goal with
      | |- context [ first ?x ] => destruct (first x)
      end;
      match goal with
      | |- context [ insert_lab_metrics ?x ?y ] =>
          destruct (insert_lab_metrics x y)
      | |- context [ update_lab_metrics ?x ?y ?z ] =>
          destruct (update_lab_metrics x y z)
      end; auto; now apply Hone.
  - unfold acknowledge_document.
    destruct (User_get users (g_user_id rq)) as [ user | ]; auto.
    destruct (falsy (User.engineer_id user)); auto.
    destruct (User.engineer_id user) as [ e | ]; auto.
    destruct (Document_get s document_id) as [ doc | ]; auto.
    destruct (first _) as [ existing | ]; auto.
    cbv zeta. destruct (insert_document_ack _ (document_acks s)); auto.
    now apply Hone.
Qed.

(* ------------------------------------------------------------------ *)
(** ** Pairs that [autocheck] does not visit *)

Lemma autocheck_loop_frame (rq : Request) (e l : Z)
    (pairs : list (Z * Z * Status)) :
  forall (s : Store) (a r : Z),
    (forall e' l' st, In (e', l', st) pairs -> (e, l) <> (e', l')) ->
    filter (same_pair e l) (lab_access (fst (autocheck_loop rq pairs s a r)))
    = filter (same_pair e l) (lab_access s).
Proof.
  induction pairs as [ | [[e' l'] st] rest IH ]; intros s a r Hne;
    [ reflexivity | ].
  assert (Hrest : forall e'' l'' st'',
            In (e'', l'', st'') rest -> (e, l) <> (e'', l'')).
  { intros e'' l'' st'' H. apply (Hne e'' l'' st''). now right. }
  assert (Hhead : (e, l) <> (e', l')).
  { apply (Hne e' l' st). now left. }
  cbn [autocheck_loop].
  destruct (is_compliant_for_lab rq s e' l' (Some (today rq)))
    as [ compliant | err ]; [ | reflexivity ].
  destruct (status_eqb st pending && compliant).
  - ensure_fits rq s e' l' active Hfits; [ | reflexivity ].
    destruct (ensure_access_state_effect rq s e' l' active Hfits)
      as (row & tbl & -> & _ & Hframe & _).
    rewrite IH by exact Hrest. rewrite audit_lab_access. simpl.
    now apply Hframe.
  - destruct (status_eqb st active && negb compliant).
    + ensure_fits rq s e' l' revoked Hfits; [ | reflexivity ].
      destruct (ensure_access_state_effect rq s e' l' revoked Hfits)
        as (row & tbl & -> & _ & Hframe & _).
      rewrite IH by exact Hrest. rewrite audit_lab_access. simpl.
      now apply Hframe.
    + now apply IH.
Qed.

(** X14.  [autocheck] only touches the pairs it visits: for a pair all of
    whose rows are revoked (or that has no row), the rows of the pair after
    the run are the rows before it, so revoked access stays revoked,
    whether the engineer is compliant or not. *)
Theorem autocheck_keeps_revoked (rq : Request) (s : Store)
    (engineer_id lab_id : Z) :
  (forall r, In r (lab_access s) ->
             same_pair engineer_id lab_id r = true ->
             LabAccess.status r = revoked) ->
  filter (same_pair engineer_id lab_id) (lab_access (fst (autocheck rq s)))
  = filter (same_pair engineer_id lab_id) (lab_access s).
Proof.
  intros Hrev. unfold autocheck. cbv zeta.
  fold (open_pairs (lab_access s)).
  pose proof (autocheck_loop_frame rq engineer_id lab_id
                (open_pairs (lab_access s)) s 0 0) as H.
  destruct (autocheck_loop rq (open_pairs (lab_access s)) s 0 0)
    as [s' [ [a r] | err ]]; simpl in *; apply H;
    intros e' l' st Hin [= <- <-];
    apply open_pairs_in in Hin; destruct Hin as (Hst & row & Hrow & Hsame);
    apply same_state_iff in Hsame; destruct Hsame as (He & Hl & Hs);
    apply Hst; rewrite <- Hs; apply Hrev; auto;
    apply same_pair_iff; auto.
Qed.

Lemma autocheck_keeps_revoked_witness :
  filter (same_pair 1 1)
         (lab_access
            (fst (autocheck sample_request
                    (set_lab_access base_store
                       [LabAccess.mk 1 1 1 revoked None 1717000000;
                        LabAccess.mk 2 2 1 pending (Some "requested")
                                     1717100000]))))
  = [LabAccess.mk 1 1 1 revoked None 1717000000].
Proof.
  apply (autocheck_keeps_revoked sample_request
           (set_lab_access base_store
              [LabAccess.mk 1 1 1 revoked None 1717000000;
               LabAccess.mk 2 2 1 pending (Some "requested") 1717100000])
           1 1).
  simpl. intros r [ <- | [ <- | [] ] ]; [ reflexivity | discriminate ].
Defined.

(* ------------------------------------------------------------------ *)
(** ** Tables with one row per pair *)

Lemma one_row_per_pair_single (tbl : list LabAccess.t) (e l : Z)
    (x : LabAccess.t) :
  one_row_per_pair tbl -> In x tbl -> same_pair e l x = true ->
  filter (same_pair e l) tbl = [x].
Proof.
  intros Hone Hin Hx. specialize (Hone e l).
  assert (Hin' : In x (filter (same_pair e l) tbl)).
  { apply filter_In. auto. }
  destruct (filter (same_pair e l) tbl) as [ | y [ | z rest ] ];
    simpl in *; [ tauto | | lia ].
  destruct Hin' as [ -> | [] ]. reflexivity.
Qed.

Lemma ensure_single_row (rq : Request) (s : Store) (e l : Z) (st : Status) :
  fits_integer e && fits_integer l = true ->
  one_row_per_pair (lab_access s) ->
  exists row tbl,
    _ensure_access_state rq s e l st = Ok (row, set_lab_access s tbl)
    /\ filter (same_pair e l) tbl = [row]
    /\ LabAccess.status row = st
    /\ one_row_per_pair tbl.
Proof.
  intros Hfits Hone.
  destruct (ensure_access_state_effect rq s e l st Hfits)
    as (row & tbl & Hcall & Hfirst & Hframe & _ & _ & Hshape).
  exists row, tbl.
  apply first_filter_some in Hfirst. destruct Hfirst as [Hin Hst].
  apply same_state_iff in Hst. destruct Hst as (He & Hl & Hs).
  assert (Hpair : same_pair e l row = true) by (apply same_pair_iff; auto).
  assert (Hsingle : filter (same_pair e l) tbl = [row]).
  { destruct Hshape as [ -> | (Hnil & Hrow & ->) ].
    - now apply one_row_per_pair_single.
    - destruct (ensure_access_state_cases rq s e l st Hfits) as [_ Hnone].
      specialize (Hnone Hnil). cbv zeta in Hnone.
      destruct Hnone as [_ Hnone]. rewrite <- Hrow in Hnone. exact Hnone. }
  split; [ exact Hcall | ]. split; [ exact Hsingle | ].
  split; [ exact Hs | ].
  intros e' l'.
  destruct (Z.eq_dec e' e) as [ -> | Hne ];
    [ destruct (Z.eq_dec l' l) as [ -> | Hne ] | ].
  - rewrite Hsingle. simpl. lia.
  - rewrite Hframe by congruence. apply Hone.
  - rewrite Hframe by congruence. apply Hone.
Qed.

(** X15.  Let the two ids be SQLite integers (64 bits) and the table hold at
    most one row per pair.  If every training check of the lab's
    requirements returns a verdict (none raises, so that the order in which
    the requirements are read does not matter), [is_compliant_for_lab]
    returns a verdict and [approve] replaces the pair's row: afterwards the
    pair has exactly one row, active when the engineer is compliant and
    pending when not, whatever the status of the row before.  After
    [revoke] the pair has exactly one row, revoked, and [revoke] does not
    fail.  The table still has at most one row per pair. *)
Theorem approve_revoke_single_row (rq : Request) (s : Store)
    (engineer_id lab_id : Z) :
  fits_integer engineer_id && fits_integer lab_id = true ->
  one_row_per_pair (lab_access s) ->
  ((forall lab,
       Lab_get s lab_id = Some lab ->
       forall r, In r (requirements_of s lab_id) ->
                 training_defined s engineer_id lab (today rq) r) ->
   exists compliant row s1,
     is_compliant_for_lab rq s engineer_id lab_id None = Ok compliant
     /\ approve rq (Some engineer_id) (Some lab_id) s
        = (s1, if compliant then Flashed AccessApproved success
               else Flashed KeptPending warning)
     /\ filter (same_pair engineer_id lab_id) (lab_access s1) = [row]
     /\ LabAccess.status row = (if compliant then active else pending)
     /\ one_row_per_pair (lab_access s1))
  /\ exists row s1,
       revoke rq (Some engineer_id) (Some lab_id) s
       = (s1, Flashed AccessRevoked info)
       /\ filter (same_pair engineer_id lab_id) (lab_access s1) = [row]
       /\ LabAccess.status row = revoked
       /\ one_row_per_pair (lab_access s1).
Proof.
  intros Hfits Hone. split.
  - intros Hdef.
    assert (Hc : exists compliant,
               is_compliant_for_lab rq s engineer_id lab_id None
               = Ok compliant).
    { unfold is_compliant_for_lab.
      fold (requirements_of s lab_id).
      destruct (Lab_get s lab_id) as [ lab | ]; [ | now exists false ].
      rewrite (reqs_loop_defined _ _ _ _ _ (Hdef lab eq_refl)).
      cbn [bind].
      destruct (forallb _ _); cbn [negb]; [ | now exists false ].
      destruct (_has_required_acks s engineer_id lab_id); cbn [negb];
        eexists; reflexivity. }
    destruct Hc as [compliant Hc]. exists compliant.
    unfold approve. rewrite Hc.
    destruct compliant.
    + destruct (ensure_single_row rq s engineer_id lab_id active Hfits Hone)
        as (row & tbl & -> & Hrows & Hst & Hone').
      eexists row, _. split; [ reflexivity | ].
      split; [ reflexivity | ]. simpl. auto.
    + destruct (ensure_single_row rq s engineer_id lab_id pending Hfits Hone)
        as (row & tbl & -> & Hrows & Hst & Hone').
      eexists row, _. split; [ reflexivity | ].
      split; [ reflexivity | ]. simpl. auto.
  - unfold revoke.
    destruct (ensure_single_row rq s engineer_id lab_id revoked Hfits Hone)
      as (row & tbl & -> & Hrows & Hst & Hone').
    eexists row, _. split; [ reflexivity | ]. simpl. auto.
Qed.

Lemma one_row_per_pair_one (x : LabAccess.t) : one_row_per_pair [x].
Proof.
  intros e l. simpl. destruct (same_pair e l x); simpl; lia.
Qed.

(** An engineer with active access whose training has lapsed: [approve]
    turns the active row into a pending one. *)
Lemma approve_revoke_single_row_witness :
  exists compliant row s1,
    is_compliant_for_lab later_request
      (set_lab_access trained_store [active_row]) 1 1 None = Ok compliant
    /\ approve later_request (Some 1) (Some 1)
         (set_lab_access trained_store [active_row])
       = (s1, if compliant then Flashed AccessApproved success
              else Flashed KeptPending warning)
    /\ filter (same_pair 1 1) (lab_access s1) = [row]
    /\ LabAccess.status row = (if compliant then active else pending)
    /\ one_row_per_pair (lab_access s1).
Proof.
  destruct (approve_revoke_single_row later_request
              (set_lab_access trained_store [active_row]) 1 1
              eq_refl (one_row_per_pair_one active_row)) as [H _].
  apply H.
  intros lab Hlab r Hr course Hcourse.
  simpl in Hr. destruct Hr as [ <- | [] ].
  injection Hlab as <-. injection Hcourse as <-.
  eexists. reflexivity.
Defined.

Lemma autocheck_idempotent_single_rows_witness :
  autocheck sample_request (fst (autocheck sample_request pending_store))
  = (fst (autocheck sample_request pending_store),
     Flashed (AutocheckDone 0 0) success).
Proof.
  destruct (autocheck_idempotent_single_rows sample_request pending_store
              (fst (autocheck sample_request pending_store)) 1 0
              (one_row_per_pair_one _) eq_refl) as [_ H].
  exact H.
Defined.

(* ------------------------------------------------------------------ *)
(** ** Cancelling a request *)




(* ------------------------------------------------------------------ *)
(** ** Who may grant access *)

Lemma require_roles_refuses (A : Type) (fn : Request -> A)
    (payload : option Payload.t) (today : Date.t) (utcnow : Z) :
  match payload with
  | None => True
  | Some p => Payload.role p <> Some "manager"
              /\ Payload.role p <> Some "admin"
  end ->
  require_roles ["manager"; "admin"] fn payload today utcnow = AuthRequired
  \/ require_roles ["manager"; "admin"] fn payload today utcnow = Forbidden.
Proof.
  unfold require_roles. destruct payload as [ p | ]; [ | auto ].
  intros [Hm Ha]. unfold role_in. right.
  destruct (Payload.role p) as [ r | ]; simpl; [ | reflexivity ].
  destruct (String.eqb_spec r "manager") as [ -> | _ ]; [ now destruct Hm | ].
  destruct (String.eqb_spec r "admin") as [ -> | _ ]; [ now destruct Ha | ].
  reflexivity.
Qed.

(** X18.  Only a manager or an admin can grant access.  For a request
    without a valid token, or with a token whose role is neither [manager]
    nor [admin], the routes [approve], [revoke], [autocheck] and
    [metrics_save] answer 401 or 403 without running the view, and through
    [request_access] and [cancel_request] no active row appears: every
    active row of [lab_access] after the request was there before. *)
Theorem only_managers_grant_access (payload : option Payload.t)
    (today : Date.t) (utcnow : Z)
    (form_engineer_id form_lab_id form_utilization form_condition
       form_activity : option Z) (form_asof : AsofField) (s : Store) :
  match payload with
  | None => True
  | Some p => Payload.role p <> Some "manager"
              /\ Payload.role p <> Some "admin"
  end ->
  let refused (g : Routed (Store * Response)) :=
    g = AuthRequired \/ g = Forbidden in
  refused (Route.approve payload today utcnow form_engineer_id form_lab_id s)
  /\ refused (Route.revoke payload today utcnow form_engineer_id form_lab_id s)
  /\ refused (Route.autocheck payload today utcnow s)
  /\ refused (Route.metrics_save payload today utcnow form_lab_id
                form_utilization form_condition form_activity form_asof s)
  /\ forall r,
       LabAccess.status r = active ->
       (In r (lab_access
                (store_after s
                   (Route.request_access payload today utcnow
                      form_engineer_id form_lab_id s)))
        -> In r (lab_access s))
       /\ (In r (lab_access
                   (store_after s
                      (Route.cancel_request payload today utcnow
                         form_engineer_id form_lab_id s)))
           -> In r (lab_access s)).
Proof.
  intros Hrole refused.
  split; [ now apply require_roles_refuses | ].
  split; [ now apply require_roles_refuses | ].
  split; [ now apply require_roles_refuses | ].
  split; [ now apply require_roles_refuses | ].
  intros r Hact.
  unfold Route.request_access, Route.cancel_request, require_roles.
  destruct payload as [ p | ]; [ | simpl; auto ].
  destruct (_ && negb (role_in (Payload.role p)
                         ["engineer"; "manager"; "admin"]));
    [ simpl; auto | ].
  unfold store_after.
  pose proof (requests_add_no_active_row
                (mkRequest (Payload.uid p) today utcnow)
                form_engineer_id form_lab_id s r Hact) as [H1 H2].
  destruct (request_access _ form_engineer_id form_lab_id s) as [s1 resp1].
  destruct (cancel_request _ form_engineer_id form_lab_id s) as [s2 resp2].
  auto.
Qed.

Lemma only_managers_grant_access_witness :
  Route.approve (Some (Payload.mk (Some 7) (Some "engineer")
                                  (Some "ava@example.org")))
                (Date.mk 2024 6 1) 1717200000 (Some 1) (Some 1) pending_store
  = Forbidden.
Proof.
  destruct (only_managers_grant_access
              (Some (Payload.mk (Some 7) (Some "engineer")
                                (Some "ava@example.org")))
              (Date.mk 2024 6 1) 1717200000 (Some 1) (Some 1) None None None
              AsofEmpty pending_store) as [[H | H] _].
  - simpl. split; discriminate.
  - discriminate H.
  - exact H.
Defined.

(* ------------------------------------------------------------------ *)
(** ** Acknowledging a document *)

Lemma same_ack_iff (e d v : Z) (a : DocumentAck.t) :
  same_ack e d v a = true
  <-> DocumentAck.engineer_id a = e /\ DocumentAck.document_id a = d
      /\ DocumentAck.version a = v.
Proof.
  unfold same_ack. rewrite !andb_true_iff, !Z.eqb_eq. tauto.
Qed.

Lemma document_get_some (s : Store) (pk : Z) (doc : Document.t) :
  Document_get s pk = Some doc ->
  In doc (documents s) /\ Document.id doc = pk.
Proof.
  unfold Document_get. intros H. apply find_some in H.
  destruct H as [Hin H]. apply Z.eqb_eq in H. auto.
Qed.

(** The acknowledgments of a store with one more row. *)
Lemma acked_current_insert (s : Store) (row : DocumentAck.t)
    (engineer_id : Z) (d : Document.t) :
  acked_current (set_document_acks s (document_acks s ++ [row]))
                engineer_id d
  <-> acked_current s engineer_id d
      \/ (DocumentAck.engineer_id row = engineer_id
          /\ DocumentAck.document_id row = Document.id d
          /\ DocumentAck.version row = Document.version d).
Proof.
  unfold acked_current. simpl. split.
  - intros (a & Hin & H). apply in_app_or in Hin.
    destruct Hin as [ Hin | [ <- | [] ] ]; [ left; eauto | right; exact H ].
  - intros [ (a & Hin & H) | H ].
    + exists a. split; [ apply in_or_app; now left | exact H ].
    + exists row. split; [ apply in_or_app; right; now left | exact H ].
Qed.

(** What [acknowledge_document] does for a linked user and a document that
    exists. *)
Lemma acknowledge_document_cases (rq : Request) (users : list User.t)
    (document_id engineer_id : Z) (doc : Document.t) (s : Store) :
  linked_to rq users engineer_id ->
  Document_get s document_id = Some doc ->
  (exists existing,
      first (filter (same_ack engineer_id document_id (Document.version doc))
                    (document_acks s)) = Some existing
      /\ acknowledge_document rq users document_id s
         = (s,
            AckFlashed (AlreadyAcknowledged (Document.title doc)
                          (Document.version doc)
                          (DocumentAck.acked_at existing)) info))
  \/ (filter (same_ack engineer_id document_id (Document.version doc))
             (document_acks s) = []
      /\ acknowledge_document rq users document_id s
         = (audit rq
              (set_document_acks s
                 (document_acks s
                  ++ [DocumentAck.mk
                        (next_id (map DocumentAck.id (document_acks s)))
                        engineer_id document_id (Document.version doc)
                        (utcnow rq)]))
              "engineer_acknowledge" "document_ack"
              (AckId engineer_id document_id (Document.version doc))
              [("document_title", MStr (Document.title doc))],
            AckFlashed (Acknowledged (Document.title doc)
                          (Document.version doc)) success)).
Proof.
  intros (user & Huser & Heng & Hnz) Hdoc.
  unfold acknowledge_document. rewrite Huser, Heng, Hdoc.
  assert (Hf : falsy (Some engineer_id) = false) by now apply Z.eqb_neq.
  rewrite Hf.
  destruct (filter (same_ack engineer_id document_id (Document.version doc))
                   (document_acks s)) as [ | existing rest ] eqn:E.
  - right. split; [ reflexivity | ]. simpl.
    unfold insert_document_ack. simpl.
    assert (Hex : existsb (same_ack engineer_id document_id
                                    (Document.version doc))
                          (document_acks s) = false).
    { now apply existsb_false_filter. }
    rewrite Hex. reflexivity.
  - left. exists existing. split; reflexivity.
Qed.

(** X19.  When the user of the request is linked to an engineer and the
    document exists, [acknowledge_document] records the acknowledgment at
    the version the document has now: afterwards the engineer has
    acknowledged the document's current version, the acknowledgments that
    were there are unchanged, and at most one row is added (none when the
    version was acknowledged before).  When the version was acknowledged
    before, the store is unchanged; when it was not, the store differs in
    the acknowledgments and in one audit row, which [audit] appends for the
    action "engineer_acknowledge" with the engineer, the document and the
    version as entity id and the document's title as meta.  A second call
    answers "already acknowledged" and changes nothing. *)
Theorem acknowledge_document_records (rq rq' : Request)
    (users : list User.t) (document_id engineer_id : Z) (doc : Document.t)
    (s : Store) :
  linked_to rq users engineer_id ->
  linked_to rq' users engineer_id ->
  Document_get s document_id = Some doc ->
  let s1 := fst (acknowledge_document rq users document_id s) in
  acked_current s1 engineer_id doc
  /\ (document_acks s1 = document_acks s
      \/ (~ acked_current s engineer_id doc
          /\ exists ack,
               document_acks s1 = document_acks s ++ [ack]
               /\ DocumentAck.engineer_id ack = engineer_id
               /\ DocumentAck.document_id ack = document_id
               /\ DocumentAck.version ack = Document.version doc
               /\ DocumentAck.acked_at ack = utcnow rq))
  /\ (acked_current s engineer_id doc -> s1 = s)
  /\ (~ acked_current s engineer_id doc ->
      s1 = audit rq (set_document_acks s (document_acks s1))
             "engineer_acknowledge" "document_ack"
             (AckId engineer_id document_id (Document.version doc))
             [("document_title", MStr (Document.title doc))])
  /\ exists acked_at,
       acknowledge_document rq' users document_id s1
       = (s1,
          AckFlashed (AlreadyAcknowledged (Document.title doc)
                        (Document.version doc) acked_at) info).
Proof.
  intros Hlink Hlink' Hdoc s1.
  destruct (document_get_some s document_id doc Hdoc) as [Hin Hid].
  destruct (acknowledge_document_cases rq users document_id engineer_id doc s
              Hlink Hdoc)
    as [ (existing & Hfirst & Hcall) | (Hnil & Hcall) ].
  - assert (Hs1 : s1 = s) by (unfold s1; now rewrite Hcall).
    rewrite Hs1.
    destruct (first_filter_some _ _ _ _ Hfirst) as [Hex Hsame].
    apply same_ack_iff in Hsame. destruct Hsame as (He & Hd & Hv).
    assert (Hacked : acked_current s engineer_id doc)
      by (exists existing; repeat split; auto; congruence).
    split; [ exact Hacked | ].
    split; [ now left | ].
    split; [ reflexivity | ].
    split; [ intros Hnot; now destruct Hnot | ].
    exists (DocumentAck.acked_at existing).
    destruct (acknowledge_document_cases rq' users document_id engineer_id
                doc s Hlink' Hdoc)
      as [ (existing' & Hfirst' & Hcall') | (Hnil' & _) ].
    + rewrite Hfirst in Hfirst'. injection Hfirst' as <-. exact Hcall'.
    + rewrite Hnil' in Hfirst. discriminate.
  - set (ack := DocumentAck.mk
                  (next_id (map DocumentAck.id (document_acks s)))
                  engineer_id document_id (Document.version doc)
                  (utcnow rq)) in *.
    set (s2 := set_document_acks s (document_acks s ++ [ack])) in *.
    assert (Hs1 : s1 = audit rq s2 "engineer_acknowledge" "document_ack"
                         (AckId engineer_id document_id (Document.version doc))
                         [("document_title", MStr (Document.title doc))])
      by (unfold s1; now rewrite Hcall).
    assert (Hacks : document_acks s1 = document_acks s ++ [ack])
      by (rewrite Hs1; reflexivity).
    assert (Hnot : ~ acked_current s engineer_id doc).
    { intros (a & Ha & He & Hd & Hv).
      pose proof (proj1 (filter_nil_iff _ _ _) Hnil a Ha) as Hno.
      assert (Hyes : same_ack engineer_id document_id (Document.version doc)
                              a = true) by (apply same_ack_iff; intuition congruence).
      congruence. }
    split.
    { exists ack. split; [ rewrite Hacks; apply in_or_app; right; now left | ].
      simpl. auto. }
    split.
    { right. split; [ exact Hnot | ]. exists ack. simpl. auto. }
    split; [ intros Hacked; now destruct Hnot | ].
    split; [ intros _; rewrite Hacks; exact Hs1 | ].
    exists (utcnow rq).
    assert (Hdoc' : Document_get s1 document_id = Some doc)
      by (rewrite Hs1; exact Hdoc).
    destruct (acknowledge_document_cases rq' users document_id engineer_id
                doc _ Hlink' Hdoc')
      as [ (existing' & Hfirst' & Hcall') | (Hnil' & _) ].
    + rewrite Hacks in Hfirst'.
      rewrite filter_app, Hnil in Hfirst'. simpl in Hfirst'.
      assert (Hack : same_ack engineer_id document_id (Document.version doc)
                              ack = true) by (apply same_ack_iff; simpl; auto).
      rewrite Hack in Hfirst'. simpl in Hfirst'. injection Hfirst' as <-.
      exact Hcall'.
    + rewrite Hacks in Hnil'.
      rewrite filter_app, Hnil in Hnil'. simpl in Hnil'.
      assert (Hack : same_ack engineer_id document_id (Document.version doc)
                              ack = true) by (apply same_ack_iff; simpl; auto).
      rewrite Hack in Hnil'. discriminate.
Qed.

Lemma sample_linked : linked_to sample_request sample_users 1.
Proof.
  exists (User.mk 7 "ava@example.org" "hash" "engineer" true (Some 1)).
  repeat split. discriminate.
Qed.

Lemma acknowledge_document_records_witness :
  acked_current
    (fst (acknowledge_document sample_request sample_users 2 docs_store))
    1 (Document.mk 2 1 "Laser SOP" 1 true None 0)
  /\ List.length
       (audit_log
          (fst (acknowledge_document sample_request sample_users 2
                  docs_store)))
     = S (List.length (audit_log docs_store)).
Proof.
  destruct (acknowledge_document_records sample_request sample_request
              sample_users 2 1 (Document.mk 2 1 "Laser SOP" 1 true None 0)
              docs_store sample_linked sample_linked eq_refl) as [H _].
  split; [ exact H | reflexivity ].
Defined.

(** An acknowledgment can only help: what the engineer had acknowledged
    stays acknowledged. *)
Lemma acknowledge_document_acks (rq : Request) (users : list User.t)
    (document_id : Z) (s : Store) :
  let s1 := fst (acknowledge_document rq users document_id s) in
  documents s1 = documents s
  /\ exists rows, document_acks s1 = document_acks s ++ rows.
Proof.
  unfold acknowledge_document.
  assert (Hsame : documents s = documents s
                  /\ exists rows, document_acks s = document_acks s ++ rows).
  { split; [ reflexivity | ]. exists []. now rewrite app_nil_r. }
  destruct (User_get users (g_user_id rq)) as [ user | ]; [ | exact Hsame ].
  destruct (falsy (User.engineer_id user)); [ exact Hsame | ].
  destruct (User.engineer_id user) as [ e | ]; [ | exact Hsame ].
  destruct (Document_get s document_id) as [ doc | ]; [ | exact Hsame ].
  destruct (first _) as [ existing | ]; [ exact Hsame | ].
  cbv zeta. unfold insert_document_ack.
  destruct (existsb _ (document_acks s)); [ exact Hsame | ].
  simpl. split; [ reflexivity | ]. eexists. reflexivity.
Qed.

(** X20.  Acknowledging the last open document satisfies the document
    check, and no acknowledgment undoes it.  For a linked engineer and an
    existing document of a lab: after [acknowledge_document], [_has_required_acks]
    for that lab holds exactly when every other mandatory document of the
    lab was acknowledged at its current version before (the acknowledged
    document itself no longer counts against the engineer); and for every
    engineer and lab for which [_has_required_acks] held before, it holds
    after. *)
Theorem acknowledge_document_unblocks (rq : Request) (users : list User.t)
    (document_id engineer_id : Z) (doc : Document.t) (s : Store) :
  linked_to rq users engineer_id ->
  Document_get s document_id = Some doc ->
  let s1 := fst (acknowledge_document rq users document_id s) in
  (_has_required_acks s1 engineer_id (Document.lab_id doc) = true
   <-> forall d, mandatory_document s (Document.lab_id doc) d ->
                 (Document.id d = document_id
                  /\ Document.version d = Document.version doc)
                 \/ acked_current s engineer_id d)
  /\ forall e l, _has_required_acks s e l = true ->
                 _has_required_acks s1 e l = true.
Proof.
  intros Hlink Hdoc s1.
  destruct (document_get_some s document_id doc Hdoc) as [Hin Hid].
  assert (Hacked : forall e d,
    acked_current s1 e d
    <-> acked_current s e d
        \/ (e = engineer_id /\ Document.id d = document_id
            /\ Document.version d = Document.version doc)).
  { intros e d.
    destruct (acknowledge_document_cases rq users document_id engineer_id
                doc s Hlink Hdoc)
      as [ (existing & Hfirst & Hcall) | (Hnil & Hcall) ].
    - assert (Hs1 : s1 = s) by (unfold s1; now rewrite Hcall).
      rewrite Hs1.
      destruct (first_filter_some _ _ _ _ Hfirst) as [Hex Hsame].
      apply same_ack_iff in Hsame. destruct Hsame as (He & Hd & Hv).
      split; [ now left | ].
      intros [ H | (-> & Hd' & Hv') ]; [ exact H | ].
      exists existing. repeat split; auto; congruence.
    - set (ack := DocumentAck.mk
                    (next_id (map DocumentAck.id (document_acks s)))
                    engineer_id document_id
                    (Document.version doc) (utcnow rq)) in *.
      assert (Hs1 : acked_current s1 e d
                    <-> acked_current
                          (set_document_acks s (document_acks s ++ [ack]))
                          e d)
        by (unfold s1; rewrite Hcall; reflexivity).
      rewrite Hs1, acked_current_insert. simpl.
      split; (intros [ H | (H1 & H2 & H3) ]; [ now left | right ]);
        repeat split; congruence. }
  assert (Hdocs : forall l d,
            mandatory_document s1 l d <-> mandatory_document s l d).
  { intros l d. unfold mandatory_document.
    destruct (acknowledge_document_acks rq users document_id s) as [Hd _].
    fold s1 in Hd. rewrite Hd. reflexivity. }
  split.
  - rewrite has_required_acks_true_iff. split.
    + intros H d Hd. apply Hdocs in Hd. specialize (H d Hd).
      apply Hacked in H. tauto.
    + intros H d Hd. apply Hdocs in Hd. apply Hacked.
      destruct (H d Hd) as [ [H1 H2] | H' ]; auto.
  - intros e l. rewrite !has_required_acks_true_iff.
    intros H d Hd. apply Hdocs in Hd. apply Hacked. left. now apply H.
Qed.

Lemma acknowledge_document_unblocks_witness :
  _has_required_acks
    (fst (acknowledge_document sample_request sample_users 2 docs_store))
    1 1 = true.
Proof.
  destruct (acknowledge_document_unblocks sample_request sample_users 2 1
              (Document.mk 2 1 "Laser SOP" 1 true None 0) docs_store
              sample_linked eq_refl) as [[_ H] _].
  apply H. intros d (Hd & _ & _). simpl in Hd.
  destruct Hd as [ <- | [ <- | [] ] ].
  - right. exists (DocumentAck.mk 1 1 1 2 0). simpl. auto.
  - left. simpl. auto.
Defined.

(* ------------------------------------------------------------------ *)
(** ** The catalogue forms *)

Lemma or_default_cases (x : option Z) (default : Z) :
  Admin.or_default x default = default
  \/ (x = Some (Admin.or_default x default)
      /\ Admin.or_default x default <> 0).
Proof.
  unfold Admin.or_default. destruct x as [ n | ]; [ | now left ].
  destruct (Z.eqb_spec n 0); [ now left | right; auto ].
Qed.

Lemma commit_and_redirect_store (s : Store) (flashed : list Admin.Flash)
    (commit : result Store) (ok : Admin.Message)
    (dup : option Admin.Message) (P : Store -> Prop) :
  P s ->
  (forall s', commit = Ok s' -> P s') ->
  P (fst (Admin.commit_and_redirect s flashed commit ok dup)).
Proof.
  intros Hs Hok. destruct commit as [ s' | [ | | ] ]; simpl; auto.
Qed.

Lemma catalogue_ok_same (s s' : Store) :
  labs s' = labs s -> courses s' = courses s ->
  lab_requirements s' = lab_requirements s ->
  catalogue_ok s -> catalogue_ok s'.
Proof.
  unfold catalogue_ok. intros -> -> ->. auto.
Qed.

(** X21.  The catalogue forms only store numbers that the compliance
    checks can use: if every lab has non-negative grace days, every course
    a positive validity and every requirement no override or a positive
    one, the same holds after [add_lab], [add_course], [add_requirement],
    [add_completion], [add_document] and [ack_document], whatever the form
    fields and whether the form is accepted or refused. *)
Theorem admin_forms_keep_catalogue (rq : Request)
    (form_code form_name form_title form_url : string)
    (f1 f2 f3 : Admin.FormValue) (form_date : Admin.DateField)
    (file : Admin.Upload) (s : Store) :
  catalogue_ok s ->
  catalogue_ok (fst (Admin.add_lab form_code form_name f1 s))
  /\ catalogue_ok (fst (Admin.add_course form_code form_name f1 s))
  /\ catalogue_ok (fst (Admin.add_requirement f1 f2 f3 s))
  /\ catalogue_ok (fst (Admin.add_completion f1 f2 form_date file form_url s))
  /\ catalogue_ok (fst (Admin.add_document rq f1 form_title f2 f3 file s))
  /\ catalogue_ok (fst (Admin.ack_document rq f1 f2 f3 s)).
Proof.
  intros Hok. pose proof Hok as (Hlabs & Hcourses & Hreqs).
  split; [ | split; [ | split; [ | split; [ | split ] ] ] ].
  - unfold Admin.add_lab.
    destruct (Admin.and_then _ _) as [ flashed | [[code name] grace] ] eqn:E;
      [ exact Hok | ].
    destruct (Z.ltb_spec grace 0) as [ Hneg | Hpos ]; [ exact Hok | ].
    apply commit_and_redirect_store; [ exact Hok | ].
    intros s' Hs'. unfold insert_lab in Hs'.
    destruct (existsb _ (labs s)); [ discriminate | ].
    simpl in Hs'. injection Hs' as <-.
    split; [ | split ]; simpl; auto.
    intros lab Hin. apply in_app_or in Hin.
    destruct Hin as [ Hin | [ <- | [] ] ]; [ now apply Hlabs | exact Hpos ].
  - unfold Admin.add_course.
    destruct (Admin.and_then _ _) as [ flashed | [[code name] months] ] eqn:E;
      [ exact Hok | ].
    destruct (Z.leb_spec months 0) as [ Hneg | Hpos ]; [ exact Hok | ].
    apply commit_and_redirect_store; [ exact Hok | ].
    intros s' Hs'. unfold insert_course in Hs'.
    destruct (existsb _ (courses s)); [ discriminate | ].
    simpl in Hs'. injection Hs' as <-.
    split; [ | split ]; simpl; auto.
    intros c Hin. apply in_app_or in Hin.
    destruct Hin as [ Hin | [ <- | [] ] ]; [ now apply Hcourses | ].
    exists months. simpl. auto.
  - unfold Admin.add_requirement.
    destruct (Admin.and_then _ _) as [ flashed | [[lab_id course_id] v] ] eqn:E;
      [ exact Hok | ].
    destruct (match v with Some n => n <=? 0 | None => false end) eqn:Hv;
      [ exact Hok | ].
    apply commit_and_redirect_store; [ exact Hok | ].
    intros s' Hs'.
    destruct lab_id as [ lab_id | ]; [ | discriminate ].
    destruct course_id as [ course_id | ]; [ | discriminate ].
    unfold insert_lab_requirement in Hs'.
    destruct (existsb _ (lab_requirements s)); [ discriminate | ].
    simpl in Hs'. injection Hs' as <-.
    split; [ | split ]; simpl; auto.
    intros r Hin. apply in_app_or in Hin.
    destruct Hin as [ Hin | [ <- | [] ] ]; [ now apply Hreqs | ].
    simpl. destruct v as [ n | ]; [ | exact I ].
    apply Z.leb_gt in Hv. exact Hv.
  - unfold Admin.add_completion.
    destruct (Admin.and_then _ _) as [ flashed | [[e c] d] ];
      [ exact Hok | ].
    destruct file; try exact Hok;
      (apply commit_and_redirect_store; [ exact Hok | ]);
      intros s' Hs'; destruct e, c; try discriminate;
      destruct (insert_completion _ _); try discriminate;
      simpl in Hs'; injection Hs' as <-; exact Hok.
  - unfold Admin.add_document.
    destruct (Admin.and_then _ _) as [ flashed | [[[l t] v] m] ];
      [ exact Hok | ].
    destruct file; try exact Hok;
      (apply commit_and_redirect_store; [ exact Hok | ]);
      intros s' Hs'; destruct l; try discriminate;
      destruct (insert_document _ _); try discriminate;
      simpl in Hs'; injection Hs' as <-; exact Hok.
  - unfold Admin.ack_document.
    destruct (Admin.and_then _ _) as [ flashed | [[e d] v] ];
      [ exact Hok | ].
    apply commit_and_redirect_store; [ exact Hok | ].
    intros s' Hs'. destruct e, d, v; try discriminate.
    destruct (insert_document_ack _ _); try discriminate.
    simpl in Hs'. injection Hs' as <-. exact Hok.
Qed.

Lemma base_store_catalogue : catalogue_ok base_store.
Proof.
  split; [ | split ]; simpl.
  - intros lab [ <- | [] ]. simpl. lia.
  - intros c [].
  - intros r [].
Qed.

Lemma admin_forms_keep_catalogue_witness :
  catalogue_ok
    (fst (Admin.add_course "SAFE-101" "General Safety" (Admin.Number 0)
            base_store)).
Proof.
  destruct (admin_forms_keep_catalogue sample_request "SAFE-101"
              "General Safety" "" "" (Admin.Number 0) Admin.Absent
              Admin.Absent Admin.DateBlank Admin.NoFile base_store
              base_store_catalogue) as (_ & H & _).
  exact H.
Defined.


Lemma existsb_code_false (A : Type) (code : A -> string) (c : string)
    (tbl : list A) :
  existsb (fun x => String.eqb (code x) c) tbl = false
  <-> ~ In c (map code tbl).
Proof.
  induction tbl as [ | x tbl IH ]; simpl; [ tauto | ].
  rewrite orb_false_iff, IH.
  destruct (String.eqb_spec (code x) c); intuition congruence.
Qed.





(* ------------------------------------------------------------------ *)
(** ** Recording a completion *)

Section FirstDescApp.

Variable A : Type.
Variable leb : A -> A -> bool.
Hypothesis leb_total : forall a b, leb a b = false -> leb b a = true.
Hypothesis leb_trans :
  forall a b c, leb a b = true -> leb b c = true -> leb a c = true.

(** A row appended to a table is the answer of
    [order_by(key.desc()).first()] exactly when its key is greater than
    every key of the table. *)
Lemma first_desc_app_one (rows : list A) (x : A) :
  first_desc leb (rows ++ [x])
  = match first_desc leb rows with
    | None => Some x
    | Some m => if leb x m then Some m else Some x
    end.
Proof using leb_total leb_trans.
  induction rows as [ | a rows IH ]; [ reflexivity | ].
  simpl. rewrite IH.
  destruct (first_desc leb rows) as [ m | ].
  - destruct (leb x m) eqn:Hxm, (leb m a) eqn:Hma.
    + rewrite (leb_trans x m a Hxm Hma). reflexivity.
    + rewrite Hxm. reflexivity.
    + reflexivity.
    + rewrite Hxm.
      destruct (leb x a) eqn:Hxa; [ | reflexivity ].
      apply leb_total in Hma. rewrite (leb_trans x a m Hxa Hma) in Hxm.
      discriminate.
  - reflexivity.
Qed.

End FirstDescApp.

Lemma latest_completion_insert (s : Store) (new : Completion.t)
    (e c : Z) :
  _latest_completion (set_completions s (completions s ++ [new])) e c
  = if (Completion.engineer_id new =? e) && (Completion.course_id new =? c)
    then match _latest_completion s e c with
         | None => Some new
         | Some old =>
             if Date.leb (Completion.date_taken new)
                         (Completion.date_taken old)
             then Some old else Some new
         end
    else _latest_completion s e c.
Proof.
  unfold _latest_completion. simpl completions. rewrite filter_app. simpl.
  destruct ((Completion.engineer_id new =? e)
            && (Completion.course_id new =? c)).
  - apply first_desc_app_one.
    + intros a b. apply date_leb_total.
    + intros a b c0. apply date_leb_trans.
  - rewrite app_nil_r. reflexivity.
Qed.




(** [_add_months] on a date of the calendar: a date when the resulting year
    is one of the calendar, and otherwise the error of the date
    constructor. *)
Lemma add_months_result (d : Date.t) (months : Z) :
  Date.valid d = true ->
  let y := Date.year d + (Date.month d - 1 + months) / 12 in
  (Date.MINYEAR <= y <= Date.MAXYEAR
   /\ exists r, _add_months d months = Ok r)
  \/ (~ Date.MINYEAR <= y <= Date.MAXYEAR
      /\ _add_months d months
         = Raise (if Date.fits_c_int y then ValueError else OverflowError)).
Proof.
  intros Hd y.
  set (m := (Date.month d - 1 + months) mod 12 + 1).
  apply valid_iff in Hd. destruct Hd as (Hy & Hm & Hday).
  pose proof (Z.mod_pos_bound (Date.month d - 1 + months) 12 ltac:(lia))
    as Hmod.
  pose proof (days_in_month_ge_28 y m) as H28.
  rewrite add_months_unfold. fold y; fold m.
  destruct (Z_le_dec Date.MINYEAR y) as [ Hlo | Hlo ];
    [ destruct (Z_le_dec y Date.MAXYEAR) as [ Hhi | Hhi ] | ].
  - left. split; [ lia | ]. eexists. apply date_ok.
    apply valid_iff; simpl. subst m; lia.
  - right. split; [ lia | ].
    destruct (Date.fits_c_int y) eqn:Hfit; [ | now apply date_overflows ].
    apply date_raises; [ exact Hfit | | | ].
    + apply fits_c_int_small. subst m. lia.
    + apply fits_c_int_small.
      assert (Date.days_in_month (Date.year d) (Date.month d) <= 31).
      { unfold Date.days_in_month.
        destruct (Date.month d =? 2);
          [ destruct (Date.is_leap (Date.year d)); lia | ].
        destruct ((Date.month d =? 4) || (Date.month d =? 6)
                  || (Date.month d =? 9) || (Date.month d =? 11)); lia. }
      lia.
    + destruct (Date.valid
                  (Date.mk y m (Z.min (Date.day d)
                                      (Date.days_in_month y m))))
        eqn:E; [ | reflexivity ].
      apply valid_iff in E; simpl in E. lia.
  - right. split; [ lia | ].
    destruct (Date.fits_c_int y) eqn:Hfit; [ | now apply date_overflows ].
    apply date_raises; [ exact Hfit | | | ].
    + apply fits_c_int_small. subst m. lia.
    + apply fits_c_int_small.
      assert (Date.days_in_month (Date.year d) (Date.month d) <= 31).
      { unfold Date.days_in_month.
        destruct (Date.month d =? 2);
          [ destruct (Date.is_leap (Date.year d)); lia | ].
        destruct ((Date.month d =? 4) || (Date.month d =? 6)
                  || (Date.month d =? 9) || (Date.month d =? 11)); lia. }
      lia.
    + destruct (Date.valid
                  (Date.mk y m (Z.min (Date.day d)
                                      (Date.days_in_month y m))))
        eqn:E; [ | reflexivity ].
      apply valid_iff in E; simpl in E. lia.
Qed.

(** When a positive number of months can be added to one date of the
    calendar, adding it to another either gives a date or leaves the
    calendar at its upper end, where the date constructor raises
    [ValueError]. *)
Lemma add_months_raises (a b due : Date.t) (months : Z) (e : exn) :
  Date.valid a = true -> Date.valid b = true -> 0 < months ->
  _add_months a months = Ok due ->
  _add_months b months = Raise e ->
  e = ValueError
  /\ Date.MAXYEAR
     < Date.year b + (Date.month b - 1 + months) / 12.
Proof.
  intros Ha Hb Hpos Hdue Hraise.
  destruct (add_months_result a months Ha) as [ [Hya _] | [_ Hra] ];
    [ | congruence ].
  destruct (add_months_result b months Hb) as [ [_ [r Hr]] | [Hyb Hrb] ];
    [ congruence | ].
  apply valid_iff in Ha. destruct Ha as (Hay & Ham & _).
  apply valid_iff in Hb. destruct Hb as (Hby & Hbm & _).
  unfold Date.MINYEAR, Date.MAXYEAR in *.
  pose proof (Z.div_mod (Date.month a - 1 + months) 12 ltac:(lia)) as Hda.
  pose proof (Z.mod_pos_bound (Date.month a - 1 + months) 12 ltac:(lia))
    as Hma.
  pose proof (Z.div_mod (Date.month b - 1 + months) 12 ltac:(lia)) as Hdb.
  pose proof (Z.mod_pos_bound (Date.month b - 1 + months) 12 ltac:(lia))
    as Hmb.
  assert (Hfit : Date.fits_c_int
                   (Date.year b + (Date.month b - 1 + months) / 12) = true).
  { apply fits_c_int_iff. lia. }
  rewrite Hfit in Hrb. split; [ congruence | lia ].
Qed.

(** The store after any [add_completion]: as before, or with one more
    completion. *)
Lemma add_completion_store (f1 f2 : Admin.FormValue) (fd : Admin.DateField)
    (file : Admin.Upload) (url : string) (s : Store) :
  fst (Admin.add_completion f1 f2 fd file url s) = s
  \/ exists new d,
       fd = Admin.DateValue d
       /\ Completion.date_taken new = d
       /\ fst (Admin.add_completion f1 f2 fd file url s)
          = set_completions s (completions s ++ [new]).
Proof.
  unfold Admin.add_completion.
  destruct f1 as [ | | | e ]; cbn [Admin._to_int Admin.and_then]; auto.
  destruct f2 as [ | | | c ]; cbn [Admin._to_int Admin.and_then]; auto.
  destruct fd as [ | | d ]; cbn [Admin.and_then]; auto.
  destruct file; auto; unfold insert_completion;
    destruct (existsb _ (completions s)); auto;
    right; eexists; exists d; (split; [ reflexivity | ]);
    (split; [ | simpl; reflexivity ]); reflexivity.
Qed.

(** X25.  Recording a completion never makes training lapse.  When the
    dates of the stored completions and of the form are dates of the
    calendar and [_is_training_current] returned [True], then after any
    [add_completion] it returns [True] again for the same arguments, or it
    raises [ValueError]; and it raises only when the form appended a
    completion, that completion is now the latest of the engineer for the
    course, and the year of its due date (under the months in force: the
    override, else the course's) lies after the year 9999. *)
Theorem add_completion_keeps_current (f1 f2 : Admin.FormValue)
    (fd : Admin.DateField) (file : Admin.Upload) (url : string) (s : Store)
    (engineer_id : Z) (course : Course.t) (override_months : option Z)
    (grace_days : Z) (asof : Date.t) :
  (forall x, In x (completions s) ->
             Date.valid (Completion.date_taken x) = true) ->
  match fd with
  | Admin.DateValue d => Date.valid d = true
  | _ => True
  end ->
  _is_training_current s engineer_id course override_months grace_days asof
  = Ok true ->
  let s1 := fst (Admin.add_completion f1 f2 fd file url s) in
  _is_training_current s1 engineer_id course override_months grace_days asof
  = Ok true
  \/ exists new months,
       s1 = set_completions s (completions s ++ [new])
       /\ _latest_completion s1 engineer_id (Course.id course) = Some new
       /\ match override_months with
          | Some m => Some m
          | None => Course.valid_months course
          end = Some months
       /\ Date.MAXYEAR
          < Date.year (Completion.date_taken new)
            + (Date.month (Completion.date_taken new) - 1 + months) / 12
       /\ _is_training_current s1 engineer_id course override_months
            grace_days asof = Raise ValueError.
Proof.
  intros Hvalid Hfd Hcur s1.
  destruct (add_completion_store f1 f2 fd file url s)
    as [ Hs | (new & d & -> & Hd & Hs) ]; unfold s1; rewrite Hs;
    [ now left | ].
  unfold _is_training_current in *.
  destruct (match override_months with
            | Some m => Some m
            | None => Course.valid_months course
            end) as [ months | ]; [ | discriminate ].
  destruct ((months =? 0) || (months <=? 0)) eqn:Hpos; [ discriminate | ].
  apply orb_false_iff in Hpos. destruct Hpos as [_ Hpos].
  apply Z.leb_gt in Hpos.
  rewrite latest_completion_insert.
  destruct (_latest_completion s engineer_id (Course.id course))
    as [ old | ] eqn:Hold; [ | discriminate ].
  destruct ((Completion.engineer_id new =? engineer_id)
            && (Completion.course_id new =? Course.id course));
    [ | now left ].
  destruct (Date.leb (Completion.date_taken new) (Completion.date_taken old))
    eqn:Hle; [ now left | ].
  apply date_leb_total in Hle.
  apply latest_completion_some in Hold. destruct Hold as (Hin & _).
  specialize (Hvalid old Hin).
  assert (Hnew : Date.valid (Completion.date_taken new) = true)
    by (rewrite Hd; exact Hfd).
  destruct (_add_months (Completion.date_taken old) months) as [ due | ]
    eqn:Hdue; cbn [bind] in Hcur; [ | discriminate ].
  destruct (_add_months (Completion.date_taken new) months) as [ due' | err ]
    eqn:Hdue'; cbn [bind].
  - left. f_equal. injection Hcur as Hcur.
    apply Z.leb_le in Hcur. apply Z.leb_le.
    assert (Hmono : Date.leb due due' = true).
    { apply (add_months_date_mono (Completion.date_taken old)
               (Completion.date_taken new) due due' months); auto. }
    apply (toordinal_le_iff due due') in Hmono;
      [ lia | | ]; eapply add_months_valid; eassumption.
  - destruct (add_months_raises _ _ _ _ _ Hvalid Hnew Hpos Hdue Hdue')
      as [-> Hyear].
    right. exists new, months. repeat split; auto.
Qed.

(** A completion of 1 May 2024 for a course whose training was current:
    it stays current.  And a completion of December 9999 under a validity
    of 12 months: the earlier completion kept the training current, the
    later one makes the check raise. *)
Lemma add_completion_keeps_current_witness :
  _is_training_current
    (fst (Admin.add_completion (Admin.Number 1) (Admin.Number 1)
            (Admin.DateValue (Date.mk 2024 5 1)) Admin.NoFile ""
            sample_store))
    1 sample_course None 7 (Date.mk 2024 6 1) = Ok true
  /\ _is_training_current
       (fst (Admin.add_completion (Admin.Number 1) (Admin.Number 1)
               (Admin.DateValue (Date.mk 9999 12 1)) Admin.NoFile ""
               sample_store))
       1 sample_course None 7 (Date.mk 2024 6 1) = Raise ValueError.
Proof.
  split.
  - destruct (add_completion_keeps_current (Admin.Number 1) (Admin.Number 1)
                (Admin.DateValue (Date.mk 2024 5 1)) Admin.NoFile ""
                sample_store 1 sample_course None 7 (Date.mk 2024 6 1))
      as [ H | (new & months & _ & _ & _ & _ & H) ].
    + intros x [ <- | [] ]. reflexivity.
    + reflexivity.
    + reflexivity.
    + exact H.
    + discriminate H.
  - destruct (add_completion_keeps_current (Admin.Number 1) (Admin.Number 1)
                (Admin.DateValue (Date.mk 9999 12 1)) Admin.NoFile ""
                sample_store 1 sample_course None 7 (Date.mk 2024 6 1))
      as [ H | (new & months & _ & _ & _ & _ & H) ].
    + intros x [ <- | [] ]. reflexivity.
    + reflexivity.
    + reflexivity.
    + discriminate H.
    + exact H.
Defined.

(* ------------------------------------------------------------------ *)
(** ** New documents and acknowledgments by the admin *)

Lemma bool_eq_iff (a b : bool) : (a = true <-> b = true) -> a = b.
Proof. destruct a, b; intuition congruence. Qed.


(** The store after any [add_document]: as before, or with one more
    document, whose fields are those of the form. *)
Lemma add_document_store (rq : Request) (f_lab : Admin.FormValue)
    (title : string) (f_version f_mandatory : Admin.FormValue)
    (file : Admin.Upload) (s : Store) :
  let out := Admin.add_document rq f_lab title f_version f_mandatory file s in
  (fst out = s
   /\ forall flashed,
        snd out
        <> Admin.Redirected (flashed ++ [(Admin.DocumentAdded, success)]))
  \/ exists lab_id new,
       f_lab = Admin.Number lab_id
       /\ fst out = set_documents s (documents s ++ [new])
       /\ Document.id new = next_id (map Document.id (documents s))
       /\ Document.lab_id new = lab_id
       /\ Document.title new = title
       /\ Document.version new
          = Admin.or_default
              (match f_version with
               | Admin.Number n => Some n
               | _ => None
               end) 1
       /\ Document.mandatory new
          = match f_mandatory with
            | Admin.Number n => negb (n =? 0)
            | _ => true
            end.
Proof.
  assert (Hlast : forall (flashed l : list Admin.Flash) (x : Admin.Flash),
            x <> (Admin.DocumentAdded, success) ->
            Admin.Redirected (l ++ [x])
            <> Admin.Redirected
                 (flashed ++ [(Admin.DocumentAdded, success)])).
  { intros flashed l x Hx [= H]. apply app_inj_tail in H. tauto. }
  assert (Hone : forall (flashed : list Admin.Flash) (x : Admin.Flash),
            x <> (Admin.DocumentAdded, success) ->
            Admin.Redirected [x]
            <> Admin.Redirected
                 (flashed ++ [(Admin.DocumentAdded, success)])).
  { intros flashed x Hx. apply (Hlast flashed [] x Hx). }
  assert (Hnil : forall flashed : list Admin.Flash,
            @Admin.Redirected []
            <> Admin.Redirected
                 (flashed ++ [(Admin.DocumentAdded, success)])).
  { intros flashed [= H]. symmetry in H. apply app_eq_nil in H.
    destruct H as [_ H]. discriminate. }
  cbv zeta. unfold Admin.add_document.
  destruct f_lab as [ | | | lab_id ]; cbn [Admin._to_int Admin.and_then];
    try (left; split; [ reflexivity | intros; apply Hone; discriminate ]).
  unfold Admin._required_str.
  destruct (String.eqb title ""); cbn [Admin.and_then];
    [ left; split; [ reflexivity | intros; apply Hone; discriminate ] | ].
  destruct f_version as [ | | | v ];
    cbn [Admin.form_get Admin._to_int Admin.and_then];
    try (left; split; [ reflexivity | intros; apply Hone; discriminate ]);
    (destruct f_mandatory as [ | | | m ]; cbn [Admin.and_then];
     try (left; split; [ reflexivity | intros; apply Hnil ]);
     (destruct file;
      try (left; split; [ reflexivity | discriminate ]);
      unfold insert_document;
      (destruct (existsb _ (documents s));
       [ left; split;
         [ reflexivity
         | intros; first [ apply Hone | apply Hlast ]; discriminate ]
       | right; exists lab_id; eexists;
         split; [ reflexivity | ];
         split; [ reflexivity | ];
         cbn; repeat split ]))).
Qed.

(** X26.  A new document counts at once.  When [add_document] is accepted
    ("Document added."), one document is appended under a fresh id, with
    the lab, title and flags of the form and version 1 when the version
    field is absent, empty or 0.  If every acknowledgment refers to a
    stored document: when the new document is mandatory, [_has_required_acks]
    is false for its lab for every engineer until the document is
    acknowledged; when it is not mandatory, [_has_required_acks] answers
    for every engineer and lab as before. *)
Theorem add_document_blocks (rq : Request) (f_lab : Admin.FormValue)
    (title : string) (f_version f_mandatory : Admin.FormValue)
    (file : Admin.Upload) (s : Store) (flashed : list Admin.Flash) :
  acks_refer_to_documents s ->
  let out := Admin.add_document rq f_lab title f_version f_mandatory file s in
  snd out = Admin.Redirected (flashed ++ [(Admin.DocumentAdded, success)]) ->
  exists new,
    fst out = set_documents s (documents s ++ [new])
    /\ f_lab = Admin.Number (Document.lab_id new)
    /\ (forall d, In d (documents s) -> Document.id d < Document.id new)
    /\ Document.version new
       = match f_version with
         | Admin.Number n => if n =? 0 then 1 else n
         | _ => 1
         end
    /\ if Document.mandatory new
       then forall e, _has_required_acks (fst out) e (Document.lab_id new)
                      = false
       else forall e l, _has_required_acks (fst out) e l
                        = _has_required_acks s e l.
Proof.
  intros Hrefs out Hresp.
  destruct (add_document_store rq f_lab title f_version f_mandatory file s)
    as [ [_ Hno] | (lab_id & new & Hlab & Hs & Hid & Hl & Ht & Hv & Hm) ].
  { destruct (Hno flashed). exact Hresp. }
  fold out in Hs.
  assert (Hfresh : forall d, In d (documents s) ->
                             Document.id d < Document.id new).
  { intros d Hd. rewrite Hid. apply next_id_fresh. now apply in_map. }
  exists new. split; [ exact Hs | ].
  split; [ now rewrite Hl | ]. split; [ exact Hfresh | ].
  split.
  { rewrite Hv. destruct f_version; reflexivity. }
  rewrite Hs.
  destruct (Document.mandatory new) eqn:Hmand.
  - intros e.
    destruct (_has_required_acks _ e (Document.lab_id new)) eqn:Hacks;
      [ | reflexivity ].
    exfalso.
    pose proof (proj1 (has_required_acks_true_iff _ _ _) Hacks new) as H.
    destruct H as (a & Ha & _ & Hdoc & _).
    { split; [ simpl; apply in_or_app; right; now left | auto ]. }
    simpl in Ha. destruct (Hrefs a Ha) as (d & Hd & Hdid).
    specialize (Hfresh d Hd). lia.
  - intros e l. apply bool_eq_iff.
    rewrite !has_required_acks_true_iff.
    assert (Hdoc : forall d,
              mandatory_document (set_documents s (documents s ++ [new])) l d
              <-> mandatory_document s l d).
    { intros d. unfold mandatory_document. simpl. rewrite in_app_iff. simpl.
      split; [ | tauto ].
      intros ([ Hd | [ <- | [] ] ] & Hlab' & Hm'); [ tauto | congruence ]. }
    split; intros H d Hd; apply Hdoc in Hd; apply (H d Hd).
Qed.

Lemma add_document_blocks_witness :
  exists new,
    fst (Admin.add_document sample_request (Admin.Number 1) "Laser SOP"
           Admin.Absent Admin.Absent Admin.NoFile sample_store)
    = set_documents sample_store (documents sample_store ++ [new])
    /\ _has_required_acks
         (fst (Admin.add_document sample_request (Admin.Number 1) "Laser SOP"
                 Admin.Absent Admin.Absent Admin.NoFile sample_store))
         1 1 = false.
Proof.
  assert (Hrefs : acks_refer_to_documents sample_store).
  { intros a Ha. exists (Document.mk 1 1 "Safety Manual" 2 true None 0).
    simpl in Ha. destruct Ha as [ <- | [ <- | [] ] ]; simpl; auto. }
  destruct (add_document_blocks sample_request (Admin.Number 1) "Laser SOP"
              Admin.Absent Admin.Absent Admin.NoFile sample_store []
              Hrefs eq_refl)
    as (new & Hs & Hlab & _ & _ & Hm).
  exists new. split; [ exact Hs | ].
  injection Hlab as Hlab.
  rewrite Hs in Hm |- *.
  apply (f_equal documents) in Hs. simpl in Hs.
  injection Hs as Hnew. subst new. simpl in Hm. apply Hm.
Defined.


(* ------------------------------------------------------------------ *)
(** ** The latest completion on the manager's dashboard *)

Lemma key_eqb_eq (a b : Z * Z) : key_eqb a b = true <-> a = b.
Proof.
  destruct a, b. unfold key_eqb. simpl.
  rewrite andb_true_iff, !Z.eqb_eq. split; [ intros []; congruence | ].
  intros [= -> ->]. auto.
Qed.

Lemma key_eqb_refl (a : Z * Z) : key_eqb a a = true.
Proof. now apply key_eqb_eq. Qed.

Lemma key_eqb_neq (a b : Z * Z) : a <> b -> key_eqb a b = false.
Proof.
  intros H. destruct (key_eqb a b) eqn:E; [ | reflexivity ].
  apply key_eqb_eq in E. contradiction.
Qed.

Lemma dict_get_set_same (V : Type) (key : Z * Z) (v : V)
    (d : list (Z * Z * V)) :
  dict_get key (dict_set key v d) = Some v.
Proof.
  induction d as [ | [k old] rest IH ]; simpl.
  - now rewrite key_eqb_refl.
  - destruct (key_eqb k key) eqn:E; simpl; rewrite E; auto.
Qed.

Lemma dict_get_set_other (V : Type) (key key' : Z * Z) (v : V)
    (d : list (Z * Z * V)) :
  key' <> key ->
  dict_get key (dict_set key' v d) = dict_get key d.
Proof.
  intros Hne. induction d as [ | [k old] rest IH ]; simpl.
  - now rewrite (key_eqb_neq _ _ Hne).
  - destruct (key_eqb k key') eqn:E; simpl.
    + apply key_eqb_eq in E. subst k.
      rewrite (key_eqb_neq _ _ Hne). reflexivity.
    + rewrite IH. reflexivity.
Qed.

Lemma latest_comps_key (key : Z * Z) (l : list Completion.t) :
  forall d : list (Z * Z * Completion.t),
    dict_get key
      (fold_left
         (fun latest comp =>
            let key := completion_key comp in
            match dict_get key latest with
            | None => dict_set key comp latest
            | Some cur =>
                if negb (Date.leb (Completion.date_taken comp)
                                  (Completion.date_taken cur))
                then dict_set key comp latest
                else latest
            end) l d)
    = fold_left later_of
        (filter (fun c => key_eqb (completion_key c) key) l)
        (dict_get key d).
Proof.
  induction l as [ | c l IH ]; intros d; [ reflexivity | ].
  cbn [fold_left filter]. rewrite IH. cbv zeta.
  destruct (key_eqb (completion_key c) key) eqn:E.
  - apply key_eqb_eq in E. subst key. cbn [fold_left]. f_equal.
    unfold later_of.
    destruct (dict_get (completion_key c) d) as [ cur | ] eqn:Hcur.
    + destruct (Date.leb (Completion.date_taken c)
                         (Completion.date_taken cur)); simpl.
      * exact Hcur.
      * apply dict_get_set_same.
    + apply dict_get_set_same.
  - f_equal.
    assert (Hne : completion_key c <> key).
    { intros H. apply key_eqb_eq in H. congruence. }
    destruct (dict_get (completion_key c) d) as [ cur | ].
    + destruct (negb _); [ now apply dict_get_set_other | reflexivity ].
    + now apply dict_get_set_other.
Qed.

Lemma fold_later_of (l : list Completion.t) :
  fold_left later_of l None
  = first_desc
      (fun a b => Date.leb (Completion.date_taken a) (Completion.date_taken b))
      l.
Proof.
  induction l as [ | x l IH ] using rev_ind; [ reflexivity | ].
  rewrite fold_left_app. cbn [fold_left]. rewrite IH.
  rewrite first_desc_app_one.
  - reflexivity.
  - intros a b. apply date_leb_total.
  - intros a b c. apply date_leb_trans.
Qed.

(** X28.  The manager's dashboard and the compliance check agree on the
    latest completion: for every engineer and course, the entry of
    [latest_comps] after the loop over all completions is the completion
    that [_latest_completion] returns, and there is no entry exactly when
    the engineer has no completion of the course. *)
Theorem latest_comps_agrees (s : Store) (engineer_id course_id : Z) :
  dict_get (engineer_id, course_id) (latest_comps (completions s))
  = _latest_completion s engineer_id course_id.
Proof.
  unfold latest_comps. rewrite latest_comps_key. cbn [dict_get].
  rewrite fold_later_of. unfold _latest_completion. reflexivity.
Qed.

(* ------------------------------------------------------------------ *)
(** ** The due dates of the home page *)

Section OrderBy.

Variable A : Type.
Variable leb : A -> A -> bool.
Hypothesis leb_total : forall a b, leb a b = false -> leb b a = true.
Hypothesis leb_trans :
  forall a b c, leb a b = true -> leb b c = true -> leb a c = true.

Lemma insert_by_in (x y : A) (l : list A) :
  In y (insert_by leb x l) <-> y = x \/ In y l.
Proof.
  induction l as [ | z l IH ]; simpl; [ intuition | ].
  destruct (leb x z); simpl; [ intuition | ]. rewrite IH. intuition.
Qed.

Lemma order_by_in (y : A) (l : list A) : In y (order_by leb l) <-> In y l.
Proof.
  induction l as [ | x l IH ]; simpl; [ tauto | ].
  rewrite insert_by_in, IH. intuition.
Qed.

Lemma insert_by_sorted (x : A) (l : list A) :
  sorted_by leb l -> sorted_by leb (insert_by leb x l).
Proof using leb_total leb_trans.
  induction l as [ | z l IH ]; simpl.
  - intros _. split; [ intros y [] | exact I ].
  - intros [Hz Hl]. destruct (leb x z) eqn:E; simpl.
    + split; [ | auto ].
      intros y [ <- | Hy ]; [ exact E | ].
      apply (leb_trans x z y E). now apply Hz.
    + split; [ | now apply IH ].
      intros y Hy. apply insert_by_in in Hy.
      destruct Hy as [ -> | Hy ]; [ now apply leb_total | now apply Hz ].
Qed.

Lemma order_by_sorted (l : list A) : sorted_by leb (order_by leb l).
Proof using leb_total leb_trans.
  induction l as [ | x l IH ]; simpl;
    [ exact I | now apply insert_by_sorted ].
Qed.

Lemma find_app_cases (p : A -> bool) (l1 l2 : list A) :
  find p (l1 ++ l2)
  = match find p l1 with
    | Some x => Some x
    | None => find p l2
    end.
Proof.
  induction l1 as [ | x l1 IH ]; simpl; [ reflexivity | ].
  destruct (p x); auto.
Qed.

(** The last row of a sorted list that satisfies [p] is above every row
    that satisfies [p]. *)
Lemma find_last_sorted (p : A -> bool) (l : list A) :
  (forall a, leb a a = true) ->
  sorted_by leb l ->
  forall x,
    find p (rev l) = Some x ->
    In x l /\ p x = true
    /\ forall y, In y l -> p y = true -> leb y x = true.
Proof.
  intros Hrefl.
  induction l as [ | z l IH ]; simpl; [ discriminate | ].
  intros [Hz Hl] x.
  rewrite find_app_cases.
  destruct (find p (rev l)) as [ x' | ] eqn:Hfind.
  - intros [= <-]. destruct (IH Hl x' eq_refl) as (Hin & Hp & Hall).
    split; [ now right | ]. split; [ exact Hp | ].
    intros y [ <- | Hy ] Hpy; [ now apply Hz | now apply Hall ].
  - simpl. destruct (p z) eqn:Hpz; [ | discriminate ].
    intros [= <-]. split; [ now left | ]. split; [ exact Hpz | ].
    intros y [ <- | Hy ] Hpy; [ apply Hrefl | ].
    pose proof (find_none _ _ Hfind y) as Hno.
    rewrite Hno in Hpy; [ discriminate | ].
    apply in_rev. now rewrite rev_involutive.
Qed.

End OrderBy.

Lemma due_map_loop_last (rq : Request) (s : Store) (key : Z * Z)
    (l : list Completion.t) :
  forall d dm,
    due_map_loop rq s l d = Ok dm ->
    match find (fun c => key_eqb (completion_key c) key) (rev l) with
    | Some x => exists entry,
                  due_entry rq s x = Ok entry /\ dict_get key dm = Some entry
    | None => dict_get key dm = dict_get key d
    end.
Proof.
  induction l as [ | c l IH ]; intros d dm; simpl.
  - now intros [= <-].
  - destruct (due_entry rq s c) as [ entry | err ] eqn:Hentry;
      cbn [bind]; [ | discriminate ].
    intros Hloop. specialize (IH _ _ Hloop).
    rewrite find_app_cases.
    destruct (find _ (rev l)) as [ x | ]; [ exact IH | ].
    simpl. rewrite IH.
    destruct (key_eqb (completion_key c) key) eqn:E.
    + apply key_eqb_eq in E. subst key.
      exists entry. split; [ exact Hentry | apply dict_get_set_same ].
    + apply dict_get_set_other. intros H. apply key_eqb_eq in H. congruence.
Qed.

Lemma date_leb_refl (d : Date.t) : Date.leb d d = true.
Proof. apply date_leb_iff. right. split; [ reflexivity | right ]. split; [ reflexivity | lia ]. Qed.

(** The copy of [_add_months] in [routes/views.py] computes what the one of
    [routes/manager.py] computes. *)
Lemma views_add_months_eq (d : Date.t) (months : Z) :
  views_add_months d months = _add_months d months.
Proof. reflexivity. Qed.

(** X29.  The home page computes its due dates from the earliest
    completion, not the latest.  When [home()] builds its [due_map], the
    entry of an engineer and a course is the one computed from a
    completion of theirs that no other precedes (so a renewed training
    still shows the due date of the first completion, whereas
    [_is_training_current] uses the latest); the map has no entry exactly
    when the engineer has no completion of the course. *)
Theorem home_due_map_earliest (rq : Request) (s : Store)
    (due_map : list (Z * Z * DueEntry.t)) (engineer_id course_id : Z) :
  home_due_map rq s = Ok due_map ->
  match dict_get (engineer_id, course_id) due_map with
  | None =>
      forall x, In x (completions s) ->
                completion_key x <> (engineer_id, course_id)
  | Some entry =>
      exists x,
        In x (completions s)
        /\ completion_key x = (engineer_id, course_id)
        /\ (forall y, In y (completions s) ->
                      completion_key y = (engineer_id, course_id) ->
                      Date.leb (Completion.date_taken x)
                               (Completion.date_taken y) = true)
        /\ due_entry rq s x = Ok entry
  end.
Proof.
  intros Hmap. unfold home_due_map in Hmap.
  pose proof (due_map_loop_last rq s (engineer_id, course_id) _ _ _ Hmap)
    as Hlast.
  set (desc := fun a b : Completion.t =>
                 Date.leb (Completion.date_taken b) (Completion.date_taken a))
    in *.
  assert (Htotal : forall a b, desc a b = false -> desc b a = true).
  { intros a b. apply date_leb_total. }
  assert (Htrans : forall a b c,
            desc a b = true -> desc b c = true -> desc a c = true).
  { intros a b c H1 H2. unfold desc in *. eapply date_leb_trans; eauto. }
  unfold completions_all in Hlast. fold desc in Hlast.
  destruct (find _ (rev (order_by desc (completions s)))) as [ x | ]
    eqn:Hfind.
  - destruct Hlast as (entry & Hentry & ->).
    destruct (find_last_sorted _ desc _ _ (fun a => date_leb_refl _)
                (order_by_sorted _ desc Htotal Htrans (completions s))
                x Hfind)
      as (Hin & Hkey & Hall).
    exists x. split; [ exact (proj1 (order_by_in _ desc x _) Hin) | ].
    split; [ now apply key_eqb_eq | ]. split; [ | exact Hentry ].
    intros y Hy Hky. apply (Hall y).
    + exact (proj2 (order_by_in _ desc y _) Hy).
    + now apply key_eqb_eq.
  - rewrite Hlast. simpl. intros x Hx Hkey.
    assert (Hrev : In x (rev (order_by desc (completions s)))).
    { apply in_rev. rewrite rev_involutive.
      exact (proj2 (order_by_in _ desc x _) Hx). }
    pose proof (find_none _ _ Hfind x Hrev) as Hno. cbv beta in Hno.
    rewrite (proj2 (key_eqb_eq _ _) Hkey) in Hno. discriminate.
Qed.

(** After a renewal on 2024-05-01 the home page still shows the due date
    of the completion of 2023-06-01. *)
Lemma home_due_map_earliest_witness :
  exists x,
    In x (completions renewed_store)
    /\ completion_key x = (1, 1)
    /\ (forall y, In y (completions renewed_store) ->
                  completion_key y = (1, 1) ->
                  Date.leb (Completion.date_taken x)
                           (Completion.date_taken y) = true)
    /\ due_entry sample_request renewed_store x
       = Ok (DueEntry.mk (Some (Date.mk 2024 6 1)) (Some 0)).
Proof.
  exact (home_due_map_earliest sample_request renewed_store
           [((1, 1), DueEntry.mk (Some (Date.mk 2024 6 1)) (Some 0))]
           1 1 eq_refl).
Defined.

(* ------------------------------------------------------------------ *)
(** ** The issues listed on the manager's dashboard *)

Lemma dict_by_id_get (A : Type) (id : A -> Z) (rows : list A) (k : Z) :
  NoDup (map id rows) ->
  dict_by_id id rows k = find (fun r => id r =? k) rows.
Proof.
  intros Hnd. unfold dict_by_id.
  destruct (find (fun r => id r =? k) rows) as [ x | ] eqn:Hx.
  - destruct (find (fun r => id r =? k) (rev rows)) as [ y | ] eqn:Hy.
    + apply find_some in Hx, Hy. destruct Hx as [Hx Hkx], Hy as [Hy Hky].
      apply in_rev in Hy. apply Z.eqb_eq in Hkx, Hky.
      f_equal. apply (pk_inj A id rows y x Hnd Hy Hx). congruence.
    + apply find_some in Hx. destruct Hx as [Hx Hkx].
      pose proof (find_none _ _ Hy x) as Hno. cbv beta in Hno.
      rewrite Hkx in Hno. discriminate Hno. now apply in_rev in Hx.
  - destruct (find (fun r => id r =? k) (rev rows)) as [ y | ] eqn:Hy;
      [ | reflexivity ].
    apply find_some in Hy. destruct Hy as [Hy Hky]. apply in_rev in Hy.
    pose proof (find_none _ _ Hx y Hy) as Hno. cbv beta in Hno.
    rewrite Hky in Hno. discriminate.
Qed.

Lemma training_issues_found (s : Store) (engineer_id : Z) (lab : Lab.t)
    (today : Date.t) (reqs : list LabRequirement.t) (issues : list string) :
  NoDup (map Course.id (courses s)) ->
  (forall r, In r reqs -> ~ dangling s r) ->
  reqs_loop s engineer_id lab today reqs = Ok false ->
  training_issues s engineer_id lab today reqs = Ok issues ->
  issues <> [].
Proof.
  intros Hnd. revert issues.
  induction reqs as [ | r rest IH ]; intros issues Hres; simpl;
    [ discriminate | ].
  rewrite (dict_by_id_get _ Course.id (courses s) _ Hnd).
  fold (Course_get s (LabRequirement.course_id r)).
  destruct (Course_get s (LabRequirement.course_id r)) as [ course | ] eqn:Hc.
  - destruct (_is_training_current s engineer_id course
                (LabRequirement.valid_months r) (Lab.grace_days lab) today)
      as [ [ | ] | err ]; cbn [bind negb]; try discriminate.
    + intros Hloop.
      destruct (training_issues s engineer_id lab today rest)
        as [ rest_issues | err ] eqn:Hrest; cbn [bind]; [ | discriminate ].
      intros [= <-]. apply (IH rest_issues); auto.
      intros r' Hr'. apply Hres. now right.
    + intros _.
      destruct (training_issues s engineer_id lab today rest)
        as [ rest_issues | err ]; cbn [bind]; [ | discriminate ].
      intros [= <-]. discriminate.
  - destruct (Hres r (or_introl eq_refl)). exact Hc.
Qed.

Lemma doc_issues_found (s : Store) (engineer_id : Z)
    (docs : list Document.t) :
  acks_loop s engineer_id docs = false ->
  doc_issues s engineer_id docs <> [].
Proof.
  induction docs as [ | d rest IH ]; simpl; [ discriminate | ].
  destruct (first _); [ exact IH | discriminate ].
Qed.

Lemma dashboard_issues_explain_row (rq : Request) (s : Store)
    (row : LabAccess.t) (lab : Lab.t) (compliant : bool)
    (t : list string) (d : list (string * Z)) :
  NoDup (map Course.id (courses s)) ->
  Lab_get s (LabAccess.lab_id row) = Some lab ->
  dashboard_issues rq s row lab = Ok (compliant, t, d) ->
  is_compliant_for_lab rq s (LabAccess.engineer_id row)
    (LabAccess.lab_id row) (Some (today rq)) = Ok compliant
  /\ (compliant = true -> t = [] /\ d = [])
  /\ (compliant = false ->
      (forall r, In r (requirements_of s (LabAccess.lab_id row)) ->
                 ~ dangling s r) ->
      t <> [] \/ d <> []).
Proof.
  intros Hcourses Hlab. unfold dashboard_issues.
  destruct (is_compliant_for_lab rq s (LabAccess.engineer_id row)
              (LabAccess.lab_id row) (Some (today rq)))
    as [ [ | ] | err ] eqn:Hc; cbn [bind negb]; [ | | discriminate ].
  - intros [= <- <- <-]. repeat split; auto; discriminate.
  - destruct (training_issues s (LabAccess.engineer_id row) lab (today rq) _)
      as [ t0 | err ] eqn:Ht; cbn [bind]; [ | discriminate ].
    intros [= <- <- <-].
    split; [ reflexivity | ]. split; [ discriminate | ].
    intros _ Hres.
    unfold is_compliant_for_lab in Hc. rewrite Hlab in Hc.
    fold (requirements_of s (LabAccess.lab_id row)) in Hc, Ht.
    destruct (reqs_loop s (LabAccess.engineer_id row) lab (today rq)
                (requirements_of s (LabAccess.lab_id row)))
      as [ [ | ] | err ] eqn:Hloop; cbn [bind negb] in Hc;
      [ | | discriminate ].
    + right.
      destruct (_has_required_acks s (LabAccess.engineer_id row)
                  (LabAccess.lab_id row)) eqn:Hacks;
        cbn [negb] in Hc |- *; [ discriminate | ].
      apply doc_issues_found.
      rewrite <- has_required_acks_loop. exact Hacks.
    + left. eapply training_issues_found; eauto.
Qed.

Lemma dashboard_rows_explained (rq : Request) (s : Store) (st : Status)
    (make : LabAccess.t -> Engineer.t -> Lab.t -> bool -> list string ->
            list (string * Z) -> DashboardItem.t)
    (rows : list LabAccess.t) :
  NoDup (map Lab.id (labs s)) ->
  NoDup (map Course.id (courses s)) ->
  (forall row eng lab c t d,
      DashboardItem.engineer_id (make row eng lab c t d)
      = LabAccess.engineer_id row
      /\ DashboardItem.lab_id (make row eng lab c t d) = LabAccess.lab_id row
      /\ DashboardItem.is_compliant (make row eng lab c t d) = c
      /\ DashboardItem.training_issues (make row eng lab c t d) = t
      /\ DashboardItem.doc_issues (make row eng lab c t d) = d) ->
  (forall row, In row rows ->
               In row (lab_access s) /\ LabAccess.status row = st) ->
  forall items,
    dashboard_rows rq s make rows = Ok items ->
    forall item, In item items -> explained rq s st item.
Proof.
  intros Hlabs Hcourses Hmake.
  induction rows as [ | row rest IH ]; intros Hrows items; simpl.
  - intros [= <-] item [].
  - assert (Hrest : forall r, In r rest ->
                              In r (lab_access s) /\ LabAccess.status r = st).
    { intros r Hr. apply Hrows. now right. }
    destruct (dict_by_id Engineer.id (engineers s)
                (LabAccess.engineer_id row)) as [ eng | ];
      [ | now apply IH ].
    rewrite (dict_by_id_get _ Lab.id (labs s) _ Hlabs).
    fold (Lab_get s (LabAccess.lab_id row)).
    destruct (Lab_get s (LabAccess.lab_id row)) as [ lab | ] eqn:Hlab;
      [ | now apply IH ].
    destruct (dashboard_issues rq s row lab) as [ [[c t] d] | err ] eqn:Hi;
      cbn [bind]; [ | discriminate ].
    destruct (dashboard_rows rq s make rest) as [ its | err ] eqn:Hits;
      cbn [bind]; [ | discriminate ].
    intros [= <-] item [ <- | Hin ]; [ | now apply (IH Hrest its) ].
    cbn [fst snd].
    destruct (Hmake row eng lab c t d) as (He & Hl & Hc & Ht & Hd).
    destruct (dashboard_issues_explain_row rq s row lab c t d Hcourses
                Hlab Hi) as (Hv & Hyes & Hno).
    unfold explained. rewrite He, Hl, Hc, Ht, Hd.
    split; [ | auto ].
    exists row. destruct (Hrows row (or_introl eq_refl)). auto.
Qed.

(** X30.  The issues that the manager's dashboard lists explain its
    verdicts.  With distinct lab ids and course ids, every entry of
    [pending_requests] belongs to a pending row of [lab_access] and every
    entry of [compliance_status] to an active one; the entry carries the
    answer of [is_compliant_for_lab] for the row today; an entry that is
    compliant lists no issue; and an entry that is not compliant lists at
    least one training or document issue, provided every requirement of
    the lab names a course that exists. *)
Theorem dashboard_issues_explain (rq : Request) (s : Store)
    (pending_requests compliance_status : list DashboardItem.t) :
  NoDup (map Lab.id (labs s)) ->
  NoDup (map Course.id (courses s)) ->
  dashboard_lists rq s = Ok (pending_requests, compliance_status) ->
  (forall item, In item pending_requests -> explained rq s pending item)
  /\ (forall item, In item compliance_status -> explained rq s active item).
Proof.
  intros Hlabs Hcourses. unfold dashboard_lists.
  destruct (dashboard_rows rq s pending_item _) as [ p | err ] eqn:Hp;
    cbn [bind]; [ | discriminate ].
  destruct (dashboard_rows rq s status_item _) as [ a | err ] eqn:Ha;
    cbn [bind]; [ | discriminate ].
  intros [= <- <-]. split.
  - eapply (dashboard_rows_explained rq s pending pending_item);
      [ exact Hlabs | exact Hcourses | | | exact Hp ].
    + intros. simpl. auto.
    + intros row Hrow. apply filter_In in Hrow. destruct Hrow as [Hin Hst].
      apply status_eqb_eq in Hst. auto.
  - eapply (dashboard_rows_explained rq s active status_item);
      [ exact Hlabs | exact Hcourses | | | exact Ha ].
    + intros. simpl. auto.
    + intros row Hrow. apply filter_In in Hrow. destruct Hrow as [Hin Hst].
      apply status_eqb_eq in Hst. auto.
Qed.

Lemma dashboard_issues_explain_witness :
  explained sample_request lapsed_store pending
    (DashboardItem.mk 1 "Ava" 1 "Electrical Engineering Lab" (Some "LAB-EE")
       (Some 1717100000) None false ["SAFE-101"] [("Safety Manual", 2)]).
Proof.
  assert (Hlabs : NoDup (map Lab.id (labs lapsed_store))).
  { simpl. apply NoDup_cons; [ intros [] | apply NoDup_nil ]. }
  assert (Hcourses : NoDup (map Course.id (courses lapsed_store))).
  { simpl. apply NoDup_cons; [ intros [] | apply NoDup_nil ]. }
  destruct (dashboard_issues_explain sample_request lapsed_store
              [DashboardItem.mk 1 "Ava" 1 "Electrical Engineering Lab"
                 (Some "LAB-EE") (Some 1717100000) None false ["SAFE-101"]
                 [("Safety Manual", 2)]]
              [] Hlabs Hcourses eq_refl) as [H _].
  apply H. now left.
Defined.
